(** * juta-actions-server: message grouping, duplicate suppression and
      action detection

    A shallow embedding of [src/messageGrouper.js] (class [MessageGrouper])
    and [src/aiProcessor.js] (class [AIProcessor]), with the properties their
    specification states about them.

    Conventions of the embedding.
    - JavaScript strings are [string]s of ASCII code units.  [toLowerCase],
      the regular-expression classes [\w] and [\s] and the default
      [Array.prototype.sort] order are the ASCII ones; code units above 127
      are neither word characters nor white space and have no case.
    - JavaScript numbers that hold epoch times or counts are [Z] or [nat];
      confidences and similarity ratios are exact rationals [Q].  A quotient
      of two set sizes is a [JsNum], which keeps the [NaN] and [Infinity]
      results of a division by zero apart from the finite quotients.  The
      comparisons of such a quotient with 0.7 and 0.8 agree with those on
      IEEE doubles: the division is correctly rounded, so a quotient equal
      to the threshold rounds to the threshold's own double, and any other
      quotient of sizes is further from it than the rounding error.
    - A property that may be missing from an object is an [option]; [None]
      is JavaScript's [undefined].
    - A [Set] of strings is the list of its elements in insertion order, a
      [Map] keyed by user id is a [gmap].
    - Calls to collaborators (database, classifier, push service, socket)
      are answered by an explicit environment and leave an [Event] in a
      trace; an exception is an explicit [Threw] result.
    - Time is a logical clock in milliseconds; a [setTimeout] callback
      runs at the instant it was set for.

    Not modelled: the text of the classifier prompt, the SQL of the
    history queries (their rows are inputs), and the hourly [cleanup]. *)

From Stdlib Require Import String Ascii List ZArith QArith Lia Bool Permutation Sorted.
From stdpp Require Import gmap strings list pretty sorting.

Set Default Proof Using "Type".
Open Scope string_scope.

(** ** JavaScript string primitives *)

Module Js.

Definition code (c : ascii) : N := N_of_ascii c.

Definition between (lo hi : N) (c : ascii) : bool :=
  ((lo <=? code c) && (code c <=? hi))%N.

Definition isUpper (c : ascii) : bool := between 65 90 c.
Definition isLower (c : ascii) : bool := between 97 122 c.
Definition isDigit (c : ascii) : bool := between 48 57 c.

(** [\w] is [[A-Za-z0-9_]]. *)
Definition isWord (c : ascii) : bool :=
  isUpper c || isLower c || isDigit c || (code c =? 95)%N.

(** [\s] on ASCII: tab, line feed, vertical tab, form feed, carriage
    return and space. *)
Definition isSpace (c : ascii) : bool :=
  between 9 13 c || (code c =? 32)%N.

Definition lowerChar (c : ascii) : ascii :=
  if isUpper c then ascii_of_N (code c + 32) else c.

Fixpoint mapChars (f : ascii -> ascii) (s : string) : string :=
  match s with
  | EmptyString => EmptyString
  | String c s' => String (f c) (mapChars f s')
  end.

Fixpoint filterChars (p : ascii -> bool) (s : string) : string :=
  match s with
  | EmptyString => EmptyString
  | String c s' => if p c then String c (filterChars p s') else filterChars p s'
  end.

(** [s.toLowerCase()] *)
Definition toLowerCase (s : string) : string := mapChars lowerChar s.

(** [s.replace(/[^\w\s]/g, '')] *)
Definition stripPunctuation (s : string) : string :=
  filterChars (fun c => isWord c || isSpace c) s.

(** [s.replace(/[^\w\s]/g, ' ')] *)
Definition blankPunctuation (s : string) : string :=
  mapChars (fun c => if isWord c || isSpace c then c else " "%char) s.

(** [s.split(sep)] for a one-character separator: the empty string
    splits into one empty piece, and two separators in a row enclose an
    empty piece. *)
Fixpoint splitOn (sep : ascii) (s : string) : list string :=
  match s with
  | EmptyString => [EmptyString]
  | String c s' =>
      if Ascii.eqb c sep then EmptyString :: splitOn sep s'
      else match splitOn sep s' with
           | w :: ws => String c w :: ws
           | [] => [String c EmptyString]
           end
  end.

(** [s.split(/\s+/)]: a maximal run of white space is one separator;
    [inRun] tells that the character before was white space. *)
Fixpoint splitWsFrom (inRun : bool) (s : string) : list string :=
  match s with
  | EmptyString => [EmptyString]
  | String c s' =>
      if isSpace c then
        if inRun then splitWsFrom true s' else EmptyString :: splitWsFrom true s'
      else match splitWsFrom false s' with
           | w :: ws => String c w :: ws
           | [] => [String c EmptyString]
           end
  end.

Definition splitWs (s : string) : list string := splitWsFrom false s.

(** [s.includes(sub)] *)
Fixpoint includes (s sub : string) : bool :=
  String.prefix sub s ||
  match s with
  | EmptyString => false
  | String _ s' => includes s' sub
  end.

(** [words.join(sep)] *)
Fixpoint join (sep : string) (ws : list string) : string :=
  match ws with
  | [] => EmptyString
  | [w] => w
  | w :: ws' => w ++ sep ++ join sep ws'
  end.

(** [words.sort()] with the default comparison: code-unit order. *)
Fixpoint insertString (w : string) (ws : list string) : list string :=
  match ws with
  | [] => [w]
  | v :: ws' => if String.leb w v then w :: v :: ws' else v :: insertString w ws'
  end.

Definition sort (ws : list string) : list string := foldr insertString [] ws.

(** [arr.slice(0, n)] and [arr.slice(-n)]. *)
Definition sliceTo {A} (n : nat) (l : list A) : list A := take n l.
Definition sliceLast {A} (n : nat) (l : list A) : list A := drop (length l - n) l.

(** A [Set] in insertion order. *)
Definition setHas (s : list string) (x : string) : bool := existsb (String.eqb x) s.
Definition setAdd (s : list string) (x : string) : list string :=
  if setHas s x then s else s ++ [x].
Definition setOf (l : list string) : list string := fold_left setAdd l [].

(** The result of dividing one size by another. *)
Inductive JsNum : Type :=
| Finite (q : Q)
| Infinite
| NaN.

Definition divSizes (a b : nat) : JsNum :=
  match b with
  | O => match a with O => NaN | S _ => Infinite end
  | S _ => Finite (Z.of_nat a # Pos.of_nat b)
  end.

(** [x > y] on rationals. *)
Definition Qgtb (x y : Q) : bool :=
  (Qnum y * Zpos (Qden x) <? Qnum x * Zpos (Qden y))%Z.

(** [x > threshold]; every comparison with [NaN] is false. *)
Definition gtNum (x : JsNum) (threshold : Q) : bool :=
  match x with
  | Finite q => Qgtb q threshold
  | Infinite => true
  | NaN => false
  end.

End Js.

(** ** Data model *)

(** [messageData], as [sessionManager.js] builds it and as
    [createCombinedMessage] extends it.  [m_isGroupedMessage] and
    [m_messageCount] are missing from a message that was not combined. *)
Record Message : Type := mkMessage {
  m_id : string;
  m_from : string;
  m_fromName : string;
  m_chatName : string;
  m_body : string;
  m_timestamp : Z;
  m_isGroup : bool;
  m_fromMe : bool;
  m_userId : Z;
  m_isGroupedMessage : bool;
  m_messageCount : option nat
}.

(** [timestamp: message.timestamp || Date.now()] in [sessionManager.js]:
    a missing or zero transport timestamp is replaced by the clock. *)
Definition ingestTimestamp (transport : option Z) (now : Z) : Z :=
  match transport with
  | Some t => if (t =? 0)%Z then now else t
  | None => now
  end.

(** [a] and [b] follow each other in [l]. *)
Definition adjacent {A} (l : list A) (a b : A) : Prop :=
  exists i : nat, l !! i = Some a /\ l !! S i = Some b.

(** ** SenderGrouper: [groupMessagesByTimeAndSender] *)

Module SenderGrouper.

(** [messages.sort((a, b) => a.timestamp - b.timestamp)]; the sort is
    stable: a message is placed before the first message that is not
    earlier than it, so ties keep their order. *)
Fixpoint insertByTimestamp (m : Message) (l : list Message) : list Message :=
  match l with
  | [] => [m]
  | x :: l' =>
      if (m_timestamp m <=? m_timestamp x)%Z then m :: x :: l'
      else x :: insertByTimestamp m l'
  end.

Definition sortByTimestamp (messages : list Message) : list Message :=
  foldr insertByTimestamp [] messages.

Definition senderKey (message : Message) : string :=
  if m_isGroup message then
    (if m_fromMe message then "me" else "other_" ++ m_fromName message)
  else m_from message.

Record LoopState : Type := mkLoop {
  groups : list (list Message);
  currentGroup : list Message;
  currentSender : option string;
  currentTime : option Z
}.

Definition initial : LoopState := mkLoop [] [] None None.

(** [currentTime ? messageTime - currentTime : 0]: [null] and [0] are
    both falsy. *)
Definition timeDiffOf (currentTime : option Z) (messageTime : Z) : Z :=
  match currentTime with
  | Some t => if (t =? 0)%Z then 0 else messageTime - t
  | None => 0
  end.

Definition sameSender (currentSender : option string) (key : string) : bool :=
  match currentSender with
  | Some s => String.eqb s key
  | None => false
  end.

(** The body of the [for] loop. *)
Definition step (st : LoopState) (message : Message) : LoopState :=
  let messageTime := (m_timestamp message * 1000)%Z in
  let timeDiff := timeDiffOf (currentTime st) messageTime in
  let key := senderKey message in
  if sameSender (currentSender st) key && (timeDiff <? 300000)%Z then
    mkLoop (groups st) (currentGroup st ++ [message]) (currentSender st) (Some messageTime)
  else
    mkLoop
      (if (0 <? length (currentGroup st))%nat then groups st ++ [currentGroup st] else groups st)
      [message] (Some key) (Some messageTime).

Definition finish (st : LoopState) : list (list Message) :=
  if (0 <? length (currentGroup st))%nat then groups st ++ [currentGroup st] else groups st.

Definition groupMessagesByTimeAndSender (messages : list Message) : list (list Message) :=
  finish (fold_left step (sortByTimestamp messages) initial).

(** Two messages that follow each other in the sorted batch stay in one
    run: same grouping key, and less than five minutes apart. *)
Definition joins (a b : Message) : Prop :=
  senderKey a = senderKey b /\
  (m_timestamp b * 1000 - m_timestamp a * 1000 < 300000)%Z.

Definition byTimestamp (a b : Message) : Prop := (m_timestamp a <= m_timestamp b)%Z.

(** What holds of the loop state once the messages [processed] have
    been through the loop. *)
Record LoopInvariant (st : LoopState) (processed : list Message) : Prop := {
  inv_concat : concat (finish st) = processed;
  inv_nonempty : Forall (fun run => run <> []) (finish st);
  inv_current :
    match last processed with
    | None => currentGroup st = [] /\ currentSender st = None
    | Some a =>
        last (currentGroup st) = Some a
        /\ currentSender st = Some (senderKey a)
        /\ currentTime st = Some (m_timestamp a * 1000)%Z
    end;
  inv_within :
    forall (run : list Message) (a b : Message),
      In run (finish st) -> adjacent run a b -> joins a b;
  inv_between :
    forall (r1 r2 : list Message) (a b : Message),
      adjacent (finish st) r1 r2 -> last r1 = Some a -> head r2 = Some b -> ~ joins a b
}.

End SenderGrouper.

(** ** Candidate actions and conversation history *)

(** [action.details]; every property may be missing. *)
Record Details : Type := mkDetails {
  d_title : option string;
  d_content : option string;
  d_datetime : option Z;
  d_priority : option string;
  d_category : option string;
  d_urgency_reason : option string;
  d_suggested_actions : option (list string);
  d_context : option string
}.

(** A candidate action.  The classifier's response format and
    [fallbackProcessing] have no [originalMessage] property;
    [saveAndEmitAction] attaches one to its own copy of the action. *)
Record Action : Type := mkAction {
  a_type : string;
  a_description : string;
  a_details : option Details;
  a_confidence : Q;
  a_originalMessage : option Message
}.

(** A row of [ai_actions] as [loadConversationHistoryForSender] maps it.
    The column [original_message] is [JSONB NOT NULL] and holds the
    [messageData] the action was saved with. *)
Record HistoryEntry : Type := mkHistory {
  h_type : string;
  h_description : string;
  h_details : option Details;
  h_createdAt : Z;
  h_originalMessage : Message
}.

(** Configuration constants of the [MessageGrouper] constructor. *)
Definition GROUP_DELAY_MS : Z := 15000.
Definition MAX_GROUP_SIZE : nat := 5.
Definition DUPLICATE_SIMILARITY_THRESHOLD : Q := 8 # 10.
Definition GROUP_TOPIC_SIMILARITY_THRESHOLD : Q := 7 # 10.

(** ** DuplicateGuard *)

Module DuplicateGuard.

(** [createActionSignature] *)
Definition createActionSignature (action : Action) : string :=
  let descWords :=
    Js.join "-"
      (Js.sort
         (Js.sliceTo 3
            (filter (fun word => 2 <? String.length word)%nat
               (Js.splitOn " "
                  (Js.stripPunctuation (Js.toLowerCase (a_description action))))))) in
  a_type action ++ "-" ++ descWords.

(** [calculateStringSimilarity] *)
Definition calculateStringSimilarity (str1 str2 : string) : Js.JsNum :=
  let words1 := Js.setOf (Js.splitOn " " str1) in
  let words2 := Js.setOf (Js.splitOn " " str2) in
  let intersection := Js.setOf (filter (fun x => Js.setHas words2 x) words1) in
  let union := Js.setOf (words1 ++ words2) in
  Js.divSizes (length intersection) (length union).

(** [action.originalMessage && action.originalMessage.fromMe]:
    [undefined] when the action carries no message. *)
Definition currentFromMe (action : Action) : option bool :=
  m_fromMe <$> a_originalMessage action.

(** [historyAction.originalMessage && historyAction.originalMessage.fromMe] *)
Definition historyFromMe (historyAction : HistoryEntry) : option bool :=
  Some (m_fromMe (h_originalMessage historyAction)).

(** [===] on the two values above. *)
Definition strictEq (x y : option bool) : bool :=
  match x, y with
  | Some a, Some b => Bool.eqb a b
  | None, None => true
  | _, _ => false
  end.

(** The test the loop of [isSimilarToConversationHistory] makes on one
    history entry. *)
Definition similarEntry (action : Action) (historyAction : HistoryEntry) : bool :=
  String.eqb (h_type historyAction) (a_type action)
  && strictEq (currentFromMe action) (historyFromMe historyAction)
  && Js.gtNum
       (calculateStringSimilarity
          (Js.toLowerCase (a_description action))
          (Js.toLowerCase (h_description historyAction)))
       DUPLICATE_SIMILARITY_THRESHOLD.

(** [isSimilarToConversationHistory] *)
Definition isSimilarToConversationHistory
    (action : Action) (conversationHistory : list HistoryEntry) : bool :=
  let recentActions := Js.sliceTo 5 conversationHistory in
  existsb (similarEntry action) recentActions.

(** [action.originalMessage && action.originalMessage.fromMe === true] *)
Definition isOutgoingMessage (action : Action) : bool :=
  match a_originalMessage action with
  | Some m => m_fromMe m
  | None => false
  end.

(** One turn of the loop of [filterDuplicateActions] on the pair
    ([filtered], [userDuplicates]). *)
Definition filterStep (conversationHistory : list HistoryEntry)
    (acc : list Action * list string) (action : Action) : list Action * list string :=
  let '(filtered, userDuplicates) := acc in
  let signature := createActionSignature action in
  if isOutgoingMessage action then
    ((filtered ++ [action])%list, Js.setAdd userDuplicates signature)
  else if Js.setHas userDuplicates signature then
    (filtered, userDuplicates)
  else if isSimilarToConversationHistory action conversationHistory then
    (filtered, userDuplicates)
  else
    ((filtered ++ [action])%list, Js.setAdd userDuplicates signature).

(** [filterDuplicateActions]: the accepted actions and the new
    [duplicateTracker]. *)
Definition filterDuplicateActions
    (duplicateTracker : gmap Z (list string))
    (actions : list Action) (userId : Z) (conversationHistory : list HistoryEntry)
  : list Action * gmap Z (list string) :=
  let userDuplicates := default [] (duplicateTracker !! userId) in
  let '(filtered, userDuplicates') :=
    fold_left (filterStep conversationHistory) actions ([], userDuplicates) in
  (filtered, <[userId := userDuplicates']> duplicateTracker).

(** [getDuplicateActionSignatures] *)
Definition getDuplicateActionSignatures
    (duplicateTracker : gmap Z (list string)) (userId : Z) : list string :=
  default [] (duplicateTracker !! userId).

End DuplicateGuard.

(** ** GroupTopicTracker *)

(** A row of the query of [loadGroupTopicContext]. *)
Record TopicRow : Type := mkTopicRow {
  r_type : string;
  r_description : string;
  r_details : option Details;
  r_user_id : Z;
  r_created_at : Z
}.

(** An entry of [topic.actions]. *)
Record TopicAction : Type := mkTopicAction {
  ta_description : string;
  ta_details : option Details;
  ta_userId : Z;
  ta_createdAt : Z
}.

(** A topic cluster as [loadGroupTopicContext] returns it: [users] is the
    array made from the cluster's [Set] of user ids. *)
Record Topic : Type := mkTopic {
  t_type : string;
  t_description : string;
  t_users : list Z;
  t_actions : list TopicAction;
  t_lastUpdate : Z
}.

Module GroupTopicTracker.

Definition commonWords : list string :=
  ["the"; "and"; "or"; "but"; "in"; "on"; "at"; "to"; "for"; "of"; "with"; "by";
   "is"; "are"; "was"; "were"; "be"; "been"; "have"; "has"; "had"; "do"; "does";
   "did"; "will"; "would"; "could"; "should"; "may"; "might"; "can"; "must"; "shall"].

(** [extractTopicKeywords] *)
Definition extractTopicKeywords (text : string) : list string :=
  Js.sliceTo 10
    (filter (fun word => (2 <? String.length word)%nat && negb (Js.setHas commonWords word))
       (Js.splitWs (Js.blankPunctuation (Js.toLowerCase text)))).

(** [calculateKeywordOverlap] *)
Definition calculateKeywordOverlap (keywords1 keywords2 : list string) : Js.JsNum :=
  if (length keywords1 =? 0)%nat || (length keywords2 =? 0)%nat then Js.Finite 0
  else
    let set1 := Js.setOf keywords1 in
    let set2 := Js.setOf keywords2 in
    let intersection := Js.setOf (filter (fun x => Js.setHas set2 x) set1) in
    let union := Js.setOf (set1 ++ set2) in
    Js.divSizes (length intersection) (length union).

(** [topic.users.includes(userId)] *)
Definition usersInclude (users : list Z) (userId : Z) : bool :=
  existsb (Z.eqb userId) users.

(** [(Date.now() - new Date(topic.lastUpdate).getTime()) / (1000 * 60 * 60)] *)
Definition hoursSinceLastAction (now : Z) (topic : Topic) : Q :=
  (now - t_lastUpdate topic) # 3600000.

(** The test the loop of [checkGroupTopicDuplicate] makes on one topic. *)
Definition topicMatches (messageKeywords : list string) (userId now : Z) (topic : Topic) : bool :=
  let topicKeywords := extractTopicKeywords (t_description topic) in
  let overlap := calculateKeywordOverlap messageKeywords topicKeywords in
  Js.gtNum overlap GROUP_TOPIC_SIMILARITY_THRESHOLD
  && (usersInclude (t_users topic) userId
      || ((2 <=? length (t_users topic))%nat && (2 <=? length (t_actions topic))%nat
          && Js.Qgtb 2 (hoursSinceLastAction now topic))).

(** [checkGroupTopicDuplicate]; [now] is [Date.now()]. *)
Definition checkGroupTopicDuplicate
    (messageData : Message) (groupTopicContext : list Topic) (userId now : Z) : bool :=
  let messageKeywords := extractTopicKeywords (m_body messageData) in
  existsb (topicMatches messageKeywords userId now) groupTopicContext.

(** [topic.users.add(row.user_id)] on a [Set] of user ids. *)
Definition addUser (users : list Z) (userId : Z) : list Z :=
  if usersInclude users userId then users else users ++ [userId].

(** [topicMap]: the clusters by key, in insertion order. *)
Fixpoint upsertTopic (key : string) (row : TopicRow) (topicMap : list (string * Topic))
  : list (string * Topic) :=
  let record topic :=
    mkTopic (t_type topic) (t_description topic)
      (addUser (t_users topic) (r_user_id row))
      (t_actions topic ++
         [mkTopicAction (r_description row) (r_details row) (r_user_id row) (r_created_at row)])
      (t_lastUpdate topic) in
  match topicMap with
  | [] => [(key, record (mkTopic (r_type row) (r_description row) [] [] (r_created_at row)))]
  | (k, topic) :: rest =>
      if String.eqb k key then (k, record topic) :: rest
      else (k, topic) :: upsertTopic key row rest
  end.

Definition actionKey (row : TopicRow) : string :=
  r_type row ++ "-" ++ Js.join "-" (extractTopicKeywords (r_description row)).

(** [loadGroupTopicContext] on the rows the query returned. *)
Definition topicsOfRows (rows : list TopicRow) : list Topic :=
  map snd (fold_left (fun topicMap row => upsertTopic (actionKey row) row topicMap) rows []).

(** The keyword overlap of a message body with a cluster's description
    exceeds the topic threshold. *)
Definition overlapExceeds (body : string) (topic : Topic) : Prop :=
  exists q : Q,
    calculateKeywordOverlap (extractTopicKeywords body)
      (extractTopicKeywords (t_description topic)) = Js.Finite q
    /\ (GROUP_TOPIC_SIMILARITY_THRESHOLD < q)%Q.

(** At least two distinct users are recorded. *)
Definition twoDistinct (users : list Z) : Prop :=
  exists u v : Z, u <> v /\ In u users /\ In v users.

End GroupTopicTracker.

(** ** AIProcessor *)

Module AIProcessor.

(** What the classification call and [JSON.parse] gave: the call (or the
    reading of its reply) threw, the reply did not parse as an array of
    actions, or it did.  The parsed candidates are not validated.  In
    [Parsed] the candidate that the selection returns, if any, has a
    string [description]; in [ParsedUntyped] its [description] is missing
    or not a string, and [a_description] of that candidate stands for
    nothing. *)
Inductive Completion : Type :=
| CallThrows
| ParseThrows
| Parsed (actions : list Action)
| ParsedUntyped (actions : list Action).

(** [actions.reduce((best, current) =>
      current.confidence > best.confidence ? current : best)] *)
Definition better (best current : Action) : Action :=
  if Js.Qgtb (a_confidence current) (a_confidence best) then current else best.

Definition reduceBest (first : Action) (rest : list Action) : Action :=
  fold_left better rest first.

(** The confidence filter and the choice of the best action, in the
    [try] block after [JSON.parse]. *)
Definition selectBest (actions : list Action) : list Action :=
  let highConfidenceActions :=
    filter (fun action => Js.Qgtb (a_confidence action) (7 # 10)) actions in
  match highConfidenceActions with
  | [] => []
  | first :: rest => [reduceBest first rest]
  end.

(** [keywords.some(keyword => message.includes(keyword))] *)
Definition someIncluded (keywords : list string) (message : string) : bool :=
  existsb (fun keyword => Js.includes message keyword) keywords.

Definition timeKeywords : list string :=
  ["remind me"; "don't forget"; "remember to"; "tomorrow"; "today"; "later";
   "next week"; "esok"; "monday"; "tuesday"; "wednesday"; "thursday"; "friday";
   "saturday"; "sunday"; "am"; "pm"; "o'clock"; "morning"; "afternoon"; "evening";
   "night"].
Definition eventKeywords : list string :=
  ["meeting"; "appointment"; "schedule"; "course"; "training"; "session";
   "conference"; "call"; "webinar"; "workshop"; "seminar"; "presentation"; "demo";
   "interview"; "event"].
Definition taskKeywords : list string :=
  ["need to"; "have to"; "should"; "must"; "todo"; "task"; "complete"; "finish";
   "do this"; "work on"; "handle"; "deal with"; "take care"].
Definition noteKeywords : list string :=
  ["note this"; "save this"; "write down"; "remember that"; "important";
   "information"; "details"; "reference"; "document"; "record"].
Definition issueKeywords : list string :=
  ["problem"; "issue"; "not working"; "broken"; "error"; "help"; "unstable";
   "couldn't"; "failed"; "bug"; "trouble"; "wrong"; "stuck"; "crash"; "freeze";
   "slow"; "can't"; "won't"; "doesn't"].
Definition businessKeywords : list string :=
  ["customer"; "client"; "business"; "project"; "work"; "deadline"; "proposal";
   "contract"; "sale"; "revenue"; "profit"; "marketing"; "campaign"; "launch"].
Definition questionKeywords : list string :=
  ["?"; "how"; "what"; "why"; "when"; "where"; "who"; "which"; "can you";
   "could you"; "would you"; "should i"; "is it"; "are you"; "do you"].
Definition learningKeywords : list string :=
  ["learn"; "study"; "course"; "tutorial"; "training"; "skill"; "knowledge";
   "research"; "understand"; "teach"; "education"; "book"; "read"; "practice"].
Definition financeKeywords : list string :=
  ["money"; "pay"; "payment"; "invoice"; "bill"; "cost"; "price"; "budget";
   "expense"; "income"; "profit"; "loss"; "investment"; "bank"; "account"].
Definition healthKeywords : list string :=
  ["doctor"; "appointment"; "medicine"; "health"; "sick"; "pain"; "exercise";
   "gym"; "diet"; "nutrition"; "wellness"; "therapy"; "checkup"].
Definition shoppingKeywords : list string :=
  ["buy"; "purchase"; "shop"; "order"; "delivery"; "shipping"; "product"; "item";
   "store"; "market"; "sale"; "discount"; "cart"].
Definition travelKeywords : list string :=
  ["travel"; "trip"; "flight"; "hotel"; "booking"; "reservation"; "ticket";
   "vacation"; "holiday"; "transport"; "uber"; "taxi"; "airport"].
Definition creativeKeywords : list string :=
  ["create"; "design"; "write"; "content"; "post"; "blog"; "video"; "photo";
   "image"; "graphic"; "logo"; "brand"; "creative"; "idea"; "brainstorm"].
Definition adminKeywords : list string :=
  ["form"; "application"; "register"; "signup"; "paperwork"; "document";
   "certificate"; "license"; "renewal"; "submission"; "filing"; "process"].

(** An action literal of [fallbackProcessing]; [content] is always
    [messageData.body]. *)
Definition literal (type description title : string) (body : string)
    (datetime : option Z) (priority category : string)
    (urgency_reason : option string) (suggested_actions : list string)
    (context : option string) (confidence : Q) : Action :=
  mkAction type description
    (Some (mkDetails (Some title) (Some body) datetime (Some priority) (Some category)
             urgency_reason (Some suggested_actions) context))
    confidence None.

(** [if (keywords.some(...)) actions.push(action)] *)
Definition pushIf (condition : bool) (action : Action) (actions : list Action) : list Action :=
  if condition then actions ++ [action] else actions.

(** [fallbackProcessing]; [now] is [Date.now()]. *)
Definition fallbackCandidates (messageData : Message) (now : Z) : list Action :=
  let message := Js.toLowerCase (m_body messageData) in
  let body := m_body messageData in
  let actions := [] in
  let actions := pushIf (someIncluded timeKeywords message)
    (literal "reminder" "Time-based reminder or scheduling needed" "Reminder/Schedule" body
       (Some (now + 24 * 60 * 60 * 1000)%Z) "medium" "scheduling" None
       ["Set reminder"; "Add to calendar"; "Create alert"] None (8 # 10)) actions in
  let actions := pushIf (someIncluded eventKeywords message)
    (literal "event" "Schedule event or meeting" "Event Planning" body
       None "high" "calendar" None
       ["Add to calendar"; "Send invites"; "Set reminder"] None (8 # 10)) actions in
  let actions := pushIf (someIncluded taskKeywords message)
    (literal "task" "Task or action item identified" "Task Assignment" body
       None "medium" "productivity" None
       ["Add to task list"; "Set deadline"; "Track progress"] None (75 # 100)) actions in
  let actions := pushIf (someIncluded noteKeywords message)
    (literal "note" "Information to save and organize" "Note Taking" body
       None "low" "information" None
       ["Save to notes"; "Tag and organize"; "Create reference"] None (8 # 10)) actions in
  let actions := pushIf (someIncluded issueKeywords message)
    (literal "issue" "Technical or system issue reported" "Issue Resolution" body
       None "high" "support" (Some "System issues affect productivity")
       ["Debug problem"; "Find solution"; "Contact support"; "Document fix"] None
       (8 # 10)) actions in
  let actions := pushIf (someIncluded businessKeywords message)
    (literal "follow_up" "Business or client matter needs attention" "Business Follow-up" body
       None "medium" "business" None
       ["Schedule follow-up"; "Contact client"; "Update project status"; "Send proposal"]
       None (75 # 100)) actions in
  let actions := pushIf (someIncluded questionKeywords message)
    (literal "communication" "Question requires response" "Response Needed" body
       None "medium" "communication" None
       ["Research answer"; "Provide response"; "Ask for clarification"] None
       (75 # 100)) actions in
  let actions := pushIf (someIncluded learningKeywords message)
    (literal "learning" "Learning or educational content" "Learning Opportunity" body
       None "medium" "education" None
       ["Find resources"; "Schedule learning time"; "Create study plan"] None
       (7 # 10)) actions in
  let actions := pushIf (someIncluded financeKeywords message)
    (literal "finance" "Financial matter needs attention" "Financial Task" body
       None "high" "finance" None
       ["Review finances"; "Process payment"; "Update budget"; "Track expenses"] None
       (8 # 10)) actions in
  let actions := pushIf (someIncluded healthKeywords message)
    (literal "health" "Health-related task or reminder" "Health & Wellness" body
       None "high" "health" None
       ["Schedule appointment"; "Set health reminder"; "Track wellness"] None
       (8 # 10)) actions in
  let actions := pushIf (someIncluded shoppingKeywords message)
    (literal "shopping" "Shopping or purchase task" "Shopping List" body
       None "low" "shopping" None
       ["Add to shopping list"; "Compare prices"; "Check availability"] None
       (7 # 10)) actions in
  let actions := pushIf (someIncluded travelKeywords message)
    (literal "travel" "Travel planning or logistics" "Travel Planning" body
       None "medium" "travel" None
       ["Book travel"; "Plan itinerary"; "Set reminders"; "Check requirements"] None
       (8 # 10)) actions in
  let actions := pushIf (someIncluded creativeKeywords message)
    (literal "creative" "Creative or content creation task" "Creative Project" body
       None "medium" "creative" None
       ["Start project"; "Gather resources"; "Create timeline"; "Review requirements"] None
       (7 # 10)) actions in
  let actions := pushIf (someIncluded adminKeywords message)
    (literal "administrative" "Administrative task or paperwork" "Admin Task" body
       None "medium" "administrative" None
       ["Complete forms"; "Gather documents"; "Set deadline"; "Track progress"] None
       (75 # 100)) actions in
  pushIf ((50 <? String.length body)%nat && (length actions =? 0)%nat)
    (literal "note" "Detailed message - likely contains important information"
       "Information Capture" body
       None "low" "general" None
       ["Review content"; "Extract key points"; "Determine next steps"]
       (Some "Long message flagged for review") (6 # 10)) actions.

(** A list that starts with [first] and goes on with candidates of
    confidence at most [bound]. *)
Definition headed (first : Action) (bound : Q) (actions : list Action) : Prop :=
  exists rest : list Action,
    actions = first :: rest /\ Forall (fun a => (a_confidence a <= bound)%Q) rest.

Definition fallbackProcessing (messageData : Message) (now : Z) : list Action :=
  match fallbackCandidates messageData now with
  | [] => []
  | first :: rest => [reduceBest first rest]
  end.

(** [processMessageWithHistory], from the reply of the classification
    call on.  The prompt that is built from the history, the signatures
    and the topic context goes to the classifier and is not modelled. *)
Definition processMessageWithHistory
    (messageData : Message) (completion : Completion) (now : Z) : list Action :=
  match completion with
  | Parsed actions => selectBest actions
  | ParsedUntyped actions => selectBest actions
  | ParseThrows => []
  | CallThrows => fallbackProcessing messageData now
  end.

(** Whether [action.description.toLowerCase()] can be evaluated on the
    candidate that [processMessageWithHistory] returns. *)
Definition descriptionIsString (completion : Completion) : bool :=
  match completion with
  | ParsedUntyped _ => false
  | _ => true
  end.

End AIProcessor.

(** ** Effects: collaborator calls, traces and exceptions *)

(** [actionDetails] of [saveAndEmitAction], after the defaults. *)
Record ActionDetails : Type := mkActionDetails {
  ad_title : string;
  ad_content : string;
  ad_datetime : option Z;
  ad_priority : string;
  ad_category : string;
  ad_urgency_reason : string;
  ad_suggested_actions : list string;
  ad_context : string
}.

(** The payload of the [newAction] socket event. *)
Record NewActionPayload : Type := mkPayload {
  p_actionId : string;
  p_type : string;
  p_description : string;
  p_details : ActionDetails;
  p_confidence : Q;
  p_fromName : string;
  p_from : string;
  p_chatName : string;
  p_body : string;
  p_timestamp : Z;
  p_isGroup : bool;
  p_isGroupedMessage : bool;
  p_messageCount : nat
}.

Module Effect.

(** A call that left the process, or a line on [console.error]. *)
Inductive Event : Type :=
| CheckExisting (messageIds : list string) (userId : Z)
| Classify (combinedMessage : Message)
| Persist (actionId type description : string) (messageData : Message)
    (details : ActionDetails) (userId : Z)
| PlayerLookup (userId : Z)
| Push (actionId : string) (playerId : string)
| Emit (userId : Z) (payload : NewActionPayload)
| ConsoleError (context : string)
| UpdateConversationHistory (userId : Z) (chatId : string) (actions : list Action)
| UpdateGroupTopicTracker (chatId : string) (actions : list Action) (userId : Z).

Inductive Outcome (A : Type) : Type :=
| Returned (a : A)
| Threw.
Arguments Returned {A} a.
Arguments Threw {A}.

(** A computation: the trace it leaves and how it ends. *)
Definition M (A : Type) : Type := (list Event * Outcome A)%type.

Definition ret {A} (a : A) : M A := ([], Returned a).
Definition throw {A} : M A := ([], Threw).
Definition call (e : Event) : M unit := ([e], Returned tt).

Definition bind {A B} (m : M A) (f : A -> M B) : M B :=
  match m with
  | (tr, Returned a) => let '(tr', r) := f a in ((tr ++ tr')%list, r)
  | (tr, Threw) => (tr, Threw)
  end.

(** [try { m } catch (error) { handler }] *)
Definition tryCatch {A} (m : M A) (handler : M A) : M A :=
  match m with
  | (tr, Threw) => let '(tr', r) := handler in ((tr ++ tr')%list, r)
  | (tr, Returned a) => (tr, Returned a)
  end.

(** [for (const x of xs) await body(x)] *)
Fixpoint forEach {A} (xs : list A) (body : A -> M unit) : M unit :=
  match xs with
  | [] => ret tt
  | x :: xs' => bind (body x) (fun _ => forEach xs' body)
  end.

Definition trace {A} (m : M A) : list Event := fst m.
Definition outcome {A} (m : M A) : Outcome A := snd m.

End Effect.

Notation "'let!' x := m 'in' k" := (Effect.bind m (fun x => k))
  (at level 10, x name, m at level 100, k at level 200).
Notation "'do!' m 'in' k" := (Effect.bind m (fun _ => k))
  (at level 10, m at level 100, k at level 200).

(** What the collaborators answer during one call of [processMessageGroup]. *)
Inductive QueryResult (A : Type) : Type :=
| Rows (rows : A)
| QueryThrows.
Arguments Rows {A} rows.
Arguments QueryThrows {A}.

Record Collaborators : Type := mkCollaborators {
  (** [this.db && typeof this.db.query === 'function'] *)
  dbAvailable : bool;
  (** number of rows of the query of [checkExistingActions] *)
  existingRows : list string -> Z -> QueryResult nat;
  (** the classification call and [JSON.parse] *)
  completion : Message -> AIProcessor.Completion;
  (** whether the [INSERT] of an action id succeeds *)
  insertAction : string -> QueryResult unit;
  (** [this.oneSignalClient] is set *)
  oneSignalAvailable : bool;
  (** [onesignal_player_id] of the user, if the row has one *)
  playerIdOf : Z -> QueryResult (option string);
  (** [oneSignalClient.createNotification] *)
  createNotification : string -> QueryResult unit;
  (** the id [saveAndEmitAction] draws for an action from the clock and
      [Math.random] *)
  freshActionId : Action -> string;
  (** [extractDatetime(body)]: the regular-expression search for a time
      or a day name, and tomorrow's date when one is found *)
  extractDatetime : string -> option Z;
  (** [new Date(ms).toLocaleTimeString()] *)
  toLocaleTimeString : Z -> string;
  (** [Date.now()] *)
  dateNow : Z
}.

(** ** ActionEmitter: [saveAndEmitAction] *)

Module ActionEmitter.
Import Effect.

(** [x || y] on strings that may be missing: the empty string is falsy. *)
Definition orString (x : option string) (y : string) : string :=
  match x with
  | Some s => if String.eqb s EmptyString then y else s
  | None => y
  end.

Definition detail {A} (action : Action) (field : Details -> option A) : option A :=
  a_details action ≫= field.

(** The double-quote character of the templates. *)
Definition dq : string := String (ascii_of_nat 34) EmptyString.

(** [`... from ${messageData.fromName}: "${messageData.body}"`] *)
Definition fromLine (messageData : Message) : string :=
  " from " ++ m_fromName messageData ++ ": " ++ dq ++ m_body messageData ++ dq.

(** [generateActionContent] *)
Definition generateActionContent (action : Action) (messageData : Message) : string :=
  if m_isGroupedMessage messageData then
    "Grouped messages (" ++ from_option pretty "undefined" (m_messageCount messageData)
      ++ ")" ++ fromLine messageData
  else if String.eqb (a_type action) "event" then "Meeting request" ++ fromLine messageData
  else if String.eqb (a_type action) "reminder" then "Reminder" ++ fromLine messageData
  else if String.eqb (a_type action) "task" then "Task" ++ fromLine messageData
  else a_type action ++ fromLine messageData.

(** The object [actionDetails]. *)
Definition actionDetailsOf (env : Collaborators) (action : Action) (messageData : Message)
  : ActionDetails :=
  mkActionDetails
    (orString (detail action d_title)
       (orString (Some (a_description action)) (a_type action ++ " Action")))
    (orString (detail action d_content) (generateActionContent action messageData))
    (match detail action d_datetime with
     | Some d => Some d
     | None => extractDatetime env (m_body messageData)
     end)
    (orString (detail action d_priority) "medium")
    (orString (detail action d_category) (orString (Some (a_type action)) "general"))
    (orString (detail action d_urgency_reason) "Detected from message analysis")
    (default ["Review and take action"] (detail action d_suggested_actions))
    (orString (detail action d_context)
       (if m_isGroupedMessage messageData then "Grouped message analysis"
        else "Single message analysis")).

(** The argument of [emitToUser(userId, 'newAction', ...)]. *)
Definition payloadOf (actionId : string) (action : Action) (details : ActionDetails)
    (messageData : Message) : NewActionPayload :=
  mkPayload actionId (a_type action) (a_description action) details
    (if Qeq_bool (a_confidence action) 0 then 8 # 10 else a_confidence action)
    (m_fromName messageData) (m_from messageData) (m_chatName messageData)
    (m_body messageData) (m_timestamp messageData) (m_isGroup messageData)
    (m_isGroupedMessage messageData)
    (match m_messageCount messageData with
     | Some (S n) => S n
     | _ => 1%nat
     end).

(** [await this.db.query(sql, params)] for a call that returns nothing
    the caller reads. *)
Definition awaitUnit (e : Event) (answer : QueryResult unit) : M unit :=
  do! call e in
  match answer with
  | Rows _ => ret tt
  | QueryThrows => throw
  end.

(** [sendActionNotification]: its own [try]/[catch] keeps every failure
    inside.  The look-up of the player id calls [this.db.query] without
    the guard the other queries have: without a database the call is a
    [TypeError] before any query leaves. *)
Definition sendActionNotification (env : Collaborators) (actionId : string) (userId : Z)
  : M unit :=
  tryCatch
    (if negb (oneSignalAvailable env) then ret tt
     else if negb (dbAvailable env) then throw
     else
       do! call (PlayerLookup userId) in
       match playerIdOf env userId with
       | QueryThrows => throw
       | Rows None => ret tt
       | Rows (Some playerId) =>
           awaitUnit (Push actionId playerId) (createNotification env actionId)
       end)
    (call (ConsoleError "Failed to send OneSignal notification")).

(** [saveAndEmitAction] *)
Definition saveAndEmitAction (env : Collaborators) (action : Action) (messageData : Message)
    (userId : Z) : M unit :=
  let actionId := freshActionId env action in
  tryCatch
    (let actionDetails := actionDetailsOf env action messageData in
     do! (if dbAvailable env then
            awaitUnit
              (Persist actionId (a_type action) (a_description action) messageData
                 actionDetails userId)
              (insertAction env actionId)
          else ret tt) in
     do! sendActionNotification env actionId userId in
     call (Emit userId (payloadOf actionId action actionDetails messageData)))
    (call (ConsoleError "Error saving enhanced action to database")).

(** The three side effects of the emitter. *)
Definition isPersist (e : Event) : bool :=
  match e with Persist _ _ _ _ _ _ => true | _ => false end.
Definition isPush (e : Event) : bool :=
  match e with PlayerLookup _ | Push _ _ => true | _ => false end.
Definition isEmit (e : Event) : bool :=
  match e with Emit _ _ => true | _ => false end.

(** Rank of an event in the order persist, push, live event. *)
Definition rank (e : Event) : option nat :=
  if isPersist e then Some 0%nat
  else if isPush e then Some 1%nat
  else if isEmit e then Some 2%nat
  else None.

Definition ranks (tr : list Event) : list nat := omap rank tr.

End ActionEmitter.

(** ** The pipeline of one run: [processMessageGroup] *)

Module Pipeline.
Import Effect.

Definition newline : string := String (ascii_of_nat 10) EmptyString.

(** [createCombinedMessage]; a run is never empty, [None] stands for the
    call on an empty array.  The property [originalMessages] of the
    combined message is not modelled. *)
Definition createCombinedMessage (env : Collaborators) (messageGroup : list Message)
  : option Message :=
  match messageGroup with
  | [] => None
  | [message] => Some message
  | firstMessage :: _ =>
      let combinedBody :=
        Js.join newline
          (map (fun msg =>
                  "[" ++ toLocaleTimeString env (m_timestamp msg * 1000)%Z ++ "] " ++ m_body msg)
             messageGroup) in
      Some (mkMessage (m_id firstMessage) (m_from firstMessage) (m_fromName firstMessage)
              (m_chatName firstMessage) combinedBody (m_timestamp firstMessage)
              (m_isGroup firstMessage) (m_fromMe firstMessage) (m_userId firstMessage)
              true (Some (length messageGroup)))
  end.

(** [checkExistingActions]: the number of rows found. *)
Definition checkExistingActions (env : Collaborators) (messageGroup : list Message)
    (userId : Z) : M nat :=
  if negb (dbAvailable env) then ret 0%nat
  else
    let messageIds := map m_id messageGroup in
    tryCatch
      (do! call (CheckExisting messageIds userId) in
       match existingRows env messageIds userId with
       | Rows n => ret n
       | QueryThrows => throw
       end)
      (do! call (ConsoleError "Error checking existing actions") in ret 0%nat).

(** [processMessageGroup].  [groupTopicContext] is [null] ([None]) for a
    conversation that is not a group.  The result is the new
    [duplicateTracker]; the writes to the in-memory history and topic
    maps, which no check reads back, are recorded in the trace.
    [filterDuplicateActions] computes the signature of every candidate
    it is given before anything else: for a candidate without a string
    [description] that is a [TypeError], which nothing here catches. *)
Definition processMessageGroup (env : Collaborators)
    (duplicateTracker : gmap Z (list string)) (messageGroup : list Message)
    (userId : Z) (chatId : string) (conversationHistory : list HistoryEntry)
    (groupTopicContext : option (list Topic)) : M (gmap Z (list string)) :=
  match createCombinedMessage env messageGroup with
  | None => ret duplicateTracker
  | Some combinedMessage =>
      let! existingActions := checkExistingActions env messageGroup userId in
      if (0 <? existingActions)%nat then ret duplicateTracker
      else
        let isGroupTopicDuplicate :=
          match groupTopicContext with
          | Some context =>
              m_isGroup combinedMessage
              && GroupTopicTracker.checkGroupTopicDuplicate combinedMessage context userId
                   (dateNow env)
          | None => false
          end in
        if isGroupTopicDuplicate then ret duplicateTracker
        else
          do! call (Classify combinedMessage) in
          let potentialActions :=
            AIProcessor.processMessageWithHistory combinedMessage
              (completion env combinedMessage) (dateNow env) in
          if (0 <? length potentialActions)%nat then
            if negb (AIProcessor.descriptionIsString (completion env combinedMessage))
            then throw
            else
            let '(filteredActions, duplicateTracker') :=
              DuplicateGuard.filterDuplicateActions duplicateTracker potentialActions userId
                conversationHistory in
            do! forEach filteredActions
                  (fun action =>
                     ActionEmitter.saveAndEmitAction env action combinedMessage userId) in
            do! call (UpdateConversationHistory userId chatId filteredActions) in
            do! (if m_isGroup combinedMessage
                 then call (UpdateGroupTopicTracker chatId filteredActions userId)
                 else ret tt) in
            ret duplicateTracker'
          else ret duplicateTracker
  end.

Definition isClassify (e : Event) : bool :=
  match e with Classify _ => true | _ => false end.

End Pipeline.

(** ** TimeWindowBuffer: [processMessage] and [processGroupedMessages] *)

Module TimeWindowBuffer.

(** A message with the clock reading at which [processMessage] received
    it.  The reading is not stored by the source; it is kept here to
    state how long a message waits. *)
Definition Stamped : Type := (Z * Message)%type.

(** The buffer of one (user, chat) pair and the timer registered under
    its [bufferKey]: [timer] is the instant at which the pending
    [setTimeout] callback runs, [None] when no timer is pending.
    [flushed] lists the batches handed to the grouping step, each with
    the instant of the hand-over. *)
Record State : Type := mkState {
  chatBuffer : list Stamped;
  timer : option Z;
  flushed : list (Z * list Stamped)
}.

Definition empty : State := mkState [] None [].

(** [processGroupedMessages] up to the hand-over to the grouping step:
    the timer is cleared and deleted, an empty buffer ends the call, a
    buffer with messages is swapped for a new empty one. *)
Definition processGroupedMessages (now : Z) (st : State) : State :=
  if (length (chatBuffer st) =? 0)%nat then mkState (chatBuffer st) None (flushed st)
  else mkState [] None (flushed st ++ [(now, chatBuffer st)]).

(** [processMessage] at the instant [now]. *)
Definition processMessage (now : Z) (messageData : Message) (st : State) : State :=
  let chatBuffer := (chatBuffer st ++ [(now, messageData)])%list in
  (* clearTimeout(this.processingTimers.get(bufferKey)) *)
  let cleared := mkState chatBuffer None (flushed st) in
  if (MAX_GROUP_SIZE <=? length chatBuffer)%nat then processGroupedMessages now cleared
  else mkState chatBuffer (Some (now + GROUP_DELAY_MS)%Z) (flushed st).

(** The event loop up to the instant [now]: a pending timer that is due
    runs its callback at its own instant. *)
Definition advance (now : Z) (st : State) : State :=
  match timer st with
  | Some due => if (due <=? now)%Z then processGroupedMessages due st else st
  | None => st
  end.

(** A message arrives at [now]: timers due by then have run. *)
Definition arrive (st : State) (arrival : Z * Message) : State :=
  processMessage (fst arrival) (snd arrival) (advance (fst arrival) st).

(** The arrivals in order, then the event loop up to [horizon]. *)
Definition simulate (arrivals : list (Z * Message)) (horizon : Z) : State :=
  advance horizon (fold_left arrive arrivals empty).

(** Arrival instants do not go back. *)
Definition inOrder (arrivals : list (Z * Message)) : Prop :=
  Sorted (fun a b => (fst a <= fst b)%Z) arrivals.

(** Inside a batch, a message arrived less than one delay after the one
    before it. *)
Definition coalesced (batch : list Stamped) : Prop :=
  forall a b : Stamped,
    adjacent batch a b -> (fst a <= fst b)%Z /\ (fst b < fst a + GROUP_DELAY_MS)%Z.

(** A hand-over that came in time: the batch has a first and a last
    message, arrived in this order; it is handed over either by the timer,
    one delay after its last arrival, or at its last arrival when that
    one filled the buffer; in both cases at most [MAX_GROUP_SIZE - 1]
    delays after the first arrival; and the batch is not larger than
    [MAX_GROUP_SIZE]. *)
Definition timely (flush : Z * list Stamped) : Prop :=
  exists first lastOne : Stamped,
    head (snd flush) = Some first
    /\ last (snd flush) = Some lastOne
    /\ (fst first <= fst lastOne)%Z
    /\ ((fst flush = fst lastOne + GROUP_DELAY_MS)%Z
        \/ (fst flush = fst lastOne /\ length (snd flush) = MAX_GROUP_SIZE))
    /\ (fst flush <= fst first + (Z.of_nat MAX_GROUP_SIZE - 1) * GROUP_DELAY_MS)%Z
    /\ (length (snd flush) <= MAX_GROUP_SIZE)%nat.

(** What holds of the buffer and its timer between two events: an empty
    buffer has no timer; a buffer with messages has a timer set one
    delay after its last arrival. *)
Record BufferInvariant (st : State) : Prop := {
  inv_flushed : Forall timely (flushed st);
  inv_flushed_gaps : Forall (fun flush => coalesced (snd flush)) (flushed st);
  inv_buffer_gaps : coalesced (chatBuffer st);
  inv_pending :
    match head (chatBuffer st), last (chatBuffer st) with
    | Some first, Some lastOne =>
        timer st = Some (fst lastOne + GROUP_DELAY_MS)%Z
        /\ (fst first <= fst lastOne)%Z
        /\ (fst lastOne
            <= fst first + (Z.of_nat (length (chatBuffer st)) - 1) * GROUP_DELAY_MS)%Z
        /\ (length (chatBuffer st) < MAX_GROUP_SIZE)%nat
    | _, _ => chatBuffer st = [] /\ timer st = None
    end
}.

End TimeWindowBuffer.

(** ** Sample data for the examples *)

Module Samples.

Definition message (id body : string) (timestamp : Z) (isGroup fromMe : bool) : Message :=
  mkMessage id "60123456789" "Aina" "Project Team" body timestamp isGroup fromMe 7 false None.

Definition candidate (type description : string) (confidence : Q) : Action :=
  mkAction type description None confidence None.

(** A database that answers every query with no rows, a classifier that
    gives [reply], no push client. *)
Definition collaborators (reply : AIProcessor.Completion) (insert : QueryResult unit)
  : Collaborators :=
  mkCollaborators true (fun _ _ => Rows 0%nat) (fun _ => reply) (fun _ => insert)
    true (fun _ => Rows (Some "player-1")) (fun _ => Rows tt)
    (fun action => "action_7_" ++ a_type action) (fun _ => None)
    (fun _ => "10:00:00") 1700000100000.

Definition topicRow (description : string) (userId createdAt : Z) : TopicRow :=
  mkTopicRow "task" description None userId createdAt.

End Samples.

(** ** MessageGrouper: the in-memory maps and their sweep *)

(** An entry of the in-memory [conversationHistory]. *)
Record MemoryEntry : Type := mkMemory {
  me_type : string;
  me_description : string;
  me_details : option Details;
  me_createdAt : Z
}.

(** An entry of [topic.actions] in the in-memory [groupTopicTracker]. *)
Record TrackedAction : Type := mkTrackedAction {
  tk_userId : Z;
  tk_description : string;
  tk_timestamp : Z
}.

(** A topic of the in-memory [groupTopicTracker]. *)
Record TrackedTopic : Type := mkTrackedTopic {
  tt_users : list Z;
  tt_actions : list TrackedAction;
  tt_lastUpdate : Z;
  tt_type : string;
  tt_description : string
}.

(** The four maps of the [MessageGrouper] that [cleanup] sweeps. *)
Record GrouperState : Type := mkGrouper {
  st_messageBuffer : gmap Z (gmap string (list Message));
  st_conversationHistory : gmap string (list MemoryEntry);
  st_duplicateTracker : gmap Z (list string);
  st_groupTopicTracker : gmap string (gmap string TrackedTopic)
}.

Definition CONVERSATION_MEMORY_HOURS : Z := 24.
Definition GROUP_TOPIC_TIMEOUT_HOURS : Z := 6.

Module Memory.

(** [`${userId}-${chatId}`] *)
Definition conversationKey (userId : Z) (chatId : string) : string :=
  pretty userId ++ "-" ++ chatId.

(** The entry [updateConversationHistory] unshifts for an action. *)
Definition memoryOf (now : Z) (action : Action) : MemoryEntry :=
  mkMemory (a_type action) (a_description action) (a_details action) now.

(** [updateConversationHistory]; [now] is the reading of [new Date()] in
    the synchronous loop. *)
Definition updateConversationHistory (conversationHistory : gmap string (list MemoryEntry))
    (userId : Z) (chatId : string) (actions : list Action) (now : Z)
  : gmap string (list MemoryEntry) :=
  let conversationKey := conversationKey userId chatId in
  let history := default [] (conversationHistory !! conversationKey) in
  let history := fold_left (fun history action => memoryOf now action :: history) actions history in
  (* history.splice(20) *)
  <[conversationKey := take 20 history]> conversationHistory.

(** [`${action.type}-${extractTopicKeywords(action.description).slice(0, 3).join('-')}`] *)
Definition topicKey (action : Action) : string :=
  a_type action ++ "-"
  ++ Js.join "-" (Js.sliceTo 3 (GroupTopicTracker.extractTopicKeywords (a_description action))).

(** One turn of the loop of [updateGroupTopicTracker] on [chatTopics]. *)
Definition trackAction (userId now : Z) (chatTopics : gmap string TrackedTopic)
    (action : Action) : gmap string TrackedTopic :=
  let topic :=
    default (mkTrackedTopic [] [] now (a_type action) (a_description action))
      (chatTopics !! topicKey action) in
  <[topicKey action :=
      mkTrackedTopic (GroupTopicTracker.addUser (tt_users topic) userId)
        (tt_actions topic ++ [mkTrackedAction userId (a_description action) now])%list
        now (tt_type topic) (tt_description topic)]> chatTopics.

(** [updateGroupTopicTracker] *)
Definition updateGroupTopicTracker (groupTopicTracker : gmap string (gmap string TrackedTopic))
    (chatId : string) (actions : list Action) (userId now : Z)
  : gmap string (gmap string TrackedTopic) :=
  let chatTopics := default ∅ (groupTopicTracker !! chatId) in
  <[chatId := fold_left (trackAction userId now) actions chatTopics]> groupTopicTracker.

(** [messages.length > 0 && (now - messages[0].timestamp * 1000) > cleanupThreshold] *)
Definition staleBuffer (now : Z) (messages : list Message) : bool :=
  match messages with
  | [] => false
  | first :: _ => (60 * 60 * 1000 <? now - m_timestamp first * 1000)%Z
  end.

(** [(now - topic.lastUpdate.getTime()) > topicCleanupThreshold] *)
Definition staleTopic (now : Z) (topic : TrackedTopic) : bool :=
  (GROUP_TOPIC_TIMEOUT_HOURS * 60 * 60 * 1000 <? now - tt_lastUpdate topic)%Z.

(** [(now - new Date(item.createdAt).getTime()) < CONVERSATION_MEMORY_HOURS * 60 * 60 * 1000] *)
Definition freshEntry (now : Z) (item : MemoryEntry) : bool :=
  (now - me_createdAt item <? CONVERSATION_MEMORY_HOURS * 60 * 60 * 1000)%Z.

(** The inner loop over an inner map, then the removal of an inner map
    that is left with size 0. *)
Definition sweepInner {V : Type} (stale : V -> bool) (inner : gmap string V)
  : option (gmap string V) :=
  let kept := filter (fun entry => stale (snd entry) = false) inner in
  if (size kept =? 0)%nat then None else Some kept.

(** [if (signatures.size > 50) ... new Set(Array.from(signatures).slice(-30))] *)
Definition trimSignatures (signatures : list string) : list string :=
  if (50 <? length signatures)%nat then Js.sliceLast 30 signatures else signatures.

(** [cleanup]; [now] is [Date.now()]. *)
Definition cleanup (now : Z) (st : GrouperState) : GrouperState :=
  mkGrouper
    (omap (sweepInner (staleBuffer now)) (st_messageBuffer st))
    (filter (fun item => freshEntry now item = true) <$> st_conversationHistory st)
    (trimSignatures <$> st_duplicateTracker st)
    (omap (sweepInner (staleTopic now)) (st_groupTopicTracker st)).

End Memory.

(** ** MessageGrouper: a handed-over batch, run by run *)

(** What the history and topic queries of [processGroupedMessages] give,
    after their own [catch]: the sender-scoped history loaded for a run
    (it may differ from run to run, earlier runs having saved actions)
    and the rows of the topic query (none when the query fails or the
    database is not available).  The conversation-wide history that
    [processGroupedMessages] loads first is handed to no one. *)
Record Loaders : Type := mkLoaders {
  senderHistoryFor : list Message -> list HistoryEntry;
  topicRows : list TopicRow
}.

Module Batch.
Import Effect.

(** [senderId] of a run, from its first message. *)
Definition senderIdOf (firstMessage : Message) : string :=
  if m_isGroup firstMessage then
    (if m_fromMe firstMessage then "me" else m_from firstMessage)
  else m_from firstMessage.

(** [for (const messageGroup of groupedMessages) { ... }] *)
Fixpoint processRuns (env : Collaborators) (loaders : Loaders)
    (duplicateTracker : gmap Z (list string)) (groupedMessages : list (list Message))
    (userId : Z) (chatId : string) (groupTopicContext : option (list Topic))
  : M (gmap Z (list string)) :=
  match groupedMessages with
  | [] => ret duplicateTracker
  | messageGroup :: rest =>
      let senderConversationHistory := senderHistoryFor loaders messageGroup in
      let! duplicateTracker' :=
        Pipeline.processMessageGroup env duplicateTracker messageGroup userId chatId
          senderConversationHistory groupTopicContext in
      processRuns env loaders duplicateTracker' rest userId chatId groupTopicContext
  end.

(** [processGroupedMessages] from the hand-over of [chatBuffer] on.  The
    array is sorted in place by the grouping step, so [chatBuffer[0]] is
    its earliest message. *)
Definition processGroupedMessages (env : Collaborators) (loaders : Loaders)
    (duplicateTracker : gmap Z (list string)) (chatBuffer : list Message)
    (userId : Z) (chatId : string) : M (gmap Z (list string)) :=
  if (length chatBuffer =? 0)%nat then ret duplicateTracker
  else
    let groupedMessages := SenderGrouper.groupMessagesByTimeAndSender chatBuffer in
    let groupTopicContext :=
      match head (SenderGrouper.sortByTimestamp chatBuffer) with
      | Some first =>
          if m_isGroup first then Some (GroupTopicTracker.topicsOfRows (topicRows loaders))
          else None
      | None => None
      end in
    processRuns env loaders duplicateTracker groupedMessages userId chatId groupTopicContext.

Definition count (p : Event -> bool) (tr : list Event) : nat :=
  length (List.filter p tr).

End Batch.

(** ** sessionManager: from a transport message to [processMessage] *)

(** The message object of the chat client, as far as the handlers read
    it.  [tm_id] is [None] without [message.id] and [Some None] when the
    id has no [_serialized]. *)
Record TransportMessage : Type := mkTransport {
  tm_id : option (option string);
  tm_from : option string;
  tm_author : option string;
  tm_body : option string;
  tm_timestamp : option Z;
  tm_fromMe : bool
}.

Record ChatInfo : Type := mkChat {
  c_name : option string;
  c_isGroup : bool
}.

Record ContactInfo : Type := mkContact {
  k_number : option string;
  k_name : option string;
  k_pushname : option string
}.

(** An awaited call: its value, or an exception. *)
Inductive Answer (A : Type) : Type :=
| Answered (a : A)
| Failed.
Arguments Answered {A} a.
Arguments Failed {A}.

Module Session.

Inductive Handler : Type :=
| OnMessage
| OnMessageCreate.

(** [x || y] where [y] may be missing too. *)
Definition orElse (x y : option string) : option string :=
  match x with
  | Some s => if String.eqb s EmptyString then y else Some s
  | None => y
  end.

(** The [try]/[catch] that settles [contact] and [chat]. *)
Definition resolve (message : TransportMessage)
    (getChat : Answer (option ChatInfo)) (getContact : Answer (option ContactInfo))
  : option ContactInfo * option ChatInfo :=
  let fallback (chat : option ChatInfo) :=
    (Some (mkContact
             (Some (ActionEmitter.orString (orElse (tm_from message) (tm_author message))
                      "unknown"))
             (Some "Unknown Contact") (Some "Unknown")),
     match chat with
     | Some c => Some c
     | None => Some (mkChat (Some "Unknown Chat") false)
     end) in
  match getChat with
  | Failed => fallback None
  | Answered chat =>
      if match chat with Some c => c_isGroup c | None => false end then
        let contactId :=
          ActionEmitter.orString (orElse (tm_author message) (tm_from message)) "unknown" in
        (Some (mkContact (Some contactId)
                 (Some ("Group Member (" ++ contactId ++ ")"))
                 (Some ("Group Member (" ++ contactId ++ ")"))),
         chat)
      else if String.eqb
                (ActionEmitter.orString (orElse (tm_author message) (tm_from message))
                   EmptyString)
                EmptyString
      then (* neither [message.author] nor [message.from] is truthy *)
        fallback chat
      else
        match getContact with
        | Answered contact => (contact, chat)
        | Failed => fallback chat
        end
  end.

(** The object [messageData]. *)
Definition messageDataOf (message : TransportMessage)
    (contact : option ContactInfo) (chat : option ChatInfo)
    (userId now : Z) (fallbackId : string) : Message :=
  mkMessage
    (ActionEmitter.orString (tm_id message ≫= id) fallbackId)
    (ActionEmitter.orString
       (orElse (contact ≫= k_number) (orElse (tm_from message) (tm_author message)))
       "unknown")
    (ActionEmitter.orString (orElse (contact ≫= k_name) (contact ≫= k_pushname))
       "Unknown Contact")
    (ActionEmitter.orString (chat ≫= c_name) "Unknown Chat")
    (ActionEmitter.orString (tm_body message) EmptyString)
    (ingestTimestamp (tm_timestamp message) now)
    (match chat with Some c => c_isGroup c | None => false end)
    (tm_fromMe message)
    userId false None.

(** [s.trim() === ''] *)
Definition isBlank (s : string) : bool :=
  String.eqb (Js.filterChars (fun c => negb (Js.isSpace c)) s) EmptyString.

(** The checks between [messageData] and the call of
    [messageGrouper.processMessage]; [existing] is the query for actions
    already saved from this message id. *)
Definition screened (message : TransportMessage) (messageData : Message)
    (existing : Answer nat) : option Message :=
  match tm_id message with
  | Some (Some serialized) =>
      if String.eqb serialized EmptyString then None
      else if Js.includes (m_from messageData) "status" then None
      else if isBlank (m_body messageData) then None
      else match existing with
           | Answered rows => if (0 <? rows)%nat then None else Some messageData
           | Failed => None
           end
  | _ => None
  end.

(** A handler of the chat client: the message it hands to
    [processMessage], if any. *)
Definition handle (handler : Handler) (message : TransportMessage)
    (getChat : Answer (option ChatInfo)) (getContact : Answer (option ContactInfo))
    (existing : Answer nat) (userId now : Z) (fallbackId : string) : option Message :=
  let build :=
    let '(contact, chat) := resolve message getChat getContact in
    messageDataOf message contact chat userId now fallbackId in
  match handler with
  | OnMessage =>
      match tm_id message with
      | None => None
      | Some _ => if tm_fromMe message then None else screened message build existing
      end
  | OnMessageCreate =>
      if negb (tm_fromMe message) then None
      else match tm_id message with
           | None => None
           | Some _ => screened message build existing
           end
  end.

End Session.

(** ** Clusters of [loadGroupTopicContext] *)

(** A cluster as the loop of [loadGroupTopicContext] leaves it: it has a
    first action, whose row gave the cluster its description and its
    [lastUpdate], and its users are the users of its actions. *)
Definition clusterOfRows (topic : Topic) : Prop :=
  exists (first : TopicAction) (rest : list TopicAction),
    t_actions topic = first :: rest
    /\ t_lastUpdate topic = ta_createdAt first
    /\ t_description topic = ta_description first
    /\ forall userId : Z,
         In userId (t_users topic) <-> In userId (map ta_userId (t_actions topic)).

(** The rows of the query that have the key [key], and what it is for a
    cluster to be the one these rows were filed under: its actions are
    these rows, in the order of the query; its type, description and
    [lastUpdate] are those of the first of them; its users are their
    users, each once. *)
Definition rowsWithKey (rows : list TopicRow) (key : string) : list TopicRow :=
  filter (fun row => GroupTopicTracker.actionKey row = key) rows.

Definition filedUnder (rows : list TopicRow) (key : string) (topic : Topic) : Prop :=
  t_actions topic
  = map (fun row =>
           mkTopicAction (r_description row) (r_details row) (r_user_id row)
             (r_created_at row))
      (rowsWithKey rows key)
  /\ (exists first : TopicRow,
        head (rowsWithKey rows key) = Some first
        /\ t_type topic = r_type first
        /\ t_description topic = r_description first
        /\ t_lastUpdate topic = r_created_at first)
  /\ NoDup (t_users topic)
  /\ forall userId : Z,
       In userId (t_users topic) <-> In userId (map r_user_id (rowsWithKey rows key)).

(** ** sessionManager: [deduplicateActions] *)

Module SessionManager.

(** [if (!existingAction || action.confidence > existingAction.confidence)
      actionMap.set(action.type, action)] on [actionMap], a [Map] in
    insertion order: setting an existing key keeps its place. *)
Fixpoint setIfBetter (action : Action) (actionMap : list (string * Action))
  : list (string * Action) :=
  match actionMap with
  | [] => [(a_type action, action)]
  | (type, existingAction) :: rest =>
      if String.eqb type (a_type action) then
        (type,
         if Js.Qgtb (a_confidence action) (a_confidence existingAction)
         then action else existingAction) :: rest
      else (type, existingAction) :: setIfBetter action rest
  end.

(** [deduplicateActions] *)
Definition deduplicateActions (actions : list Action) : list Action :=
  map snd (fold_left (fun actionMap action => setIfBetter action actionMap) actions []).

(** What holds of [actionMap] once the actions [seen] have been through
    the loop. *)
Definition bestByType (seen : list Action) (actionMap : list (string * Action)) : Prop :=
  NoDup (map fst actionMap)
  /\ Forall (fun entry => fst entry = a_type (snd entry) /\ In (snd entry) seen) actionMap
  /\ forall action, In action seen ->
       exists best, In (a_type action, best) actionMap
                    /\ (a_confidence action <= a_confidence best)%Q.

End SessionManager.

(** * Properties *)

Open Scope list_scope.

(** ** Sets in insertion order *)

Section JsSets.

Lemma setHas_In (s : list string) (x : string) : Js.setHas s x = true <-> In x s.
Proof.
  unfold Js.setHas. rewrite existsb_exists. split.
  - intros (y & Hy & Heq). apply String.eqb_eq in Heq. now subst.
  - intros Hx. exists x. split; [assumption | apply String.eqb_refl].
Qed.

Lemma setHas_false (s : list string) (x : string) : Js.setHas s x = false <-> ~ In x s.
Proof.
  rewrite <- setHas_In. destruct (Js.setHas s x); split; congruence.
Qed.

Lemma setAdd_In (s : list string) (x y : string) :
  In y (Js.setAdd s x) <-> In y s \/ y = x.
Proof.
  unfold Js.setAdd. destruct (Js.setHas s x) eqn:E.
  - apply setHas_In in E. split; [tauto | intros [H | ->]; assumption].
  - rewrite in_app_iff. simpl. intuition.
Qed.

Lemma setAdd_NoDup (s : list string) (x : string) : NoDup s -> NoDup (Js.setAdd s x).
Proof.
  intros Hs. unfold Js.setAdd. destruct (Js.setHas s x) eqn:E; [assumption |].
  apply setHas_false in E. apply NoDup_app; repeat split.
  - assumption.
  - intros y Hy Hin. apply list_elem_of_In in Hy, Hin. simpl in Hin.
    destruct Hin as [<- | []]. contradiction.
  - apply NoDup_singleton.
Qed.

Lemma setAdd_keeps (s : list string) (x y : string) :
  Js.setHas s y = true -> Js.setHas (Js.setAdd s x) y = true.
Proof. rewrite !setHas_In, setAdd_In. tauto. Qed.

Lemma setAdd_has (s : list string) (x : string) : Js.setHas (Js.setAdd s x) x = true.
Proof. rewrite setHas_In, setAdd_In. tauto. Qed.

Lemma fold_setAdd_In (l acc : list string) (y : string) :
  In y (fold_left Js.setAdd l acc) <-> In y acc \/ In y l.
Proof.
  revert acc. induction l as [| x l IH]; intros acc; simpl.
  - tauto.
  - rewrite IH, setAdd_In. intuition.
Qed.

Lemma fold_setAdd_NoDup (l acc : list string) :
  NoDup acc -> NoDup (fold_left Js.setAdd l acc).
Proof.
  revert acc. induction l as [| x l IH]; intros acc Hacc; simpl; [assumption |].
  apply IH, setAdd_NoDup, Hacc.
Qed.

Lemma setOf_In (l : list string) (y : string) : In y (Js.setOf l) <-> In y l.
Proof. unfold Js.setOf. rewrite fold_setAdd_In. simpl. tauto. Qed.

Lemma setOf_NoDup (l : list string) : NoDup (Js.setOf l).
Proof. apply fold_setAdd_NoDup, NoDup_nil_2. Qed.

(** The intersection of two word sets is never larger than their union. *)
Lemma intersection_le_union (set1 set2 : list string) :
  (length (Js.setOf (filter (fun x => Js.setHas set2 x) set1))
   <= length (Js.setOf (set1 ++ set2)))%nat.
Proof.
  apply submseteq_length, NoDup_submseteq; [apply setOf_NoDup |].
  intros y Hy. rewrite list_elem_of_In, setOf_In in *.
  rewrite <- list_elem_of_In, list_elem_of_filter in Hy. destruct Hy as [_ Hy].
  apply in_app_iff. left. now apply list_elem_of_In.
Qed.

Lemma union_nonempty (set1 set2 : list string) :
  set1 <> [] -> (0 < length (Js.setOf (set1 ++ set2)))%nat.
Proof.
  destruct set1 as [| x set1]; [congruence | intros _].
  assert (H : In x (Js.setOf ((x :: set1) ++ set2))) by (apply setOf_In; now left).
  destruct (Js.setOf ((x :: set1) ++ set2)); [destruct H | simpl; lia].
Qed.

Lemma setOf_nonempty (l : list string) : l <> [] -> Js.setOf l <> [].
Proof.
  destruct l as [| x l]; [congruence | intros _ Hnil].
  assert (H : In x (Js.setOf (x :: l))) by (apply setOf_In; now left).
  rewrite Hnil in H. destruct H.
Qed.

End JsSets.

(** ** Rational comparisons *)

Lemma Qgtb_lt (x y : Q) : Js.Qgtb x y = true <-> (y < x)%Q.
Proof. unfold Js.Qgtb, Qlt. apply Z.ltb_lt. Qed.

Lemma Qgtb_le (x y : Q) : Js.Qgtb x y = false <-> (x <= y)%Q.
Proof. unfold Js.Qgtb, Qle. apply Z.ltb_ge. Qed.

(** A quotient of sizes with a positive divisor is a rational between 0
    and 1 as soon as the dividend is not larger. *)
Lemma divSizes_unit (a b : nat) :
  (a <= b)%nat -> (0 < b)%nat ->
  exists q : Q, Js.divSizes a b = Js.Finite q /\ (0 <= q)%Q /\ (q <= 1)%Q.
Proof.
  intros Hab Hb. destruct b as [| b]; [lia |].
  exists (Z.of_nat a # Pos.of_nat (S b)). split; [reflexivity |]. split.
  - unfold Qle. simpl. lia.
  - unfold Qle. simpl. rewrite Z.mul_1_r.
    replace (Z.pos (Pos.of_succ_nat b)) with (Z.of_nat (S b)) by lia. lia.
Qed.

(** ** GroupTopicTracker: keyword overlap and the topic check *)

Section TopicFacts.
Import GroupTopicTracker.

Lemma overlap_empty_l (keywords2 : list string) :
  calculateKeywordOverlap [] keywords2 = Js.Finite 0.
Proof. reflexivity. Qed.

Lemma overlap_empty_r (keywords1 : list string) :
  calculateKeywordOverlap keywords1 [] = Js.Finite 0.
Proof.
  unfold calculateKeywordOverlap. simpl. now rewrite orb_true_r.
Qed.

(** The overlap is always a rational in the unit interval. *)
Lemma overlap_finite (keywords1 keywords2 : list string) :
  exists q : Q,
    calculateKeywordOverlap keywords1 keywords2 = Js.Finite q /\ (0 <= q)%Q /\ (q <= 1)%Q.
Proof.
  unfold calculateKeywordOverlap.
  destruct keywords1 as [| k keywords1].
  { exists 0%Q. repeat split; unfold Qle; simpl; lia. }
  destruct keywords2 as [| k' keywords2].
  { exists 0%Q. repeat split; unfold Qle; simpl; lia. }
  cbn [length Nat.eqb orb].
  apply divSizes_unit.
  - apply intersection_le_union.
  - apply union_nonempty, setOf_nonempty. discriminate.
Qed.

Lemma gtNum_overlap (keywords1 keywords2 : list string) (threshold : Q) :
  Js.gtNum (calculateKeywordOverlap keywords1 keywords2) threshold = true <->
  exists q : Q,
    calculateKeywordOverlap keywords1 keywords2 = Js.Finite q /\ (threshold < q)%Q.
Proof.
  destruct (overlap_finite keywords1 keywords2) as (q & -> & _). simpl.
  rewrite Qgtb_lt. split.
  - intros H. now exists q.
  - intros (q' & [= <-] & H). exact H.
Qed.

Lemma usersInclude_In (users : list Z) (userId : Z) :
  usersInclude users userId = true <-> In userId users.
Proof.
  unfold usersInclude. rewrite existsb_exists. split.
  - intros (u & Hu & Heq). apply Z.eqb_eq in Heq. now subst.
  - intros H. exists userId. split; [assumption | apply Z.eqb_refl].
Qed.

Lemma within_two_hours (now : Z) (topic : Topic) :
  Js.Qgtb 2 (hoursSinceLastAction now topic) = true <->
  (now - t_lastUpdate topic < 7200000)%Z.
Proof.
  rewrite Qgtb_lt. unfold hoursSinceLastAction, Qlt. simpl. lia.
Qed.

Lemma addUser_NoDup (users : list Z) (userId : Z) :
  NoDup users -> NoDup (addUser users userId).
Proof.
  intros Hu. unfold addUser. destruct (usersInclude users userId) eqn:E; [assumption |].
  apply NoDup_app; repeat split; [assumption | | apply NoDup_singleton].
  intros y Hy Hin. apply list_elem_of_In in Hy, Hin. simpl in Hin.
  destruct Hin as [<- | []].
  apply usersInclude_In in Hy. congruence.
Qed.

Lemma upsertTopic_NoDup (key : string) (row : TopicRow) (topicMap : list (string * Topic)) :
  Forall (fun entry => NoDup (t_users (snd entry))) topicMap ->
  Forall (fun entry => NoDup (t_users (snd entry))) (upsertTopic key row topicMap).
Proof.
  induction topicMap as [| [k topic] rest IH]; intros Hall; simpl.
  - constructor; [| constructor]. simpl. apply addUser_NoDup, NoDup_nil_2.
  - inversion Hall as [| ? ? Hhead Hrest]; subst.
    destruct (String.eqb k key); constructor; simpl; auto using addUser_NoDup.
Qed.

Lemma fold_upsert_NoDup (rows : list TopicRow) (topicMap : list (string * Topic)) :
  Forall (fun entry => NoDup (t_users (snd entry))) topicMap ->
  Forall (fun entry => NoDup (t_users (snd entry)))
    (fold_left (fun topicMap row => upsertTopic (actionKey row) row topicMap) rows topicMap).
Proof.
  revert topicMap. induction rows as [| row rows IH]; intros acc Hacc; simpl; [assumption |].
  apply IH, upsertTopic_NoDup, Hacc.
Qed.

(** Every cluster that [loadGroupTopicContext] returns lists each user
    once. *)
Lemma topicsOfRows_NoDup (rows : list TopicRow) (topic : Topic) :
  In topic (topicsOfRows rows) -> NoDup (t_users topic).
Proof.
  unfold topicsOfRows. intros Hin. apply in_map_iff in Hin.
  destruct Hin as ([k t] & <- & Hin).
  pose proof (fold_upsert_NoDup rows [] (Forall_nil_2 _)) as Hall.
  rewrite Forall_forall in Hall. apply (Hall (k, t)). now apply list_elem_of_In.
Qed.

Lemma NoDup_twoDistinct (users : list Z) :
  NoDup users -> ((2 <= length users)%nat <-> twoDistinct users).
Proof.
  intros Hnd. split.
  - destruct users as [| u [| v users]]; simpl; try lia. intros _.
    exists u, v. split; [| split; simpl; auto].
    intros ->. apply NoDup_cons_1_1 in Hnd. apply Hnd. left.
  - intros (u & v & Hne & Hu & Hv).
    destruct users as [| x [| y users]]; simpl in *; try lia; intuition congruence.
Qed.

End TopicFacts.

Lemma checkExistingActions_returns (env : Collaborators) (messageGroup : list Message)
    (userId : Z) :
  exists (tr : list Effect.Event) (n : nat),
    Pipeline.checkExistingActions env messageGroup userId = (tr, Effect.Returned n)
    /\ Forall (fun e => Pipeline.isClassify e = false /\ ActionEmitter.rank e = None) tr.
Proof.
  unfold Pipeline.checkExistingActions.
  destruct (dbAvailable env); simpl.
  - destruct (existingRows env (map m_id messageGroup) userId) as [n |]; simpl;
      eexists _, _; (split; [reflexivity |]); repeat constructor.
  - eexists _, _. split; [reflexivity | constructor].
Qed.

Lemma no_keywords_no_match (userId now : Z) (context : list Topic) :
  existsb (GroupTopicTracker.topicMatches [] userId now) context = false.
Proof.
  induction context as [| topic context IH]; cbn [existsb]; [reflexivity |].
  rewrite IH. unfold GroupTopicTracker.topicMatches.
  rewrite overlap_empty_l. reflexivity.
Qed.

(** C10 — [calculateKeywordOverlap] always returns a rational between 0
    and 1, never the [NaN] of a division by zero, and returns 0 when one
    of the keyword lists is empty; a message whose body has no keyword is
    never a group-topic duplicate. *)
Theorem keyword_overlap_safe
    (keywords1 keywords2 : list string)
    (messageData : Message) (groupTopicContext : list Topic) (userId now : Z) :
  (exists q : Q,
      GroupTopicTracker.calculateKeywordOverlap keywords1 keywords2 = Js.Finite q
      /\ (0 <= q)%Q /\ (q <= 1)%Q
      /\ (keywords1 = [] \/ keywords2 = [] -> q = 0%Q))
  /\ (GroupTopicTracker.extractTopicKeywords (m_body messageData) = [] ->
      GroupTopicTracker.checkGroupTopicDuplicate messageData groupTopicContext userId now
      = false).
Proof.
  split.
  - destruct (overlap_finite keywords1 keywords2) as (q & Hq & Hlo & Hhi).
    exists q. repeat split; try assumption.
    intros [-> | ->].
    + rewrite overlap_empty_l in Hq. congruence.
    + rewrite overlap_empty_r in Hq. congruence.
  - intros Hnone. unfold GroupTopicTracker.checkGroupTopicDuplicate.
    rewrite Hnone. apply no_keywords_no_match.
Qed.

Lemma keyword_overlap_safe_witness :
  let messageData := Samples.message "m1" "It is, or, to be?" 1700000000 true false in
  let context := GroupTopicTracker.topicsOfRows [Samples.topicRow "be on it" 7 1700000000000] in
  GroupTopicTracker.extractTopicKeywords (m_body messageData) = []
  /\ GroupTopicTracker.checkGroupTopicDuplicate messageData context 7 1700000100000 = false.
Proof.
  intros messageData context. split; [reflexivity |].
  apply (proj2 (keyword_overlap_safe [] [] messageData context 7 1700000100000)).
  reflexivity.
Defined.

(** C8 — for a combined message of a group conversation and the topic
    context loaded from the stored rows, [checkGroupTopicDuplicate] says
    duplicate exactly when some cluster's keyword overlap with the body
    exceeds 0.7 and either the user is among the cluster's users, or the
    cluster has two distinct users, two actions and a last update less
    than two hours old; on that verdict [processMessageGroup] ends before
    the classification call, saves and emits nothing and leaves the
    signature sets as they were. *)
Theorem group_topic_duplicate_verdict
    (env : Collaborators) (duplicateTracker : gmap Z (list string))
    (messageGroup : list Message) (combinedMessage : Message)
    (userId : Z) (chatId : string) (conversationHistory : list HistoryEntry)
    (rows : list TopicRow) :
  Pipeline.createCombinedMessage env messageGroup = Some combinedMessage ->
  m_isGroup combinedMessage = true ->
  let context := GroupTopicTracker.topicsOfRows rows in
  let verdict :=
    GroupTopicTracker.checkGroupTopicDuplicate combinedMessage context userId (dateNow env) in
  let run :=
    Pipeline.processMessageGroup env duplicateTracker messageGroup userId chatId
      conversationHistory (Some context) in
  (verdict = true <->
   exists topic : Topic,
     In topic context
     /\ GroupTopicTracker.overlapExceeds (m_body combinedMessage) topic
     /\ (In userId (t_users topic)
         \/ (GroupTopicTracker.twoDistinct (t_users topic)
             /\ (2 <= length (t_actions topic))%nat
             /\ (dateNow env - t_lastUpdate topic < 7200000)%Z)))
  /\ (verdict = true ->
      Forall (fun e => Pipeline.isClassify e = false /\ ActionEmitter.rank e = None)
        (Effect.trace run)
      /\ Effect.outcome run = Effect.Returned duplicateTracker).
Proof.
  intros Hcombined Hgroup context verdict run. split.
  - subst verdict. unfold GroupTopicTracker.checkGroupTopicDuplicate.
    rewrite existsb_exists. split.
    + intros (topic & Hin & Hmatch). exists topic. split; [assumption |].
      unfold GroupTopicTracker.topicMatches in Hmatch.
      apply andb_true_iff in Hmatch. destruct Hmatch as [Hover Hcase].
      apply gtNum_overlap in Hover. split; [exact Hover |].
      apply orb_true_iff in Hcase. destruct Hcase as [Huser | Hmany].
      * left. now apply usersInclude_In.
      * right. rewrite !andb_true_iff in Hmany. destruct Hmany as [[Hu Ha] Ht].
        apply Nat.leb_le in Hu, Ha. apply within_two_hours in Ht.
        repeat split; try assumption.
        apply NoDup_twoDistinct; [eapply topicsOfRows_NoDup; eassumption | assumption].
    + intros (topic & Hin & Hover & Hcase). exists topic. split; [assumption |].
      unfold GroupTopicTracker.topicMatches.
      apply andb_true_iff. split; [apply gtNum_overlap; exact Hover |].
      apply orb_true_iff. destruct Hcase as [Huser | (Hu & Ha & Ht)].
      * left. now apply usersInclude_In.
      * right. rewrite !andb_true_iff. repeat split.
        -- apply Nat.leb_le, NoDup_twoDistinct;
             [eapply topicsOfRows_NoDup; eassumption | assumption].
        -- now apply Nat.leb_le.
        -- now apply within_two_hours.
  - intros Hverdict. subst run. unfold Pipeline.processMessageGroup.
    rewrite Hcombined.
    destruct (checkExistingActions_returns env messageGroup userId) as (tr & n & -> & Htr).
    cbn [Effect.bind]. rewrite Hgroup. fold context. fold verdict. rewrite Hverdict.
    destruct (0 <? n)%nat; cbn; rewrite app_nil_r; split; auto.
Qed.

Lemma group_topic_duplicate_verdict_witness :
  let env := Samples.collaborators (AIProcessor.Parsed []) (Rows tt) in
  let messageData := Samples.message "m2" "Deploy the server tonight" 1700000000 true false in
  let rows := [Samples.topicRow "Deploy server tonight" 7 1700000000000] in
  Pipeline.createCombinedMessage env [messageData] = Some messageData
  /\ m_isGroup messageData = true
  /\ Effect.outcome
       (Pipeline.processMessageGroup env ∅ [messageData] 7 "Project Team" []
          (Some (GroupTopicTracker.topicsOfRows rows)))
     = Effect.Returned ∅.
Proof.
  intros env messageData rows. split; [reflexivity |]. split; [reflexivity |].
  apply (proj2 (group_topic_duplicate_verdict env ∅ [messageData] messageData 7
                  "Project Team" [] rows eq_refl eq_refl)).
  reflexivity.
Defined.

(** ** AIProcessor: the choice of the best candidate *)

Section BestCandidate.
Import AIProcessor.

Lemma better_cases (best current : Action) :
  (better best current = best /\ (a_confidence current <= a_confidence best)%Q)
  \/ (better best current = current /\ (a_confidence best < a_confidence current)%Q).
Proof.
  unfold better. destruct (Js.Qgtb (a_confidence current) (a_confidence best)) eqn:E.
  - right. split; [reflexivity | now apply Qgtb_lt].
  - left. split; [reflexivity | now apply Qgtb_le].
Qed.

(** The reduction returns a member of the list whose confidence no
    member exceeds. *)
Lemma reduceBest_max (rest : list Action) (first : Action) :
  In (reduceBest first rest) (first :: rest)
  /\ forall a : Action, In a (first :: rest) ->
       (a_confidence a <= a_confidence (reduceBest first rest))%Q.
Proof.
  revert first. induction rest as [| x rest IH]; intros first.
  - simpl. split; [now left |]. intros a [<- | []]. apply Qle_refl.
  - unfold reduceBest. cbn [fold_left]. fold (reduceBest (better first x) rest).
    destruct (IH (better first x)) as [Hin Hmax]. split.
    + destruct Hin as [Heq | Hin]; [| right; right; exact Hin].
      rewrite <- Heq. destruct (better_cases first x) as [[-> _] | [-> _]]; simpl; auto.
    + intros a Ha.
      assert (Hstep : (a_confidence first <= a_confidence (better first x))%Q
                      /\ (a_confidence x <= a_confidence (better first x))%Q).
      { destruct (better_cases first x) as [[-> Hle] | [-> Hlt]]; split;
          auto using Qle_refl, Qlt_le_weak. }
      destruct Hstep as [Hfirst Hx].
      specialize (Hmax (better first x) (or_introl eq_refl)) as Htop.
      destruct Ha as [<- | [<- | Ha]].
      * eapply Qle_trans; eassumption.
      * eapply Qle_trans; eassumption.
      * apply Hmax. now right.
Qed.

(** When nothing later is strictly better, the first candidate stays. *)
Lemma reduceBest_head (rest : list Action) (first : Action) :
  Forall (fun a => (a_confidence a <= a_confidence first)%Q) rest ->
  reduceBest first rest = first.
Proof.
  induction rest as [| x rest IH]; intros Hall; [reflexivity |].
  inversion Hall as [| ? ? Hx Hrest]; subst.
  unfold reduceBest. cbn [fold_left]. unfold better at 2.
  apply Qgtb_le in Hx. rewrite Hx. apply IH, Hrest.
Qed.

(** On a tie the reduction keeps the earlier candidate: everything in
    front of its result has a strictly smaller confidence. *)
Lemma reduceBest_first (rest : list Action) (first : Action) :
  exists before after : list Action,
    first :: rest = before ++ reduceBest first rest :: after
    /\ Forall (fun a => (a_confidence a < a_confidence (reduceBest first rest))%Q) before.
Proof.
  revert first. induction rest as [| x rest IH]; intros first.
  - exists [], []. split; [reflexivity | constructor].
  - unfold reduceBest. cbn [fold_left]. fold (reduceBest (better first x) rest).
    destruct (IH (better first x)) as (before & after & Hsplit & Hsmaller).
    destruct (better_cases first x) as [[Hkept Hle] | [Hkept Hlt]]; rewrite Hkept in *.
    + destruct before as [| y before]; cbn [app] in Hsplit.
      * injection Hsplit as Hbest Hafter. exists [], (x :: rest).
        split; [cbn [app]; congruence | constructor].
      * injection Hsplit as <- Hrest. inversion Hsmaller as [| ? ? Hfirst Hbefore]; subst.
        exists (first :: x :: before), after. split; [cbn [app]; congruence |].
        constructor; [exact Hfirst |]. constructor; [| exact Hbefore].
        eapply Qle_lt_trans; [exact Hle | exact Hfirst].
    + destruct before as [| y before]; cbn [app] in Hsplit.
      * injection Hsplit as Hbest Hafter. exists [first], after.
        split; [cbn [app]; congruence |]. constructor; [| constructor].
        now rewrite <- Hbest.
      * injection Hsplit as <- Hrest. inversion Hsmaller as [| ? ? Hx Hbefore]; subst.
        exists (first :: x :: before), after. split; [cbn [app]; congruence |].
        constructor; [| constructor; assumption].
        eapply Qlt_trans; [exact Hlt | exact Hx].
Qed.

(** A place in a filtered list is a place in the list. *)
Lemma filter_split (P : Action -> bool) (actions before after : list Action) (x : Action) :
  filter (fun a => P a) actions = before ++ x :: after ->
  exists before' after' : list Action,
    actions = before' ++ x :: after'
    /\ filter (fun a => P a) before' = before.
Proof.
  revert before. induction actions as [| y actions IH]; intros before Hsplit.
  - destruct before; discriminate.
  - rewrite filter_cons in Hsplit. destruct (decide (P y)) as [Hy | Hy].
    + destruct before as [| z before]; cbn [app] in Hsplit.
      * injection Hsplit as -> _. exists [], actions. split; reflexivity.
      * injection Hsplit as -> Hrest. destruct (IH before Hrest) as (b & a & -> & Hb).
        exists (z :: b), a. split; [reflexivity |].
        rewrite filter_cons. destruct (decide (P z)); [now rewrite Hb | contradiction].
    + destruct (IH before Hsplit) as (b & a & -> & Hb).
      exists (y :: b), a. split; [reflexivity |].
      rewrite filter_cons. destruct (decide (P y)); [contradiction | exact Hb].
Qed.

End BestCandidate.

(** C2 — from the classifier's candidates [processMessageWithHistory]
    returns at most one: a candidate whose confidence is strictly above
    0.7 and that no candidate above 0.7 exceeds, the first such candidate
    when several share the highest confidence (every candidate above 0.7
    in front of it has a strictly smaller confidence); or nothing when
    every confidence is at most 0.7. *)
Theorem confidence_selection (messageData : Message) (actions : list Action) (now : Z) :
  match AIProcessor.processMessageWithHistory messageData (AIProcessor.Parsed actions) now with
  | [] => forall a : Action, In a actions -> (a_confidence a <= 7 # 10)%Q
  | [best] =>
      In best actions
      /\ (7 # 10 < a_confidence best)%Q
      /\ (forall a : Action, In a actions -> (7 # 10 < a_confidence a)%Q ->
            (a_confidence a <= a_confidence best)%Q)
      /\ exists before after : list Action,
           actions = before ++ best :: after
           /\ forall a : Action, In a before -> (7 # 10 < a_confidence a)%Q ->
                (a_confidence a < a_confidence best)%Q
  | _ => False
  end.
Proof.
  cbn [AIProcessor.processMessageWithHistory]. unfold AIProcessor.selectBest.
  set (high := filter (fun action => Js.Qgtb (a_confidence action) (7 # 10)) actions).
  assert (Hhigh : forall a, In a high <-> In a actions /\ (7 # 10 < a_confidence a)%Q).
  { intros a. subst high. rewrite <- !list_elem_of_In, list_elem_of_filter.
    rewrite Is_true_true, Qgtb_lt. tauto. }
  destruct high as [| first rest] eqn:E.
  - intros a Ha. apply Qnot_lt_le. intros Hlt.
    destruct (proj2 (Hhigh a) (conj Ha Hlt)).
  - destruct (reduceBest_max rest first) as [Hin Hmax].
    apply Hhigh in Hin. destruct Hin as [Hin Hconf].
    split; [exact Hin |]. split; [exact Hconf |]. split.
    + intros a Ha Hlt. apply Hmax, Hhigh. now split.
    + destruct (reduceBest_first rest first) as (before & after & Hsplit & Hsmaller).
      rewrite <- E in Hsplit. subst high.
      destruct (filter_split (fun a => Js.Qgtb (a_confidence a) (7 # 10)) actions
                  before after _ Hsplit) as (before' & after' & Hactions & Hbefore).
      exists before', after'. split; [exact Hactions |].
      intros a Ha Hlt. rewrite List.Forall_forall in Hsmaller. apply Hsmaller.
      rewrite <- Hbefore. apply list_elem_of_In, list_elem_of_filter.
      split; [| now apply list_elem_of_In].
      apply Is_true_true, Qgtb_lt, Hlt.
Qed.

(** C2, the claim as written fails: a single candidate with confidence
    exactly 0.7 is not selected. *)
Lemma confidence_floor_is_strict :
  let messageData := Samples.message "m3" "please send the report" 1700000000 false false in
  AIProcessor.processMessageWithHistory messageData
    (AIProcessor.Parsed [Samples.candidate "task" "Send the report" (7 # 10)]) 0
  = [].
Proof. reflexivity. Qed.

(** The example of the specification: of 0.65, 0.81 and 0.9 the last is
    chosen. *)
Example confidence_selection_example :
  map a_type
    (AIProcessor.selectBest
       [Samples.candidate "note" "a" (65 # 100); Samples.candidate "task" "b" (81 # 100);
        Samples.candidate "event" "c" (9 # 10)])
  = ["event"].
Proof. reflexivity. Qed.

(** Of two candidates with the highest confidence the earlier one is
    returned. *)
Example tie_keeps_the_first :
  map a_type
    (AIProcessor.selectBest
       [Samples.candidate "note" "a" (9 # 10); Samples.candidate "task" "b" (81 # 100);
        Samples.candidate "event" "c" (9 # 10)])
  = ["note"].
Proof. reflexivity. Qed.

(** ** Substrings *)

Section Substrings.

Lemma prefix_app (p q s : string) :
  String.prefix (p ++ q) s = true -> String.prefix p s = true.
Proof.
  revert s. induction p as [| c p IH]; intros s H; [now destruct s |].
  destruct s as [| d s]; simpl in *; [discriminate |].
  destruct (ascii_dec c d); [apply IH, H | discriminate].
Qed.

Lemma includes_app (s p q : string) :
  Js.includes s (p ++ q) = true -> Js.includes s p = true.
Proof.
  induction s as [| c s IH]; cbn [Js.includes]; intros H;
    apply orb_true_iff in H; apply orb_true_iff; destruct H as [H | H].
  - left. eapply prefix_app, H.
  - discriminate.
  - left. eapply prefix_app, H.
  - right. apply IH, H.
Qed.

Lemma prefix_lower (p s : string) :
  String.prefix p s = true ->
  String.prefix (Js.toLowerCase p) (Js.toLowerCase s) = true.
Proof.
  revert s. induction p as [| c p IH]; intros s H; [now destruct s |].
  destruct s as [| d s]; simpl in *; [discriminate |].
  destruct (ascii_dec c d) as [-> |]; [| discriminate].
  destruct (ascii_dec (Js.lowerChar d) (Js.lowerChar d)); [apply IH, H | congruence].
Qed.

Lemma includes_lower (s sub : string) :
  Js.includes s sub = true ->
  Js.includes (Js.toLowerCase s) (Js.toLowerCase sub) = true.
Proof.
  induction s as [| c s IH]; cbn [Js.includes]; intros H;
    apply orb_true_iff in H; destruct H as [H | H].
  - apply prefix_lower in H. cbn [Js.toLowerCase Js.mapChars Js.includes].
    apply orb_true_iff. now left.
  - discriminate.
  - apply prefix_lower in H. cbn [Js.toLowerCase Js.mapChars Js.includes].
    apply orb_true_iff. now left.
  - cbn [Js.toLowerCase Js.mapChars Js.includes]. apply orb_true_iff. right.
    apply IH, H.
Qed.

End Substrings.

(** ** AIProcessor: the keyword fallback *)

Section Fallback.
Import AIProcessor.

Lemma pushIf_cons (condition : bool) (action first : Action) (actions : list Action) :
  pushIf condition action (first :: actions) = first :: pushIf condition action actions.
Proof. unfold pushIf. now destruct condition. Qed.

Lemma headed_pushIf (first : Action) (bound : Q) (condition : bool) (action : Action)
    (actions : list Action) :
  (a_confidence action <= bound)%Q ->
  headed first bound actions -> headed first bound (pushIf condition action actions).
Proof.
  intros Hconf (rest & -> & Hrest). rewrite pushIf_cons.
  exists (pushIf condition action rest). split; [reflexivity |].
  unfold pushIf. destruct condition; [| assumption].
  apply Forall_app. split; [assumption | now constructor].
Qed.

(** Once a time keyword is found the reminder heads the candidates, and
    no other candidate has a higher confidence. *)
Lemma time_keyword_heads (messageData : Message) (now : Z) :
  someIncluded timeKeywords (Js.toLowerCase (m_body messageData)) = true ->
  exists first : Action,
    a_type first = "reminder" /\ a_confidence first = 8 # 10
    /\ headed first (8 # 10) (fallbackCandidates messageData now).
Proof.
  intros Htime. eexists. split; [| split]; cycle 2.
  - unfold fallbackCandidates. cbv zeta. rewrite Htime.
    do 14 (apply headed_pushIf; [unfold Qle; simpl; lia |]).
    unfold pushIf at 1. cbn [app]. eexists. split; [reflexivity | constructor].
  - reflexivity.
  - reflexivity.
Qed.

End Fallback.

(** C3 — when the classification call throws, the result of
    [processMessageWithHistory] is that of the keyword fallback on the
    message: the first of its candidates that none exceeds in
    confidence, taken with no confidence floor.  When the reply does not
    parse the result is empty and the fallback is not used.  A message
    that contains "remind me tomorrow at 3pm" gives a fallback candidate
    of type reminder. *)
Theorem fallback_on_call_failure (messageData : Message) (now : Z) :
  AIProcessor.processMessageWithHistory messageData AIProcessor.CallThrows now
  = AIProcessor.fallbackProcessing messageData now
  /\ AIProcessor.processMessageWithHistory messageData AIProcessor.ParseThrows now = []
  /\ match AIProcessor.fallbackProcessing messageData now with
     | [] => AIProcessor.fallbackCandidates messageData now = []
     | [best] =>
         In best (AIProcessor.fallbackCandidates messageData now)
         /\ (forall a : Action, In a (AIProcessor.fallbackCandidates messageData now) ->
               (a_confidence a <= a_confidence best)%Q)
     | _ => False
     end
  /\ (Js.includes (m_body messageData) "remind me tomorrow at 3pm" = true ->
      exists a : Action,
        AIProcessor.processMessageWithHistory messageData AIProcessor.CallThrows now = [a]
        /\ a_type a = "reminder").
Proof.
  split; [reflexivity |]. split; [reflexivity |]. split.
  - unfold AIProcessor.fallbackProcessing.
    destruct (AIProcessor.fallbackCandidates messageData now) as [| first rest];
      [reflexivity |].
    apply reduceBest_max.
  - intros Hphrase. cbn [AIProcessor.processMessageWithHistory].
    apply includes_lower in Hphrase.
    change (Js.toLowerCase "remind me tomorrow at 3pm")
      with ("remind me" ++ " tomorrow at 3pm")%string in Hphrase.
    apply includes_app in Hphrase.
    assert (Htime : AIProcessor.someIncluded AIProcessor.timeKeywords
                      (Js.toLowerCase (m_body messageData)) = true).
    { unfold AIProcessor.someIncluded, AIProcessor.timeKeywords. cbn [existsb].
      rewrite Hphrase. reflexivity. }
    destruct (time_keyword_heads messageData now Htime)
      as (first & Htype & Hconf & rest & Hcandidates & Hrest).
    exists first. split; [| assumption].
    unfold AIProcessor.fallbackProcessing. rewrite Hcandidates.
    f_equal. apply reduceBest_head. now rewrite Hconf.
Qed.

Lemma fallback_on_call_failure_witness :
  let messageData :=
    Samples.message "m4" "Hey, remind me tomorrow at 3pm to call" 1700000000 false false in
  Js.includes (m_body messageData) "remind me tomorrow at 3pm" = true
  /\ exists a : Action,
       AIProcessor.processMessageWithHistory messageData AIProcessor.CallThrows 0 = [a]
       /\ a_type a = "reminder".
Proof.
  intros messageData. split; [reflexivity |].
  apply (proj2 (proj2 (proj2 (fallback_on_call_failure messageData 0)))).
  reflexivity.
Defined.

(** C3, the claim as written fails twice: a reply that does not parse
    gives no action although the fallback has one for the message, and
    the fallback returns a candidate of confidence 0.6, below the
    floor. *)
Lemma fallback_not_as_claimed :
  let reminder := Samples.message "m5" "remind me tomorrow at 3pm" 1700000000 false false in
  let long :=
    Samples.message "m6" "zzzzzzzzzz zzzzzzzzzz zzzzzzzzzz zzzzzzzzzz zzzzzzzzzz zzzz"
      1700000000 false false in
  (AIProcessor.processMessageWithHistory reminder AIProcessor.ParseThrows 0 = []
   /\ map a_type (AIProcessor.fallbackProcessing reminder 0) = ["reminder"])
  /\ map a_confidence
       (AIProcessor.processMessageWithHistory long AIProcessor.CallThrows 0) = [6 # 10].
Proof. repeat split. Qed.

(** ** DuplicateGuard *)

Section DuplicateFacts.
Import DuplicateGuard.

Variable conversationHistory : list HistoryEntry.

(** A turn of the loop never removes a signature. *)
Lemma filterStep_keeps (filtered : list Action) (userDuplicates : list string)
    (action : Action) (signature : string) :
  Js.setHas userDuplicates signature = true ->
  Js.setHas (snd (filterStep conversationHistory (filtered, userDuplicates) action))
    signature = true.
Proof.
  intros Hhas. unfold filterStep.
  destruct (isOutgoingMessage action); [now apply setAdd_keeps |].
  destruct (Js.setHas userDuplicates (createActionSignature action)); [assumption |].
  destruct (isSimilarToConversationHistory action conversationHistory);
    [assumption | now apply setAdd_keeps].
Qed.

(** A turn of the loop does not accept an incoming action whose
    signature is in the set. *)
Lemma filterStep_rejects (filtered : list Action) (userDuplicates : list string)
    (action other : Action) :
  isOutgoingMessage action = false ->
  Js.setHas userDuplicates (createActionSignature action) = true ->
  ~ In action filtered ->
  ~ In action (fst (filterStep conversationHistory (filtered, userDuplicates) other)).
Proof.
  intros Hincoming Hhas Hnot. unfold filterStep.
  destruct (isOutgoingMessage other) eqn:Hother.
  - cbn [fst]. rewrite in_app_iff. intros [H | [<- | []]]; [auto | congruence].
  - destruct (Js.setHas userDuplicates (createActionSignature other)) eqn:Hdup;
      [exact Hnot |].
    destruct (isSimilarToConversationHistory other conversationHistory); [exact Hnot |].
    cbn [fst]. rewrite in_app_iff. intros [H | [<- | []]]; [auto | congruence].
Qed.

Lemma fold_filterStep_rejects (actions filtered : list Action)
    (userDuplicates : list string) (action : Action) :
  isOutgoingMessage action = false ->
  Js.setHas userDuplicates (createActionSignature action) = true ->
  ~ In action filtered ->
  ~ In action
      (fst (fold_left (filterStep conversationHistory) actions (filtered, userDuplicates))).
Proof.
  intros Hincoming. revert filtered userDuplicates.
  induction actions as [| other actions IH]; intros filtered userDuplicates Hhas Hnot;
    cbn [fold_left]; [exact Hnot |].
  pose proof (filterStep_keeps filtered userDuplicates other _ Hhas) as Hkeeps.
  pose proof (filterStep_rejects filtered userDuplicates action other Hincoming Hhas Hnot)
    as Hrejects.
  destruct (filterStep conversationHistory (filtered, userDuplicates) other)
    as [filtered' userDuplicates'].
  apply IH; assumption.
Qed.

(** A turn of the loop keeps what was accepted and accepts every
    outgoing action. *)
Lemma filterStep_accepts (filtered : list Action) (userDuplicates : list string)
    (action other : Action) :
  In action filtered \/ (action = other /\ isOutgoingMessage other = true) ->
  In action (fst (filterStep conversationHistory (filtered, userDuplicates) other)).
Proof.
  intros H. unfold filterStep. destruct (isOutgoingMessage other) eqn:Hother.
  - cbn [fst]. rewrite in_app_iff. simpl. intuition.
  - destruct H as [H | [_ H]]; [| discriminate].
    destruct (Js.setHas userDuplicates (createActionSignature other)); [exact H |].
    destruct (isSimilarToConversationHistory other conversationHistory); [exact H |].
    cbn [fst]. rewrite in_app_iff. now left.
Qed.

Lemma fold_filterStep_accepts (actions filtered : list Action)
    (userDuplicates : list string) (action : Action) :
  In action filtered \/ (In action actions /\ isOutgoingMessage action = true) ->
  In action
    (fst (fold_left (filterStep conversationHistory) actions (filtered, userDuplicates))).
Proof.
  revert filtered userDuplicates.
  induction actions as [| other actions IH]; intros filtered userDuplicates H;
    cbn [fold_left].
  - destruct H as [H | [[] _]]. exact H.
  - pose proof (filterStep_accepts filtered userDuplicates action other) as Hstep.
    destruct (filterStep conversationHistory (filtered, userDuplicates) other)
      as [filtered' userDuplicates'].
    apply IH. cbn [fst] in Hstep.
    destruct H as [H | [[<- | H] Hout]]; auto.
Qed.

End DuplicateFacts.

(** What [filterDuplicateActions] does for an action that carries a
    message sent by the owner: it is always accepted. *)
Lemma outgoing_branch_accepts (duplicateTracker : gmap Z (list string))
    (actions : list Action) (userId : Z) (conversationHistory : list HistoryEntry)
    (action : Action) :
  In action actions -> DuplicateGuard.isOutgoingMessage action = true ->
  In action
    (fst (DuplicateGuard.filterDuplicateActions duplicateTracker actions userId
            conversationHistory)).
Proof.
  intros Hin Hout. unfold DuplicateGuard.filterDuplicateActions.
  pose proof (fold_filterStep_accepts conversationHistory actions []
                (default [] (duplicateTracker !! userId)) action
                (or_intror (conj Hin Hout))) as H.
  destruct (fold_left _ actions _) as [filtered userDuplicates']. exact H.
Qed.

(** C6 — an action that is not from the owner and whose signature is
    already in the user's signature set is not among the actions
    [filterDuplicateActions] accepts; and when the first of two such
    actions with one signature has been accepted, the second is
    suppressed. *)
Theorem exact_duplicate_suppressed
    (duplicateTracker : gmap Z (list string)) (userId : Z)
    (actions : list Action) (conversationHistory laterHistory : list HistoryEntry)
    (action second : Action) :
  DuplicateGuard.isOutgoingMessage action = false ->
  (Js.setHas (DuplicateGuard.getDuplicateActionSignatures duplicateTracker userId)
     (DuplicateGuard.createActionSignature action) = true ->
   ~ In action
       (fst (DuplicateGuard.filterDuplicateActions duplicateTracker actions userId
               conversationHistory)))
  /\ (DuplicateGuard.isOutgoingMessage second = false ->
      DuplicateGuard.createActionSignature second
      = DuplicateGuard.createActionSignature action ->
      let accepted :=
        DuplicateGuard.filterDuplicateActions duplicateTracker [action] userId
          conversationHistory in
      In action (fst accepted) ->
      fst (DuplicateGuard.filterDuplicateActions (snd accepted) [second] userId laterHistory)
      = []).
Proof.
  intros Hincoming. split.
  - intros Hhas. unfold DuplicateGuard.filterDuplicateActions.
    pose proof (fold_filterStep_rejects conversationHistory actions []
                  (default [] (duplicateTracker !! userId)) action Hincoming Hhas
                  (fun H => H)) as H.
    destruct (fold_left _ actions _) as [filtered userDuplicates']. exact H.
  - intros Hsecond Hsame accepted Haccepted. subst accepted.
    unfold DuplicateGuard.filterDuplicateActions in *. cbn [fold_left] in *.
    unfold DuplicateGuard.filterStep at 2.
    unfold DuplicateGuard.filterStep in Haccepted.
    rewrite Hincoming in *.
    set (userDuplicates := default [] (duplicateTracker !! userId)) in *.
    destruct (Js.setHas userDuplicates (DuplicateGuard.createActionSignature action));
      [destruct Haccepted |].
    destruct (DuplicateGuard.isSimilarToConversationHistory action conversationHistory);
      [destruct Haccepted |].
    cbn [snd]. rewrite lookup_insert_eq. cbn [default]. unfold id.
    unfold DuplicateGuard.filterStep. rewrite Hsecond, Hsame, setAdd_has. reflexivity.
Qed.

Lemma exact_duplicate_suppressed_witness :
  let first := Samples.candidate "task" "Send the quarterly report to finance" (9 # 10) in
  let second := Samples.candidate "task" "send the QUARTERLY report, today!" (85 # 100) in
  let accepted := DuplicateGuard.filterDuplicateActions ∅ [first] 7 [] in
  DuplicateGuard.isOutgoingMessage first = false
  /\ DuplicateGuard.isOutgoingMessage second = false
  /\ DuplicateGuard.createActionSignature second = "task-quarterly-send-the"
  /\ In first (fst accepted)
  /\ fst (DuplicateGuard.filterDuplicateActions (snd accepted) [second] 7 []) = [].
Proof.
  intros first second accepted.
  split; [reflexivity |]. split; [reflexivity |]. split; [vm_compute; reflexivity |].
  split; [vm_compute; left; reflexivity |].
  apply (proj2 (exact_duplicate_suppressed ∅ 7 [] [] [] first second eq_refl));
    [reflexivity | vm_compute; reflexivity | vm_compute; left; reflexivity].
Defined.

Lemma pushIf_Forall (P : Action -> Prop) (condition : bool) (action : Action)
    (actions : list Action) :
  P action -> Forall P actions -> Forall P (AIProcessor.pushIf condition action actions).
Proof.
  intros Ha Hall. unfold AIProcessor.pushIf. destruct condition; [| assumption].
  apply Forall_app. split; [assumption | now constructor].
Qed.

(** The candidates of the keyword fallback carry no message. *)
Lemma fallback_carries_no_message (messageData : Message) (now : Z) (action : Action) :
  In action (AIProcessor.fallbackProcessing messageData now) ->
  a_originalMessage action = None.
Proof.
  unfold AIProcessor.fallbackProcessing.
  assert (Hall : Forall (fun a => a_originalMessage a = None)
                   (AIProcessor.fallbackCandidates messageData now)).
  { unfold AIProcessor.fallbackCandidates. cbv zeta.
    do 15 (apply pushIf_Forall; [reflexivity |]). constructor. }
  destruct (AIProcessor.fallbackCandidates messageData now) as [| first rest];
    [intros [] |].
  intros [<- | []]. rewrite Forall_forall in Hall.
  apply Hall, list_elem_of_In, reduceBest_max.
Qed.

(** An action without a message takes the incoming branch of
    [filterDuplicateActions], whoever sent the message it came from. *)
Lemma without_message_not_outgoing (action : Action) :
  a_originalMessage action = None -> DuplicateGuard.isOutgoingMessage action = false.
Proof. unfold DuplicateGuard.isOutgoingMessage. now intros ->. Qed.

(** C5 — the code at two messages of the owner, in a one-to-one chat,
    that both lead to the candidate of the keyword fallback for
    "remind me tomorrow at 3pm": the first run persists, notifies and
    emits; the second run, started with the signature set the first left,
    accepts nothing.  The candidate has no [originalMessage] when
    [filterDuplicateActions] reads [action.originalMessage.fromMe], so the
    permissive branch for outgoing messages is not taken. *)
Theorem owner_duplicate_suppressed :
  let env := Samples.collaborators AIProcessor.CallThrows (Rows tt) in
  let first := Samples.message "m7" "remind me tomorrow at 3pm" 1700000000 false true in
  let second := Samples.message "m8" "remind me tomorrow at 3pm" 1700003600 false true in
  let run1 := Pipeline.processMessageGroup env ∅ [first] 7 "60123456789" [] None in
  m_fromMe first = true /\ m_fromMe second = true
  /\ ActionEmitter.ranks (Effect.trace run1) = [0; 1; 1; 2]%nat
  /\ exists duplicateTracker : gmap Z (list string),
       Effect.outcome run1 = Effect.Returned duplicateTracker
       /\ duplicateTracker !! 7%Z = Some ["reminder-reminder-scheduling-timebased"]
       /\ Effect.trace
            (Pipeline.processMessageGroup env duplicateTracker [second] 7 "60123456789" []
               None)
          = [Effect.CheckExisting ["m8"] 7; Effect.Classify second;
             Effect.UpdateConversationHistory 7 "60123456789" []].
Proof.
  intros env first second run1.
  split; [reflexivity |]. split; [reflexivity |]. split; [vm_compute; reflexivity |].
  eexists. split; [vm_compute; reflexivity |]. split; vm_compute; reflexivity.
Qed.

(** What [isSimilarToConversationHistory] computes: some entry among the
    first five has the action's type, a [fromMe] value strictly equal to
    that of the action's own message, and a word-set quotient above
    0.8. *)
Lemma similar_to_history_iff (action : Action) (conversationHistory : list HistoryEntry) :
  DuplicateGuard.isSimilarToConversationHistory action conversationHistory = true <->
  exists entry : HistoryEntry,
    In entry (take 5 conversationHistory)
    /\ h_type entry = a_type action
    /\ DuplicateGuard.currentFromMe action = DuplicateGuard.historyFromMe entry
    /\ Js.gtNum
         (DuplicateGuard.calculateStringSimilarity (Js.toLowerCase (a_description action))
            (Js.toLowerCase (h_description entry)))
         DUPLICATE_SIMILARITY_THRESHOLD = true.
Proof.
  unfold DuplicateGuard.isSimilarToConversationHistory, Js.sliceTo.
  rewrite existsb_exists. unfold DuplicateGuard.similarEntry.
  split; intros (entry & Hin & H); exists entry; (split; [assumption |]).
  - rewrite !andb_true_iff in H. destruct H as [[Htype Hfrom] Hsim].
    apply String.eqb_eq in Htype. repeat split; try assumption.
    unfold DuplicateGuard.historyFromMe in *.
    destruct (DuplicateGuard.currentFromMe action) as [b |]; [| discriminate].
    simpl in Hfrom. apply Bool.eqb_prop in Hfrom. now subst.
  - destruct H as (Htype & Hfrom & Hsim). rewrite !andb_true_iff. repeat split.
    + now apply String.eqb_eq.
    + rewrite Hfrom. simpl. apply Bool.eqb_reflx.
    + assumption.
Qed.

(** An action without a message is never similar to the stored history:
    its [fromMe] value is [undefined], that of a stored message is a
    boolean. *)
Lemma without_message_never_similar (action : Action)
    (conversationHistory : list HistoryEntry) :
  a_originalMessage action = None ->
  DuplicateGuard.isSimilarToConversationHistory action conversationHistory = false.
Proof.
  intros Hnone. apply not_true_is_false. rewrite similar_to_history_iff.
  intros (entry & _ & _ & Hfrom & _).
  unfold DuplicateGuard.currentFromMe, DuplicateGuard.historyFromMe in Hfrom.
  rewrite Hnone in Hfrom. discriminate.
Qed.

(** C7 — the code at a candidate from a message of another participant
    and a history whose newest entry has the same type, was saved from a
    message that is not from the owner either, and has the same words:
    the quotient is 1, above 0.8, and the check answers false.  The
    candidate has no [originalMessage] when the check compares
    [action.originalMessage.fromMe] with the entry's. *)
Theorem similar_history_not_suppressed :
  let action := Samples.candidate "task" "Send the report to the client" (9 # 10) in
  let stored :=
    Samples.message "m9" "please send the report to the client" 1700000000 false false in
  let entry := mkHistory "task" "send the report to the client" None 1700000050000 stored in
  h_type entry = a_type action
  /\ m_fromMe (h_originalMessage entry) = false
  /\ DuplicateGuard.isOutgoingMessage action = false
  /\ DuplicateGuard.calculateStringSimilarity (Js.toLowerCase (a_description action))
       (Js.toLowerCase (h_description entry)) = Js.Finite (5 # 5)
  /\ DuplicateGuard.isSimilarToConversationHistory action [entry] = false
  /\ fst (DuplicateGuard.filterDuplicateActions ∅ [action] 7 [entry]) = [action].
Proof.
  intros action stored entry. repeat split; vm_compute; reflexivity.
Qed.

(** ** Neighbours in a list *)

Section Adjacent.
Context {A : Type}.
Import SenderGrouper.

Lemma adjacent_snoc (l : list A) (x a b : A) :
  adjacent (l ++ [x]) a b <-> adjacent l a b \/ (last l = Some a /\ b = x).
Proof.
  unfold adjacent. split.
  - intros (i & Ha & Hb).
    pose proof (lookup_lt_Some _ _ _ Hb) as Hlt. rewrite length_app in Hlt. simpl in Hlt.
    destruct (decide (S i < length l)) as [Hin | Hout].
    + left. exists i. rewrite lookup_app_l in Ha by lia. rewrite lookup_app_l in Hb by lia.
      now split.
    + right. assert (Hi : S i = length l) by lia.
      rewrite lookup_app_l in Ha by lia.
      rewrite lookup_app_r in Hb by lia.
      replace (S i - length l)%nat with 0%nat in Hb by lia. simpl in Hb.
      split; [| congruence].
      rewrite last_lookup. replace (pred (length l)) with i by lia. exact Ha.
  - intros [(i & Ha & Hb) | [Hlast ->]].
    + exists i. split; apply lookup_app_l_Some; assumption.
    + rewrite last_lookup in Hlast. pose proof (lookup_lt_Some _ _ _ Hlast) as Hlt.
      exists (pred (length l)). split.
      * now apply lookup_app_l_Some.
      * rewrite lookup_app_r by lia.
        replace (S (pred (length l)) - length l)%nat with 0%nat by lia. reflexivity.
Qed.

Lemma adjacent_nil (a b : A) : ~ adjacent [] a b.
Proof. intros (i & Ha & _). discriminate. Qed.

Lemma adjacent_singleton (x a b : A) : ~ adjacent [x] a b.
Proof. intros (i & _ & Hb). discriminate. Qed.

End Adjacent.

(** ** SenderGrouper: the loop of [groupMessagesByTimeAndSender] *)

Section GrouperLoop.
Import SenderGrouper.

Lemma finish_current (st : LoopState) :
  currentGroup st <> [] -> finish st = groups st ++ [currentGroup st].
Proof.
  unfold finish. destruct (currentGroup st); [congruence | reflexivity].
Qed.

Lemma finish_no_current (st : LoopState) : currentGroup st = [] -> finish st = groups st.
Proof. unfold finish. now intros ->. Qed.

Lemma concat_nil_nonempty (runs : list (list Message)) :
  concat runs = [] -> Forall (fun run => run <> []) runs -> runs = [].
Proof.
  destruct runs as [| run runs]; [reflexivity |]. simpl. intros Hnil Hall.
  inversion Hall as [| ? ? Hrun _]; subst. destruct run; [congruence | discriminate].
Qed.

(** The branch that starts a group. *)
Lemma step_new (st : LoopState) (message : Message) :
  sameSender (currentSender st) (senderKey message)
  && (timeDiffOf (currentTime st) (m_timestamp message * 1000) <? 300000)%Z = false ->
  finish (step st message) = finish st ++ [[message]]
  /\ currentGroup (step st message) = [message]
  /\ currentSender (step st message) = Some (senderKey message)
  /\ currentTime (step st message) = Some (m_timestamp message * 1000)%Z.
Proof.
  intros Hcond. unfold step. rewrite Hcond. unfold finish. simpl. auto.
Qed.

(** The branch that extends the current group. *)
Lemma step_join (st : LoopState) (message : Message) :
  sameSender (currentSender st) (senderKey message)
  && (timeDiffOf (currentTime st) (m_timestamp message * 1000) <? 300000)%Z = true ->
  finish (step st message) = groups st ++ [currentGroup st ++ [message]]
  /\ currentGroup (step st message) = currentGroup st ++ [message]
  /\ currentSender (step st message) = currentSender st
  /\ currentTime (step st message) = Some (m_timestamp message * 1000)%Z.
Proof.
  intros Hcond. unfold step. rewrite Hcond. unfold finish. simpl.
  rewrite length_app. simpl. replace (length (currentGroup st) + 1)%nat
    with (S (length (currentGroup st))) by lia. auto.
Qed.

(** With a previous message whose timestamp is not zero, the loop's test
    is the relation [joins]. *)
Lemma condition_joins (st : LoopState) (previous message : Message) :
  currentSender st = Some (senderKey previous) ->
  currentTime st = Some (m_timestamp previous * 1000)%Z ->
  m_timestamp previous <> 0%Z ->
  sameSender (currentSender st) (senderKey message)
  && (timeDiffOf (currentTime st) (m_timestamp message * 1000) <? 300000)%Z = true
  <-> joins previous message.
Proof.
  intros -> -> Hnonzero. unfold sameSender, timeDiffOf, joins.
  destruct (Z.eqb_spec (m_timestamp previous * 1000) 0) as [Hz | _]; [lia |].
  rewrite andb_true_iff, String.eqb_eq, Z.ltb_lt. tauto.
Qed.

End GrouperLoop.

Section GrouperInvariant.
Import SenderGrouper.

Lemma invariant_initial : LoopInvariant initial [].
Proof.
  constructor; simpl; auto.
  - intros run a b [].
  - intros r1 r2 a b H. now apply adjacent_nil in H.
Qed.

Lemma invariant_step (st : LoopState) (processed : list Message) (message : Message) :
  Forall (fun m => m_timestamp m <> 0%Z) processed ->
  LoopInvariant st processed ->
  LoopInvariant (step st message) (processed ++ [message]).
Proof.
  intros Hnonzero [Hconcat Hnonempty Hcurrent Hwithin Hbetween].
  destruct (sameSender (currentSender st) (senderKey message)
            && (timeDiffOf (currentTime st) (m_timestamp message * 1000) <? 300000)%Z)
    eqn:Hcond.
  - (* the message joins the current group *)
    destruct (step_join st message Hcond) as (Hfinish & Hgroup & Hsender & Htime).
    destruct (last processed) as [previous |] eqn:Hlast; cycle 1.
    { destruct Hcurrent as [_ Hnone]. rewrite Hnone in Hcond. discriminate. }
    destruct Hcurrent as (Hlastgroup & Hkey & Hclock).
    assert (Hprevious : m_timestamp previous <> 0%Z).
    { apply last_Some in Hlast. destruct Hlast as [l' ->].
      apply Forall_app in Hnonzero. destruct Hnonzero as [_ H].
      now inversion H. }
    assert (Hjoins : joins previous message)
      by (apply (condition_joins st); assumption).
    assert (Hne : currentGroup st <> []).
    { intros Hnil. rewrite Hnil in Hlastgroup. discriminate. }
    pose proof (finish_current st Hne) as Hold.
    rewrite Hold in *.
    constructor.
    + rewrite Hfinish, concat_app in *. simpl in *. rewrite app_nil_r in *.
      rewrite <- Hconcat. now rewrite app_assoc.
    + rewrite Hfinish. apply Forall_app in Hnonempty. destruct Hnonempty as [Hg _].
      apply Forall_app. split; [assumption |]. constructor; [| constructor].
      now destruct (currentGroup st).
    + rewrite last_snoc, Hgroup, last_snoc, Hsender, Hkey, Htime.
      destruct Hjoins as [-> _]. auto.
    + rewrite Hfinish. intros run a b Hin Hadj.
      apply in_app_iff in Hin. destruct Hin as [Hin | [<- | []]].
      * apply (Hwithin run); [apply in_app_iff; now left | assumption].
      * apply adjacent_snoc in Hadj. destruct Hadj as [Hadj | [Hl ->]].
        -- apply (Hwithin (currentGroup st)); [apply in_app_iff; right; now left |].
           assumption.
        -- rewrite Hlastgroup in Hl. now injection Hl as <-.
    + rewrite Hfinish. intros r1 r2 a b Hadj Ha Hb.
      apply adjacent_snoc in Hadj. destruct Hadj as [Hadj | [Hl ->]].
      * apply (Hbetween r1 r2); try assumption. apply adjacent_snoc. now left.
      * apply (Hbetween r1 (currentGroup st)); try assumption.
        -- apply adjacent_snoc. now right.
        -- destruct (currentGroup st); [congruence | exact Hb].
  - (* the message starts a group *)
    destruct (step_new st message Hcond) as (Hfinish & Hgroup & Hsender & Htime).
    constructor.
    + rewrite Hfinish, concat_app, Hconcat. simpl. reflexivity.
    + rewrite Hfinish. apply Forall_app. split; [assumption |].
      constructor; [discriminate | constructor].
    + rewrite last_snoc, Hgroup, Hsender, Htime. auto.
    + rewrite Hfinish. intros run a b Hin Hadj.
      apply in_app_iff in Hin. destruct Hin as [Hin | [<- | []]].
      * now apply (Hwithin run).
      * now apply adjacent_singleton in Hadj.
    + rewrite Hfinish. intros r1 r2 a b Hadj Ha Hb.
      apply adjacent_snoc in Hadj. destruct Hadj as [Hadj | [Hl ->]].
      * now apply (Hbetween r1 r2 a b).
      * simpl in Hb. injection Hb as <-.
        destruct (last processed) as [previous |] eqn:Hlast.
        -- destruct Hcurrent as (Hlastgroup & Hkey & Hclock).
           assert (Hne : currentGroup st <> []).
           { intros Hnil. rewrite Hnil in Hlastgroup. discriminate. }
           rewrite (finish_current st Hne), last_snoc in Hl. injection Hl as <-.
           rewrite Hlastgroup in Ha. injection Ha as <-.
           assert (Hprevious : m_timestamp previous <> 0%Z).
           { apply last_Some in Hlast. destruct Hlast as [l' ->].
             apply Forall_app in Hnonzero. destruct Hnonzero as [_ H].
             now inversion H. }
           intros Hjoins. apply (condition_joins st previous message) in Hjoins;
             try assumption. congruence.
        -- apply last_None in Hlast. rewrite Hlast in Hconcat.
           rewrite (concat_nil_nonempty _ Hconcat Hnonempty) in Hl. discriminate.
Qed.

Lemma invariant_loop (messages processed : list Message) (st : LoopState) :
  Forall (fun m => m_timestamp m <> 0%Z) (processed ++ messages) ->
  LoopInvariant st processed ->
  LoopInvariant (fold_left step messages st) (processed ++ messages).
Proof.
  revert processed st. induction messages as [| message messages IH];
    intros processed st Hnonzero Hinv; cbn [fold_left].
  - now rewrite app_nil_r.
  - replace (processed ++ message :: messages) with ((processed ++ [message]) ++ messages)
      in * by now rewrite <- app_assoc.
    apply IH; [assumption |]. apply invariant_step; [| assumption].
    apply Forall_app in Hnonzero. destruct Hnonzero as [Hnonzero _].
    apply Forall_app in Hnonzero. tauto.
Qed.

End GrouperInvariant.

(** ** SenderGrouper: the sort *)

Section GrouperSort.
Import SenderGrouper.

Lemma insertByTimestamp_Permutation (m : Message) (l : list Message) :
  Permutation (insertByTimestamp m l) (m :: l).
Proof.
  induction l as [| x l IH]; simpl; [reflexivity |].
  destruct (m_timestamp m <=? m_timestamp x)%Z; [reflexivity |].
  rewrite IH. apply perm_swap.
Qed.

Lemma sortByTimestamp_Permutation (messages : list Message) :
  Permutation (sortByTimestamp messages) messages.
Proof.
  induction messages as [| m messages IH]; simpl; [reflexivity |].
  rewrite insertByTimestamp_Permutation. now constructor.
Qed.

Lemma insertByTimestamp_StronglySorted (m : Message) (l : list Message) :
  StronglySorted byTimestamp l -> StronglySorted byTimestamp (insertByTimestamp m l).
Proof.
  induction l as [| x l IH]; intros Hsorted; simpl.
  - repeat constructor.
  - apply StronglySorted_cons in Hsorted. destruct Hsorted as [Hall Hsorted].
    destruct (Z.leb_spec (m_timestamp m) (m_timestamp x)) as [Hle | Hgt].
    + constructor; [constructor; assumption |].
      constructor; [exact Hle |].
      eapply Forall_impl; [exact Hall |]. unfold byTimestamp. intros y Hy. simpl in *. lia.
    + constructor; [apply IH, Hsorted |].
      rewrite (insertByTimestamp_Permutation m l).
      constructor; [unfold byTimestamp; lia | exact Hall].
Qed.

Lemma sortByTimestamp_StronglySorted (messages : list Message) :
  StronglySorted byTimestamp (sortByTimestamp messages).
Proof.
  induction messages as [| m messages IH]; simpl; [constructor |].
  now apply insertByTimestamp_StronglySorted.
Qed.

(** Messages with one timestamp keep the order they arrived in. *)
Lemma insertByTimestamp_stable (t : Z) (m : Message) (l : list Message) :
  StronglySorted byTimestamp l ->
  filter (fun x => m_timestamp x = t) (insertByTimestamp m l)
  = filter (fun x => m_timestamp x = t) (m :: l).
Proof.
  induction l as [| x l IH]; intros Hsorted; simpl; [reflexivity |].
  apply StronglySorted_cons in Hsorted. destruct Hsorted as [Hall Hsorted].
  destruct (Z.leb_spec (m_timestamp m) (m_timestamp x)) as [Hle | Hgt]; [reflexivity |].
  rewrite !filter_cons, (IH Hsorted), !filter_cons.
  destruct (decide (m_timestamp x = t)) as [Hx | Hx];
    destruct (decide (m_timestamp m = t)) as [Hm | Hm]; try reflexivity.
  lia.
Qed.

Lemma sortByTimestamp_stable (t : Z) (messages : list Message) :
  filter (fun x => m_timestamp x = t) (sortByTimestamp messages)
  = filter (fun x => m_timestamp x = t) messages.
Proof.
  induction messages as [| m messages IH]; simpl; [reflexivity |].
  rewrite insertByTimestamp_stable by apply sortByTimestamp_StronglySorted.
  rewrite !filter_cons, IH. reflexivity.
Qed.

Lemma concat_StronglySorted (runs : list (list Message)) :
  StronglySorted byTimestamp (concat runs) -> Forall (StronglySorted byTimestamp) runs.
Proof.
  induction runs as [| run runs IH]; simpl; intros Hsorted; constructor.
  - eapply StronglySorted_app_1_l, Hsorted.
  - eapply IH, StronglySorted_app_1_r, Hsorted.
Qed.

End GrouperSort.

(** The timestamp [sessionManager.js] gives a message is never zero. *)
Lemma ingestTimestamp_nonzero (transport : option Z) (now : Z) :
  now <> 0%Z -> ingestTimestamp transport now <> 0%Z.
Proof.
  intros Hnow. unfold ingestTimestamp. destruct transport as [t |]; [| assumption].
  destruct (Z.eqb_spec t 0); assumption.
Qed.

(** C4 — for a batch whose timestamps are not zero (the ingestion never
    stores a zero timestamp) the runs of [groupMessagesByTimeAndSender],
    put end to end, are the batch sorted by timestamp, hence a
    rearrangement of the batch with nothing dropped or repeated; no run is
    empty; each run is in ascending timestamp order; two neighbours inside
    a run have the same grouping key and are less than five minutes apart;
    and the last message of a run and the first of the next differ in
    grouping key or are five minutes or more apart.  The grouping key of a
    message is [me] for the owner's messages and [other_] followed by the
    display name for the others in a group conversation, and the raw
    sender id in a one-to-one conversation. *)
Theorem run_partition (batch : list Message) :
  Forall (fun m => m_timestamp m <> 0%Z) batch ->
  let runs := SenderGrouper.groupMessagesByTimeAndSender batch in
  concat runs = SenderGrouper.sortByTimestamp batch
  /\ Permutation (concat runs) batch
  /\ Forall (fun run => run <> []) runs
  /\ Forall (StronglySorted SenderGrouper.byTimestamp) runs
  /\ (forall (run : list Message) (a b : Message),
        In run runs -> adjacent run a b ->
        SenderGrouper.senderKey a = SenderGrouper.senderKey b
        /\ (m_timestamp b * 1000 - m_timestamp a * 1000 < 300000)%Z)
  /\ (forall (r1 r2 : list Message) (a b : Message),
        adjacent runs r1 r2 -> last r1 = Some a -> head r2 = Some b ->
        SenderGrouper.senderKey a <> SenderGrouper.senderKey b
        \/ (300000 <= m_timestamp b * 1000 - m_timestamp a * 1000)%Z)
  /\ (forall m : Message,
        (m_isGroup m = true -> m_fromMe m = true -> SenderGrouper.senderKey m = "me")
        /\ (m_isGroup m = true -> m_fromMe m = false ->
            SenderGrouper.senderKey m = ("other_" ++ m_fromName m)%string)
        /\ (m_isGroup m = false -> SenderGrouper.senderKey m = m_from m)).
Proof.
  intros Hnonzero runs.
  assert (Hsorted : Forall (fun m => m_timestamp m <> 0%Z)
                      ([] ++ SenderGrouper.sortByTimestamp batch)).
  { simpl. rewrite sortByTimestamp_Permutation. exact Hnonzero. }
  destruct (invariant_loop _ [] SenderGrouper.initial Hsorted invariant_initial)
    as [Hconcat Hnonempty _ Hwithin Hbetween].
  simpl in Hconcat. fold (SenderGrouper.groupMessagesByTimeAndSender batch) in *.
  fold runs in Hconcat, Hnonempty, Hwithin, Hbetween.
  split; [exact Hconcat |]. split; [rewrite Hconcat; apply sortByTimestamp_Permutation |].
  split; [exact Hnonempty |]. split.
  { apply concat_StronglySorted. rewrite Hconcat. apply sortByTimestamp_StronglySorted. }
  split; [exact Hwithin |]. split.
  - intros r1 r2 a b Hadj Ha Hb.
    pose proof (Hbetween r1 r2 a b Hadj Ha Hb) as Hnot. unfold SenderGrouper.joins in Hnot.
    destruct (string_dec (SenderGrouper.senderKey a) (SenderGrouper.senderKey b))
      as [Heq | Hne]; [| now left].
    right. apply Z.nlt_ge. intros Hlt. apply Hnot. now split.
  - intros m. unfold SenderGrouper.senderKey.
    split; [| split]; [intros -> -> | intros -> -> | intros ->]; reflexivity.
Qed.

Lemma run_partition_witness :
  let owner := Samples.message "a" "first" 1700000000 true true in
  let owner' := Samples.message "c" "third" 1700000020 true true in
  let other := Samples.message "b" "second" 1700000010 true false in
  let batch := [owner; owner'; other] in
  Forall (fun m => m_timestamp m <> 0%Z) batch
  /\ concat (SenderGrouper.groupMessagesByTimeAndSender batch)
     = SenderGrouper.sortByTimestamp batch
  /\ SenderGrouper.senderKey owner = "me"
  /\ SenderGrouper.senderKey other = "other_Aina"
  /\ SenderGrouper.groupMessagesByTimeAndSender batch = [[owner]; [other]; [owner']].
Proof.
  intros owner owner' other batch.
  assert (Hnonzero : Forall (fun m => m_timestamp m <> 0%Z) batch)
    by (repeat constructor; discriminate).
  pose proof (run_partition batch Hnonzero) as (Hconcat & _ & _ & _ & _ & _ & Hkey).
  split; [exact Hnonzero |]. split; [exact Hconcat |].
  split; [exact (proj1 (Hkey owner) eq_refl eq_refl) |].
  split; [exact (proj1 (proj2 (Hkey other)) eq_refl eq_refl) |].
  reflexivity.
Defined.

(** Owner, a named participant and the owner again, ten seconds apart in
    a group conversation, are three runs. *)
Example interleaved_senders_three_runs :
  map (map m_id)
    (SenderGrouper.groupMessagesByTimeAndSender
       [Samples.message "a" "first" 1700000000 true true;
        Samples.message "c" "third" 1700000020 true true;
        Samples.message "b" "second" 1700000010 true false])
  = [["a"]; ["b"]; ["c"]].
Proof. reflexivity. Qed.

(** A gap of exactly five minutes starts a run, one second less does
    not. *)
Example five_minutes_start_a_run :
  map (map m_id)
    (SenderGrouper.groupMessagesByTimeAndSender
       [Samples.message "a" "first" 1700000000 false false;
        Samples.message "b" "second" 1700000299 false false;
        Samples.message "c" "third" 1700000599 false false])
  = [["a"; "b"]; ["c"]].
Proof. reflexivity. Qed.

(** Why the timestamps must not be zero: after a message with timestamp
    zero the loop takes the gap to be zero. *)
Example zero_timestamp_hides_the_gap :
  map (map m_id)
    (SenderGrouper.groupMessagesByTimeAndSender
       [Samples.message "a" "first" 0 false false;
        Samples.message "b" "second" 1000 false false])
  = [["a"; "b"]].
Proof. reflexivity. Qed.

(** ** ActionEmitter *)

(** Goes through a list of events that is given in full. *)
Ltac each_event :=
  repeat (apply List.Forall_cons; [cbn; auto |]); try apply List.Forall_nil.

Lemma sendActionNotification_returns (env : Collaborators) (actionId : string) (userId : Z) :
  Effect.outcome (ActionEmitter.sendActionNotification env actionId userId)
  = Effect.Returned tt
  /\ Forall (fun e => ActionEmitter.rank e = Some 1%nat \/ ActionEmitter.rank e = None)
       (Effect.trace (ActionEmitter.sendActionNotification env actionId userId)).
Proof.
  unfold ActionEmitter.sendActionNotification.
  destruct (oneSignalAvailable env); cbn; [| split; [reflexivity | constructor]].
  destruct (dbAvailable env); cbn; [| split; [reflexivity | each_event]].
  destruct (playerIdOf env userId) as [[playerId |] |]; cbn.
  - destruct (createNotification env actionId) as [[] |]; cbn;
      (split; [reflexivity | each_event]).
  - split; [reflexivity | each_event].
  - split; [reflexivity | each_event].
Qed.

(** [saveAndEmitAction] never throws. *)
Lemma saveAndEmitAction_returns (env : Collaborators) (action : Action)
    (messageData : Message) (userId : Z) :
  Effect.outcome (ActionEmitter.saveAndEmitAction env action messageData userId)
  = Effect.Returned tt.
Proof.
  unfold ActionEmitter.saveAndEmitAction.
  pose proof (sendActionNotification_returns env (freshActionId env action) userId) as [Hout _].
  destruct (ActionEmitter.sendActionNotification env (freshActionId env action) userId)
    as [tr out]. cbn in Hout. subst out.
  destruct (dbAvailable env); cbn;
    [destruct (insertAction env (freshActionId env action)) as [[] |]; cbn |];
    reflexivity.
Qed.

(** C9 — when the [INSERT] fails, [saveAndEmitAction] writes the error to
    the console itself and returns: nothing is notified, nothing is
    emitted, and the caller's loop goes on with the next action without
    seeing an error.  In every case the persist, push and live-event
    effects that occur are in this order. *)
Theorem persist_failure_contained
    (env : Collaborators) (action : Action) (others : list Action)
    (messageData : Message) (userId : Z) :
  let save := fun a => ActionEmitter.saveAndEmitAction env a messageData userId in
  Sorted le (ActionEmitter.ranks (Effect.trace (save action)))
  /\ Effect.outcome (save action) = Effect.Returned tt
  /\ Effect.forEach (action :: others) save
     = (Effect.trace (save action) ++ Effect.trace (Effect.forEach others save),
        Effect.outcome (Effect.forEach others save))
  /\ (dbAvailable env = true ->
      insertAction env (freshActionId env action) = QueryThrows ->
      Effect.trace (save action)
      = [Effect.Persist (freshActionId env action) (a_type action) (a_description action)
           messageData (ActionEmitter.actionDetailsOf env action messageData) userId;
         Effect.ConsoleError "Error saving enhanced action to database"]).
Proof.
  intros save. split; [| split; [| split]].
  - subst save. unfold ActionEmitter.saveAndEmitAction, ActionEmitter.sendActionNotification.
    destruct (dbAvailable env); cbn;
      [destruct (insertAction env (freshActionId env action)) as [[] |]; cbn |];
      destruct (oneSignalAvailable env); cbn;
      try (destruct (playerIdOf env userId) as [[playerId |] |]; cbn);
      try (destruct (createNotification env (freshActionId env action)) as [[] |]; cbn);
      repeat constructor.
  - apply saveAndEmitAction_returns.
  - cbn [Effect.forEach]. pose proof (saveAndEmitAction_returns env action messageData userId)
      as Hout. fold (save action) in Hout.
    destruct (save action) as [tr out]. cbn in Hout. subst out. cbn.
    destruct (Effect.forEach others save). reflexivity.
  - intros Hdb Hinsert. subst save. unfold ActionEmitter.saveAndEmitAction.
    rewrite Hdb, Hinsert. reflexivity.
Qed.

Lemma persist_failure_contained_witness :
  let env := Samples.collaborators (AIProcessor.Parsed []) QueryThrows in
  let action := Samples.candidate "task" "Send the report" (9 # 10) in
  let messageData := Samples.message "m10" "please send the report" 1700000000 false false in
  dbAvailable env = true
  /\ insertAction env (freshActionId env action) = QueryThrows
  /\ map ActionEmitter.rank
       (Effect.trace (ActionEmitter.saveAndEmitAction env action messageData 7))
     = [Some 0%nat; None].
Proof.
  intros env action messageData. split; [reflexivity |]. split; [reflexivity |].
  rewrite (proj2 (proj2 (proj2 (persist_failure_contained env action [] messageData 7)))
             eq_refl eq_refl).
  reflexivity.
Defined.

(** C9, the claim as written fails: with an [INSERT] that throws,
    [saveAndEmitAction] returns normally, [processMessageGroup] returns
    normally too and goes on to record the unsaved action in the
    conversation history; only the emitter's own console line tells of
    the error. *)
Lemma persist_failure_not_surfaced :
  let action := Samples.candidate "task" "Send the report" (9 # 10) in
  let env := Samples.collaborators (AIProcessor.Parsed [action]) QueryThrows in
  let messageData := Samples.message "m10" "please send the report" 1700000000 false false in
  insertAction env (freshActionId env action) = QueryThrows
  /\ Effect.outcome (ActionEmitter.saveAndEmitAction env action messageData 7)
     = Effect.Returned tt
  /\ exists duplicateTracker : gmap Z (list string),
       Effect.outcome
         (Pipeline.processMessageGroup env ∅ [messageData] 7 "60123456789" [] None)
       = Effect.Returned duplicateTracker
       /\ map ActionEmitter.rank
            (Effect.trace
               (Pipeline.processMessageGroup env ∅ [messageData] 7 "60123456789" [] None))
          = [None; None; Some 0%nat; None; None]
       /\ last
            (Effect.trace
               (Pipeline.processMessageGroup env ∅ [messageData] 7 "60123456789" [] None))
          = Some (Effect.UpdateConversationHistory 7 "60123456789" [action]).
Proof.
  intros action env messageData. split; [reflexivity |]. split; [reflexivity |].
  eexists. split; [vm_compute; reflexivity |]. split; vm_compute; reflexivity.
Qed.

(** ** TimeWindowBuffer *)

Section BufferFacts.
Import TimeWindowBuffer.

Lemma coalesced_nil : coalesced [].
Proof. intros a b H. now apply adjacent_nil in H. Qed.

Lemma invariant_empty : BufferInvariant empty.
Proof. constructor; simpl; auto using coalesced_nil. Qed.

Lemma head_snoc_nonempty {A} (l : list A) (x first : A) :
  head l = Some first -> head (l ++ [x]) = Some first.
Proof. destruct l; simpl; [discriminate | auto]. Qed.

(** The event loop keeps the invariant, and a timer it leaves is not
    due yet. *)
Lemma advance_invariant (now : Z) (st : State) :
  BufferInvariant st ->
  BufferInvariant (advance now st)
  /\ (forall due : Z, timer (advance now st) = Some due -> (now < due)%Z)
  /\ concat (map snd (flushed (advance now st))) ++ chatBuffer (advance now st)
     = concat (map snd (flushed st)) ++ chatBuffer st.
Proof.
  intros Hinv. unfold advance.
  destruct (timer st) as [due |] eqn:Htimer; cycle 1.
  { split; [exact Hinv |]. split; [| reflexivity]. intros due Hdue. congruence. }
  destruct (Z.leb_spec due now) as [Hdue | Hnotdue]; cycle 1.
  { split; [exact Hinv |]. split; [| reflexivity]. intros due' Hdue'. congruence. }
  destruct Hinv as [Hflushed Hflushedgaps Hgaps Hpending].
  unfold processGroupedMessages.
  destruct (head (chatBuffer st)) as [first |] eqn:Hhead;
    destruct (last (chatBuffer st)) as [lastOne |] eqn:Hlast;
    try (destruct Hpending as [_ Hnone]; congruence).
  destruct Hpending as (Htimer' & Horder & Hspan & Hsize).
  assert (Hlen : (length (chatBuffer st) =? 0)%nat = false).
  { destruct (chatBuffer st); [discriminate | reflexivity]. }
  rewrite Hlen. split; [constructor | split]; simpl.
  - apply Forall_app. split; [assumption |]. constructor; [| constructor].
    exists first, lastOne. simpl. rewrite Htimer in Htimer'. injection Htimer' as ->.
    unfold GROUP_DELAY_MS, MAX_GROUP_SIZE in *. repeat split; try assumption; lia.
  - apply Forall_app. split; [assumption |]. constructor; [exact Hgaps | constructor].
  - apply coalesced_nil.
  - auto.
  - discriminate.
  - rewrite map_app, concat_app. simpl. now rewrite !app_nil_r.
Qed.

(** [processMessage] keeps the invariant when the pending timer is not
    due and the message does not arrive before the last buffered one. *)
Lemma processMessage_invariant (now : Z) (messageData : Message) (st : State) :
  BufferInvariant st ->
  (forall due : Z, timer st = Some due -> (now < due)%Z) ->
  (forall lastOne : Stamped, last (chatBuffer st) = Some lastOne -> (fst lastOne <= now)%Z) ->
  BufferInvariant (processMessage now messageData st)
  /\ concat (map snd (flushed (processMessage now messageData st)))
       ++ chatBuffer (processMessage now messageData st)
     = concat (map snd (flushed st)) ++ chatBuffer st ++ [(now, messageData)]
  /\ (forall lastOne : Stamped,
        last (chatBuffer (processMessage now messageData st)) = Some lastOne ->
        fst lastOne = now).
Proof.
  intros [Hflushed Hflushedgaps Hgaps Hpending] Hnotdue Hafter. unfold processMessage.
  set (buffer := chatBuffer st ++ [(now, messageData)]).
  assert (Hlast' : last buffer = Some (now, messageData)) by apply last_snoc.
  assert (Hgaps' : coalesced buffer).
  { intros a b Hadj. subst buffer. apply adjacent_snoc in Hadj.
    destruct Hadj as [Hadj | [Hl ->]]; [now apply Hgaps |].
    specialize (Hafter _ Hl).
    destruct (head (chatBuffer st)) as [first |] eqn:Hhead.
    - rewrite Hl in Hpending. destruct Hpending as (Htimer & _).
      specialize (Hnotdue _ Htimer). simpl. lia.
    - destruct Hpending as [Hnil _]. rewrite Hnil in Hl. discriminate. }
  assert (Hfacts : exists first : Stamped,
             head buffer = Some first
             /\ (fst first <= now)%Z
             /\ (now <= fst first + (Z.of_nat (length buffer) - 1) * GROUP_DELAY_MS)%Z
             /\ (length buffer <= MAX_GROUP_SIZE)%nat).
  { subst buffer. rewrite length_app. simpl.
    destruct (head (chatBuffer st)) as [first |] eqn:Hhead;
      destruct (last (chatBuffer st)) as [lastOne |] eqn:Hlast.
    - destruct Hpending as (Htimer & Horder & Hspan & Hsize).
      specialize (Hnotdue _ Htimer). specialize (Hafter _ eq_refl).
      exists first. split; [now apply head_snoc_nonempty |].
      unfold GROUP_DELAY_MS, MAX_GROUP_SIZE in *. repeat split; lia.
    - destruct Hpending as [Hnil _]. rewrite Hnil in Hhead. discriminate.
    - destruct Hpending as [Hnil _]. rewrite Hnil in Hlast. discriminate.
    - destruct Hpending as [Hnil _]. rewrite Hnil. simpl.
      exists (now, messageData). unfold GROUP_DELAY_MS, MAX_GROUP_SIZE. simpl.
      repeat split; lia. }
  destruct Hfacts as (first & Hhead' & Horder' & Hspan' & Hsize').
  destruct (Nat.leb_spec MAX_GROUP_SIZE (length buffer)) as [Hfull | Hroom].
  - unfold processGroupedMessages. cbn [chatBuffer flushed].
    assert (Hlen : (length buffer =? 0)%nat = false).
    { subst buffer. rewrite length_app. simpl. apply Nat.eqb_neq. lia. }
    rewrite Hlen. cbn [chatBuffer flushed timer]. split; [constructor | split].
    + apply Forall_app. split; [assumption |]. constructor; [| constructor].
      exists first, (now, messageData). simpl.
      assert (length buffer = MAX_GROUP_SIZE) by lia.
      unfold GROUP_DELAY_MS, MAX_GROUP_SIZE in *. repeat split; try assumption; lia.
    + apply Forall_app. split; [assumption |]. constructor; [exact Hgaps' | constructor].
    + apply coalesced_nil.
    + simpl. auto.
    + rewrite map_app, concat_app. simpl. rewrite !app_nil_r. reflexivity.
    + simpl. discriminate.
  - cbn [chatBuffer flushed timer]. split; [constructor | split].
    + assumption.
    + assumption.
    + exact Hgaps'.
    + cbn [chatBuffer timer]. rewrite Hhead', Hlast'. simpl. repeat split; lia.
    + reflexivity.
    + intros lastOne Hl. rewrite Hlast' in Hl. now injection Hl as <-.
Qed.

End BufferFacts.

Section BufferRun.
Import TimeWindowBuffer.

Lemma advance_buffer (now : Z) (st : State) :
  chatBuffer (advance now st) = chatBuffer st \/ chatBuffer (advance now st) = [].
Proof.
  unfold advance. destruct (timer st) as [due |]; [| now left].
  destruct (due <=? now)%Z; [| now left].
  unfold processGroupedMessages. destruct (length (chatBuffer st) =? 0)%nat; auto.
Qed.

Lemma arrive_invariant (st : State) (arrival : Z * Message) :
  BufferInvariant st ->
  (forall lastOne : Stamped,
      last (chatBuffer st) = Some lastOne -> (fst lastOne <= fst arrival)%Z) ->
  BufferInvariant (arrive st arrival)
  /\ concat (map snd (flushed (arrive st arrival))) ++ chatBuffer (arrive st arrival)
     = concat (map snd (flushed st)) ++ chatBuffer st ++ [arrival]
  /\ (forall lastOne : Stamped,
        last (chatBuffer (arrive st arrival)) = Some lastOne ->
        fst lastOne = fst arrival).
Proof.
  intros Hinv Hafter. unfold arrive.
  destruct (advance_invariant (fst arrival) st Hinv) as (Hinv' & Hnotdue & Hsame).
  assert (Hafter' : forall lastOne : Stamped,
             last (chatBuffer (advance (fst arrival) st)) = Some lastOne ->
             (fst lastOne <= fst arrival)%Z).
  { destruct (advance_buffer (fst arrival) st) as [-> | ->]; [exact Hafter |].
    discriminate. }
  destruct (processMessage_invariant (fst arrival) (snd arrival) _ Hinv' Hnotdue Hafter')
    as (Hinv'' & Hkeep & Hlast).
  split; [exact Hinv'' |]. split; [| exact Hlast].
  rewrite Hkeep, app_assoc, Hsame, <- app_assoc. now destruct arrival.
Qed.

Lemma run_invariant (arrivals : list (Z * Message)) (st : State) :
  StronglySorted (fun a b => (fst a <= fst b)%Z) arrivals ->
  BufferInvariant st ->
  (forall (lastOne : Stamped) (a : Z * Message),
      last (chatBuffer st) = Some lastOne -> In a arrivals -> (fst lastOne <= fst a)%Z) ->
  BufferInvariant (fold_left arrive arrivals st)
  /\ concat (map snd (flushed (fold_left arrive arrivals st)))
       ++ chatBuffer (fold_left arrive arrivals st)
     = concat (map snd (flushed st)) ++ chatBuffer st ++ arrivals.
Proof.
  revert st. induction arrivals as [| arrival arrivals IH]; intros st Hsorted Hinv Hafter;
    cbn [fold_left].
  - rewrite app_nil_r. now split.
  - apply StronglySorted_cons in Hsorted. destruct Hsorted as [Hhead Hsorted].
    destruct (arrive_invariant st arrival Hinv) as (Hinv' & Hkeep & Hlast).
    { intros lastOne Hl. apply (Hafter lastOne arrival Hl). now left. }
    destruct (IH (arrive st arrival) Hsorted Hinv') as [Hfinal Hall].
    { intros lastOne a Hl Ha. rewrite (Hlast lastOne Hl).
      rewrite Forall_forall in Hhead. apply Hhead. now apply list_elem_of_In. }
    split; [exact Hfinal |].
    rewrite Hall, app_assoc, Hkeep, <- !app_assoc. reflexivity.
Qed.

End BufferRun.

(** ** Segments of a list *)

Section Segments.
Context {A : Type}.

Lemma adjacent_segment (before segment after : list A) (a b : A) :
  adjacent segment a b -> adjacent (before ++ segment ++ after) a b.
Proof.
  intros (i & Ha & Hb). exists (length before + i)%nat. split.
  - rewrite lookup_app_r by lia.
    replace (length before + i - length before)%nat with i by lia.
    now apply lookup_app_l_Some.
  - rewrite lookup_app_r by lia.
    replace (S (length before + i) - length before)%nat with (S i) by lia.
    now apply lookup_app_l_Some.
Qed.

Lemma member_segment {B : Type} (f : B -> list A) (x : B) (l : list B) :
  In x l -> exists before after : list A, concat (map f l) = before ++ f x ++ after.
Proof.
  intros Hin. apply in_split in Hin. destruct Hin as (l1 & l2 & ->).
  exists (concat (map f l1)), (concat (map f l2)).
  rewrite map_app, concat_app. reflexivity.
Qed.

End Segments.

(** C1 — every message that leaves room in the buffer cancels the pending
    timer and starts one of the full delay, so the window starts again at
    each message.  For arrivals in time order: the batches handed over and
    the messages still buffered are the arrivals, in order; every batch is
    handed over one delay after its last arrival, or at its last arrival
    when that one filled the buffer, and in both cases at most
    [MAX_GROUP_SIZE - 1] delays after its first arrival; inside a batch
    each message came less than one delay after the one before it;
    messages are still buffered only while less than the delay has passed
    since the last arrival; and when the arrivals are at least one delay
    apart, every message is handed over alone, one delay after it
    arrived. *)
Theorem flush_within_delay_of_last_message
    (arrivals : list (Z * Message)) (horizon : Z) :
  TimeWindowBuffer.inOrder arrivals ->
  let final := TimeWindowBuffer.simulate arrivals horizon in
  (forall (st : TimeWindowBuffer.State) (now : Z) (messageData : Message),
      (length (TimeWindowBuffer.chatBuffer st) + 1 < MAX_GROUP_SIZE)%nat ->
      TimeWindowBuffer.timer (TimeWindowBuffer.processMessage now messageData st)
      = Some (now + GROUP_DELAY_MS)%Z)
  /\ concat (map snd (TimeWindowBuffer.flushed final)) ++ TimeWindowBuffer.chatBuffer final
     = arrivals
  /\ Forall TimeWindowBuffer.timely (TimeWindowBuffer.flushed final)
  /\ Forall (fun flush => TimeWindowBuffer.coalesced (snd flush))
       (TimeWindowBuffer.flushed final)
  /\ (TimeWindowBuffer.chatBuffer final = []
      \/ exists lastOne : Z * Message,
           last arrivals = Some lastOne /\ (horizon < fst lastOne + GROUP_DELAY_MS)%Z)
  /\ ((forall a b : Z * Message,
          adjacent arrivals a b -> (fst a + GROUP_DELAY_MS <= fst b)%Z) ->
      Forall (fun flush =>
                exists x : Z * Message,
                  snd flush = [x] /\ fst flush = (fst x + GROUP_DELAY_MS)%Z)
        (TimeWindowBuffer.flushed final)).
Proof.
  intros Hordered final. split.
  { intros st now messageData Hroom. unfold TimeWindowBuffer.processMessage.
    destruct (Nat.leb_spec MAX_GROUP_SIZE
                (length (TimeWindowBuffer.chatBuffer st ++ [(now, messageData)])))
      as [Hfull | _]; [| reflexivity].
    rewrite length_app in Hfull. simpl in Hfull. lia. }
  assert (Hsorted : StronglySorted (fun a b => (fst a <= fst b)%Z) arrivals).
  { apply Sorted.Sorted_StronglySorted; [| exact Hordered]. intros x y z. lia. }
  destruct (run_invariant arrivals TimeWindowBuffer.empty Hsorted invariant_empty)
    as [Hinv Hall].
  { intros lastOne a Hl. discriminate. }
  simpl in Hall.
  destruct (advance_invariant horizon _ Hinv)
    as ([Hflushed Hflushedgaps _ Hpending] & Hnotdue & Hsame).
  fold (TimeWindowBuffer.simulate arrivals horizon) in *.
  fold final in Hflushed, Hflushedgaps, Hpending, Hnotdue, Hsame.
  assert (Hkeep : concat (map snd (TimeWindowBuffer.flushed final))
                    ++ TimeWindowBuffer.chatBuffer final = arrivals)
    by now rewrite Hsame.
  split; [exact Hkeep |]. split; [exact Hflushed |]. split; [exact Hflushedgaps |]. split.
  - destruct (head (TimeWindowBuffer.chatBuffer final)) as [first |];
      destruct (last (TimeWindowBuffer.chatBuffer final)) as [lastOne |] eqn:Hlast;
      try (left; tauto).
    right. exists lastOne. destruct Hpending as (Htimer & _).
    split; [| exact (Hnotdue _ Htimer)].
    rewrite <- Hkeep. apply last_Some in Hlast. destruct Hlast as [l' ->].
    rewrite app_assoc. apply last_snoc.
  - intros Hslow. rewrite Forall_forall. intros [tf batch] Hin.
    apply list_elem_of_In in Hin.
    rewrite Forall_forall in Hflushed, Hflushedgaps.
    pose proof (Hflushed _ (proj2 (list_elem_of_In _ _) Hin)) as Htimely.
    pose proof (Hflushedgaps _ (proj2 (list_elem_of_In _ _) Hin)) as Hgaps.
    destruct (member_segment (A := TimeWindowBuffer.Stamped) snd _ _ Hin)
      as (before & after & Hsegment).
    destruct Htimely as (first & lastOne & Hhead & Hlast & _ & Hwhen & _ & _).
    simpl in *. destruct batch as [| x [| y batch]].
    + discriminate.
    + exists x. split; [reflexivity |]. injection Hlast as <-.
      destruct Hwhen as [Htimer | [_ Hfull]]; [exact Htimer | discriminate].
    + exfalso.
      assert (Hadj : adjacent (x :: y :: batch) x y) by (exists 0%nat; now split).
      destruct (Hgaps x y Hadj) as [_ Hclose].
      assert (Hfar : (fst x + GROUP_DELAY_MS <= fst y)%Z).
      { apply Hslow. rewrite <- Hkeep, Hsegment, <- app_assoc.
        apply adjacent_segment.
        apply (adjacent_segment [] (x :: y :: batch) after), Hadj. }
      lia.
Qed.

Lemma flush_within_delay_of_last_message_witness :
  let arrivals :=
    [(1000%Z, Samples.message "a" "first" 1700000000 false false);
     (9000%Z, Samples.message "b" "second" 1700000008 false false);
     (40000%Z, Samples.message "c" "third" 1700000039 false false)] in
  TimeWindowBuffer.inOrder arrivals
  /\ Forall TimeWindowBuffer.timely
       (TimeWindowBuffer.flushed (TimeWindowBuffer.simulate arrivals 100000)).
Proof.
  intros arrivals.
  assert (Hordered : TimeWindowBuffer.inOrder arrivals).
  { unfold TimeWindowBuffer.inOrder.
    repeat (apply Sorted_cons; [| try apply HdRel_nil; try (apply HdRel_cons; simpl; lia)]).
    apply Sorted_nil. }
  split; [exact Hordered |].
  exact (proj1 (proj2 (proj2 (flush_within_delay_of_last_message arrivals 100000 Hordered)))).
Defined.

(** C1, the claim as written fails: a second message ten seconds after
    the first replaces the pending timer, and the batch that starts with
    the first message is handed over 25 seconds after it arrived, later
    than the delay of 15 seconds. *)
Lemma later_message_restarts_the_window :
  let first := (0%Z, Samples.message "a" "first" 1700000000 false false) in
  let second := (10000%Z, Samples.message "b" "second" 1700000010 false false) in
  TimeWindowBuffer.timer (fold_left TimeWindowBuffer.arrive [first] TimeWindowBuffer.empty)
  = Some 15000%Z
  /\ TimeWindowBuffer.timer
       (fold_left TimeWindowBuffer.arrive [first; second] TimeWindowBuffer.empty)
     = Some 25000%Z
  /\ TimeWindowBuffer.flushed (TimeWindowBuffer.simulate [first; second] 60000)
     = [(25000%Z, [first; second])]
  /\ (fst first + GROUP_DELAY_MS < 25000)%Z.
Proof. repeat split. Qed.

(** ** A loop over calls that return *)

Lemma forEach_returns {A : Type} (xs : list A) (body : A -> Effect.M unit) :
  (forall x : A, Effect.outcome (body x) = Effect.Returned tt) ->
  Effect.outcome (Effect.forEach xs body) = Effect.Returned tt.
Proof.
  intros Hbody. induction xs as [| x xs IH]; [reflexivity |].
  cbn [Effect.forEach]. specialize (Hbody x).
  destruct (body x) as [tr out]. cbn in Hbody. subst out. cbn.
  destruct (Effect.forEach xs body) as [tr' out']. exact IH.
Qed.

(** * Further properties of the code *)

(** ** The two Jaccard quotients *)

Section Jaccard.

Lemma splitOn_nonempty (sep : ascii) (s : string) : Js.splitOn sep s <> [].
Proof.
  induction s as [| c s IH]; simpl; [discriminate |].
  destruct (Ascii.eqb c sep); [discriminate |].
  destruct (Js.splitOn sep s); discriminate.
Qed.

(** Two duplicate-free lists with the same members have the same size. *)
Lemma same_members_same_length (l k : list string) :
  NoDup l -> NoDup k -> (forall x : string, In x l <-> In x k) -> length l = length k.
Proof.
  intros Hl Hk Hsame. apply Permutation_length, NoDup_Permutation; try assumption.
  intros x. rewrite !list_elem_of_In. apply Hsame.
Qed.

Lemma intersection_members (set1 set2 : list string) (x : string) :
  In x (Js.setOf (filter (fun y => Js.setHas set2 y) set1)) <-> In x set1 /\ In x set2.
Proof.
  rewrite setOf_In, <- list_elem_of_In, list_elem_of_filter, Is_true_true, setHas_In.
  rewrite list_elem_of_In. tauto.
Qed.

Lemma intersection_comm (set1 set2 : list string) :
  length (Js.setOf (filter (fun y => Js.setHas set2 y) set1))
  = length (Js.setOf (filter (fun y => Js.setHas set1 y) set2)).
Proof.
  apply same_members_same_length; try apply setOf_NoDup.
  intros x. rewrite !intersection_members. tauto.
Qed.

Lemma union_comm (set1 set2 : list string) :
  length (Js.setOf (set1 ++ set2)) = length (Js.setOf (set2 ++ set1)).
Proof.
  apply same_members_same_length; try apply setOf_NoDup.
  intros x. rewrite !setOf_In, !in_app_iff. tauto.
Qed.

Lemma intersection_self (set1 : list string) :
  NoDup set1 ->
  length (Js.setOf (filter (fun y => Js.setHas set1 y) set1)) = length set1.
Proof.
  intros Hnd. apply same_members_same_length; [apply setOf_NoDup | assumption |].
  intros x. rewrite intersection_members. tauto.
Qed.

Lemma union_self (set1 : list string) :
  NoDup set1 -> length (Js.setOf (set1 ++ set1)) = length set1.
Proof.
  intros Hnd. apply same_members_same_length; [apply setOf_NoDup | assumption |].
  intros x. rewrite setOf_In, in_app_iff. tauto.
Qed.

End Jaccard.

(** X1 — [calculateStringSimilarity] and [calculateKeywordOverlap] give
    the same value when their two arguments are exchanged. *)
Theorem jaccard_symmetric (str1 str2 : string) (keywords1 keywords2 : list string) :
  DuplicateGuard.calculateStringSimilarity str1 str2
  = DuplicateGuard.calculateStringSimilarity str2 str1
  /\ GroupTopicTracker.calculateKeywordOverlap keywords1 keywords2
     = GroupTopicTracker.calculateKeywordOverlap keywords2 keywords1.
Proof.
  split.
  - unfold DuplicateGuard.calculateStringSimilarity.
    now rewrite intersection_comm, union_comm.
  - unfold GroupTopicTracker.calculateKeywordOverlap.
    rewrite orb_comm.
    destruct ((length keywords2 =? 0)%nat || (length keywords1 =? 0)%nat); [reflexivity |].
    now rewrite intersection_comm, union_comm.
Qed.

(** X2 — [calculateStringSimilarity] never divides by zero: for all
    strings, the empty one included, it is a rational between 0 and 1;
    and it is 1 when the two strings are the same. *)
Theorem string_similarity_range (str1 str2 : string) :
  (exists q : Q,
      DuplicateGuard.calculateStringSimilarity str1 str2 = Js.Finite q
      /\ (0 <= q)%Q /\ (q <= 1)%Q)
  /\ (exists q : Q,
        DuplicateGuard.calculateStringSimilarity str1 str1 = Js.Finite q /\ (q == 1)%Q).
Proof.
  split.
  - unfold DuplicateGuard.calculateStringSimilarity. apply divSizes_unit.
    + apply intersection_le_union.
    + apply union_nonempty, setOf_nonempty, splitOn_nonempty.
  - unfold DuplicateGuard.calculateStringSimilarity.
    set (words := Js.setOf (Js.splitOn " " str1)).
    assert (Hnd : NoDup words) by apply setOf_NoDup.
    assert (Hne : words <> []) by apply setOf_nonempty, splitOn_nonempty.
    rewrite (intersection_self words Hnd), (union_self words Hnd).
    destruct words as [| w words]; [congruence |].
    eexists. split; [reflexivity |].
    unfold Qeq. simpl. lia.
Qed.

(** ** Characters and tokens *)

Section Characters.

(** Goes through the 256 characters. *)
Ltac each_character c :=
  destruct c as [[] [] [] [] [] [] [] []]; vm_compute; reflexivity.

Lemma lowerChar_idempotent (c : ascii) : Js.lowerChar (Js.lowerChar c) = Js.lowerChar c.
Proof. each_character c. Qed.

Lemma lowerChar_kept (c : ascii) :
  Js.isWord (Js.lowerChar c) || Js.isSpace (Js.lowerChar c) = Js.isWord c || Js.isSpace c.
Proof. each_character c. Qed.

Lemma lowerChar_not_upper (c : ascii) : Js.isUpper (Js.lowerChar c) = false.
Proof. each_character c. Qed.

Lemma lowerChar_space (c : ascii) : Js.isSpace (Js.lowerChar c) = Js.isSpace c.
Proof. each_character c. Qed.

Lemma toLowerCase_idempotent (s : string) :
  Js.toLowerCase (Js.toLowerCase s) = Js.toLowerCase s.
Proof.
  unfold Js.toLowerCase. induction s as [| c s IH]; [reflexivity |].
  simpl. now rewrite lowerChar_idempotent, IH.
Qed.

Lemma filterChars_idempotent (p : ascii -> bool) (s : string) :
  Js.filterChars p (Js.filterChars p s) = Js.filterChars p s.
Proof.
  induction s as [| c s IH]; [reflexivity |]. simpl.
  destruct (p c) eqn:E; [| exact IH]. simpl. now rewrite E, IH.
Qed.

(** Lowering commutes with the removal of punctuation. *)
Lemma toLowerCase_stripPunctuation (s : string) :
  Js.toLowerCase (Js.stripPunctuation s) = Js.stripPunctuation (Js.toLowerCase s).
Proof.
  unfold Js.stripPunctuation, Js.toLowerCase.
  induction s as [| c s IH]; [reflexivity |]. simpl.
  rewrite lowerChar_kept. destruct (Js.isWord c || Js.isSpace c); simpl; now rewrite IH.
Qed.

Lemma toLowerCase_app (s t : string) :
  Js.toLowerCase (s ++ t) = (Js.toLowerCase s ++ Js.toLowerCase t)%string.
Proof.
  unfold Js.toLowerCase. induction s as [| c s IH]; [reflexivity |]. simpl. now rewrite IH.
Qed.

Lemma stripPunctuation_app (s t : string) :
  Js.stripPunctuation (s ++ t) = (Js.stripPunctuation s ++ Js.stripPunctuation t)%string.
Proof.
  unfold Js.stripPunctuation. induction s as [| c s IH]; [reflexivity |]. simpl.
  destruct (Js.isWord c || Js.isSpace c); simpl; now rewrite IH.
Qed.

(** Splitting a text with a space in the middle gives the pieces of the
    two halves. *)
Lemma splitOn_space_app (s t : string) :
  Js.splitOn " " (s ++ String " " t) = Js.splitOn " " s ++ Js.splitOn " " t.
Proof.
  induction s as [| c s IH]; [reflexivity |].
  change (String c s ++ String " " t)%string with (String c (s ++ String " " t)).
  cbn [Js.splitOn]. rewrite IH.
  destruct (Ascii.eqb c " "); [reflexivity |].
  pose proof (splitOn_nonempty " " s) as Hne.
  destruct (Js.splitOn " " s); [congruence | reflexivity].
Qed.

(** The tokens of [split(/\s+/)] hold no white space, and no character
    the text does not hold. *)
Lemma splitWsFrom_tokens (p : ascii -> bool) (s : string) (inRun : bool) (w : string) :
  forallb p (list_ascii_of_string s) = true ->
  In w (Js.splitWsFrom inRun s) ->
  forallb (fun c => p c && negb (Js.isSpace c)) (list_ascii_of_string w) = true.
Proof.
  revert inRun w. induction s as [| c s IH]; intros inRun w Hall Hin.
  - destruct Hin as [<- | []]. reflexivity.
  - cbn [list_ascii_of_string forallb] in Hall. apply andb_true_iff in Hall.
    destruct Hall as [Hc Hall]. cbn [Js.splitWsFrom] in Hin.
    destruct (Js.isSpace c) eqn:Hspace.
    + destruct inRun; [now apply (IH true) |].
      destruct Hin as [<- | Hin]; [reflexivity | now apply (IH true)].
    + pose proof (IH false) as IH'.
      destruct (Js.splitWsFrom false s) as [| w' ws]; destruct Hin as [<- | Hin].
      * cbn. now rewrite Hc, Hspace.
      * destruct Hin.
      * cbn [list_ascii_of_string forallb]. rewrite Hc, Hspace.
        apply (IH' w' Hall). now left.
      * apply (IH' w Hall). now right.
Qed.

Lemma blank_lower_chars (text : string) :
  forallb (fun c => (Js.isWord c && negb (Js.isUpper c)) || Js.isSpace c)
    (list_ascii_of_string (Js.blankPunctuation (Js.toLowerCase text))) = true.
Proof.
  induction text as [| c text IH]; [reflexivity |].
  cbn [Js.toLowerCase Js.blankPunctuation Js.mapChars list_ascii_of_string forallb].
  apply andb_true_iff. split; [| exact IH].
  destruct c as [[] [] [] [] [] [] [] []]; vm_compute; reflexivity.
Qed.

End Characters.

(** X3 — [extractTopicKeywords] returns at most 10 keywords; each one is
    longer than 2 characters, is not one of the common words, and is made
    of lower-case letters, digits and underscores only. *)
Theorem topic_keywords_wellformed (text : string) :
  (length (GroupTopicTracker.extractTopicKeywords text) <= 10)%nat
  /\ forall word : string,
       In word (GroupTopicTracker.extractTopicKeywords text) ->
       (2 < String.length word)%nat
       /\ ~ In word GroupTopicTracker.commonWords
       /\ forallb (fun c => Js.isWord c && negb (Js.isUpper c))
            (list_ascii_of_string word) = true.
Proof.
  unfold GroupTopicTracker.extractTopicKeywords, Js.sliceTo. split.
  - rewrite length_take. lia.
  - intros word Hin. apply list_elem_of_In, elem_of_take in Hin.
    destruct Hin as (i & Hlookup & _). apply list_elem_of_lookup_2 in Hlookup.
    apply list_elem_of_filter in Hlookup. destruct Hlookup as [Hkeep Hin].
    apply Is_true_true, andb_true_iff in Hkeep. destruct Hkeep as [Hlong Hcommon].
    apply Nat.ltb_lt in Hlong. apply negb_true_iff, setHas_false in Hcommon.
    split; [exact Hlong |]. split; [exact Hcommon |].
    apply list_elem_of_In in Hin.
    pose proof (splitWsFrom_tokens _ _ false word (blank_lower_chars text) Hin) as Htoken.
    rewrite forallb_forall in *. intros c Hc. specialize (Htoken c Hc).
    destruct (Js.isWord c), (Js.isUpper c), (Js.isSpace c); simpl in *; congruence.
Qed.

(** ** The action signature *)

(** X4 — [createActionSignature] does not see letter case or
    punctuation: an action whose description is the lower-cased, or the
    lower-cased and punctuation-free, description of another action of
    the same type has the same signature. *)
Theorem signature_ignores_case_and_punctuation (a b : Action) :
  a_type b = a_type a ->
  a_description b = Js.toLowerCase (a_description a)
  \/ a_description b = Js.stripPunctuation (Js.toLowerCase (a_description a)) ->
  DuplicateGuard.createActionSignature b = DuplicateGuard.createActionSignature a.
Proof.
  intros Htype Hdescription. unfold DuplicateGuard.createActionSignature.
  rewrite Htype. do 6 f_equal.
  destruct Hdescription as [-> | ->].
  - now rewrite toLowerCase_idempotent.
  - rewrite <- (toLowerCase_stripPunctuation (Js.stripPunctuation _)).
    unfold Js.stripPunctuation at 1 2. rewrite filterChars_idempotent.
    fold (Js.stripPunctuation (Js.toLowerCase (a_description a))).
    now rewrite toLowerCase_stripPunctuation, toLowerCase_idempotent.
Qed.

Lemma signature_ignores_case_and_punctuation_witness :
  let a := Samples.candidate "task" "Call the CLIENT, about Invoice #42!" (9 # 10) in
  let b := Samples.candidate "task" "call the client about invoice 42" (8 # 10) in
  a_type b = a_type a
  /\ a_description b = Js.stripPunctuation (Js.toLowerCase (a_description a))
  /\ DuplicateGuard.createActionSignature b = DuplicateGuard.createActionSignature a.
Proof.
  intros a b. split; [reflexivity |]. split; [reflexivity |].
  apply (signature_ignores_case_and_punctuation a b eq_refl). right. reflexivity.
Defined.

(** X5 — [createActionSignature] reads no further than the third word
    longer than two characters: once a description has three such words,
    whatever follows it after a space leaves the signature as it is. *)
Theorem signature_reads_three_words (a b : Action) (extra : string) :
  a_type b = a_type a ->
  a_description b = (a_description a ++ " " ++ extra)%string ->
  (3 <= length
          (filter (fun word => 2 <? String.length word)%nat
             (Js.splitOn " " (Js.stripPunctuation (Js.toLowerCase (a_description a))))))%nat ->
  DuplicateGuard.createActionSignature b = DuplicateGuard.createActionSignature a.
Proof.
  intros Htype Hdescription Hthree. unfold DuplicateGuard.createActionSignature.
  rewrite Htype, Hdescription. do 4 f_equal.
  rewrite toLowerCase_app, stripPunctuation_app.
  change (Js.stripPunctuation (Js.toLowerCase (" " ++ extra)))
    with (String " " (Js.stripPunctuation (Js.toLowerCase extra))).
  rewrite splitOn_space_app, filter_app. unfold Js.sliceTo.
  now rewrite take_app_le.
Qed.

Lemma signature_reads_three_words_witness :
  let a := Samples.candidate "task" "Send the quarterly report" (9 # 10) in
  let b := Samples.candidate "task" "Send the quarterly report to finance by Friday" (9 # 10) in
  a_description b = (a_description a ++ " " ++ "to finance by Friday")%string
  /\ DuplicateGuard.createActionSignature b = DuplicateGuard.createActionSignature a.
Proof.
  intros a b. split; [reflexivity |].
  apply (signature_reads_three_words a b "to finance by Friday" eq_refl eq_refl).
  vm_compute. lia.
Defined.

(** ** The duplicate filter as a whole *)

Section FilterLoop.
Import DuplicateGuard.

Variable conversationHistory : list HistoryEntry.

(** The loop of [filterDuplicateActions] from any state: what it
    accepts is a subsequence of what it is given, the set only grows, and
    every accepted action has left its signature in the set. *)
Lemma fold_filterStep_sublist (actions filtered : list Action)
    (userDuplicates : list string) :
  exists accepted,
    fst (fold_left (filterStep conversationHistory) actions (filtered, userDuplicates))
    = filtered ++ accepted
    /\ sublist accepted actions
    /\ (forall signature, In signature userDuplicates ->
          In signature
            (snd (fold_left (filterStep conversationHistory) actions
                    (filtered, userDuplicates))))
    /\ Forall
         (fun action =>
            In (createActionSignature action)
              (snd (fold_left (filterStep conversationHistory) actions
                      (filtered, userDuplicates))))
         accepted.
Proof.
  revert filtered userDuplicates.
  induction actions as [| action actions IH]; intros filtered userDuplicates;
    cbn [fold_left].
  - exists []. rewrite app_nil_r. repeat split; auto.
  - assert (Hstep :
      filterStep conversationHistory (filtered, userDuplicates) action
      = (filtered, userDuplicates)
      \/ filterStep conversationHistory (filtered, userDuplicates) action
         = (filtered ++ [action],
            Js.setAdd userDuplicates (createActionSignature action))).
    { unfold filterStep. destruct (isOutgoingMessage action); [now right |].
      destruct (Js.setHas userDuplicates (createActionSignature action)); [now left |].
      destruct (isSimilarToConversationHistory action conversationHistory);
        [now left | now right]. }
    destruct Hstep as [-> | ->].
    + destruct (IH filtered userDuplicates) as (accepted & Hfst & Hsub & Hgrow & Hall).
      exists accepted. repeat split; auto. now apply sublist_cons.
    + destruct (IH (filtered ++ [action])
                  (Js.setAdd userDuplicates (createActionSignature action)))
        as (accepted & Hfst & Hsub & Hgrow & Hall).
      exists (action :: accepted). rewrite Hfst, <- app_assoc. repeat split.
      * now apply sublist_skip.
      * intros signature Hin. apply Hgrow, setAdd_In. now left.
      * constructor; [| exact Hall]. apply Hgrow, setAdd_In. now right.
Qed.

(** The same loop on actions none of which is outgoing: the set gains
    exactly the signatures of the accepted actions, in order; they are
    new and pairwise different. *)
Lemma fold_filterStep_incoming (actions filtered : list Action)
    (userDuplicates : list string) :
  Forall (fun action => isOutgoingMessage action = false) actions ->
  exists accepted,
    fold_left (filterStep conversationHistory) actions (filtered, userDuplicates)
    = (filtered ++ accepted, userDuplicates ++ map createActionSignature accepted)
    /\ Forall (fun action => ~ In (createActionSignature action) userDuplicates
                             /\ isSimilarToConversationHistory action conversationHistory
                                = false) accepted
    /\ NoDup (map createActionSignature accepted).
Proof.
  intros Hincoming. revert filtered userDuplicates.
  induction Hincoming as [| action actions Haction _ IH]; intros filtered userDuplicates;
    cbn [fold_left].
  - exists []. cbn [map]. rewrite !app_nil_r. repeat split; constructor.
  - unfold filterStep at 2. rewrite Haction.
    destruct (Js.setHas userDuplicates (createActionSignature action)) eqn:Hhas;
      [apply IH |].
    destruct (isSimilarToConversationHistory action conversationHistory) eqn:Hsimilar;
      [apply IH |].
    unfold Js.setAdd. rewrite Hhas.
    destruct (IH (filtered ++ [action]) (userDuplicates ++ [createActionSignature action]))
      as (accepted & Hfold & Hnew & Hdistinct).
    exists (action :: accepted). rewrite Hfold, <- !app_assoc. cbn [map app].
    split; [reflexivity |]. apply setHas_false in Hhas. split.
    + constructor; [now split |]. eapply List.Forall_impl; [| exact Hnew].
      intros other [Hother Hfar]. split; [| exact Hfar].
      intros Hin. apply Hother, in_app_iff. now left.
    + apply NoDup_cons. split; [| exact Hdistinct].
      rewrite list_elem_of_In, in_map_iff. intros (other & Hsame & Hin).
      rewrite List.Forall_forall in Hnew. destruct (Hnew other Hin) as [Hother _].
      apply Hother, in_app_iff. right. rewrite Hsame. now left.
Qed.

End FilterLoop.

(** X6 — [filterDuplicateActions] only drops candidates and only adds
    signatures: the accepted actions are a subsequence of the candidates,
    the signature sets of other users are left as they were, no signature
    of the user is removed, and every accepted action's signature is in
    the user's set afterwards. *)
Theorem filter_only_drops_and_records (duplicateTracker : gmap Z (list string))
    (actions : list Action) (userId : Z) (conversationHistory : list HistoryEntry) :
  let result :=
    DuplicateGuard.filterDuplicateActions duplicateTracker actions userId
      conversationHistory in
  sublist (fst result) actions
  /\ (forall other, other <> userId -> snd result !! other = duplicateTracker !! other)
  /\ (forall signature,
        In signature (DuplicateGuard.getDuplicateActionSignatures duplicateTracker userId) ->
        In signature (DuplicateGuard.getDuplicateActionSignatures (snd result) userId))
  /\ Forall
       (fun action =>
          In (DuplicateGuard.createActionSignature action)
            (DuplicateGuard.getDuplicateActionSignatures (snd result) userId))
       (fst result).
Proof.
  unfold DuplicateGuard.filterDuplicateActions,
    DuplicateGuard.getDuplicateActionSignatures.
  destruct (fold_filterStep_sublist conversationHistory actions []
              (default [] (duplicateTracker !! userId)))
    as (accepted & Hfst & Hsub & Hgrow & Hall).
  destruct (fold_left _ actions _) as [filtered userDuplicates'].
  cbn [fst snd] in *. subst filtered. cbn [app].
  rewrite lookup_insert_eq. cbn [default].
  repeat split; auto. intros other Hother. now rewrite lookup_insert_ne.
Qed.

(** X7 — Candidates that carry no message (as the classifier and the
    fallback produce them) are filtered by signature alone: the user's
    set gains exactly the signatures of the accepted actions, in order;
    these are pairwise different, were not in the set before, and no
    accepted action is similar to the conversation history. *)
Theorem filter_records_new_signatures (duplicateTracker : gmap Z (list string))
    (actions : list Action) (userId : Z) (conversationHistory : list HistoryEntry) :
  Forall (fun action => a_originalMessage action = None) actions ->
  let before := DuplicateGuard.getDuplicateActionSignatures duplicateTracker userId in
  let result :=
    DuplicateGuard.filterDuplicateActions duplicateTracker actions userId
      conversationHistory in
  DuplicateGuard.getDuplicateActionSignatures (snd result) userId
  = before ++ map DuplicateGuard.createActionSignature (fst result)
  /\ NoDup (map DuplicateGuard.createActionSignature (fst result))
  /\ Forall (fun action => ~ In (DuplicateGuard.createActionSignature action) before)
       (fst result).
Proof.
  intros Hbare before result. subst before result.
  unfold DuplicateGuard.filterDuplicateActions,
    DuplicateGuard.getDuplicateActionSignatures.
  destruct (fold_filterStep_incoming conversationHistory actions []
              (default [] (duplicateTracker !! userId)))
    as (accepted & Hfold & Hnew & Hdistinct).
  { eapply List.Forall_impl; [| exact Hbare]. intros action Hnone.
    unfold DuplicateGuard.isOutgoingMessage. now rewrite Hnone. }
  rewrite Hfold. cbn [fst snd app]. rewrite lookup_insert_eq. cbn [default].
  split; [reflexivity |]. split; [exact Hdistinct |].
  eapply List.Forall_impl; [| exact Hnew]. now intros action [Hnot _].
Qed.

Lemma filter_records_new_signatures_witness :
  let actions :=
    [Samples.candidate "task" "Send the quarterly report" (9 # 10);
     Samples.candidate "task" "send the QUARTERLY report!" (8 # 10);
     Samples.candidate "note" "Send the quarterly report" (8 # 10)] in
  let result := DuplicateGuard.filterDuplicateActions ∅ actions 7 [] in
  Forall (fun action => a_originalMessage action = None) actions
  /\ DuplicateGuard.getDuplicateActionSignatures (snd result) 7
     = [] ++ map DuplicateGuard.createActionSignature (fst result)
  /\ length (fst result) = 2%nat.
Proof.
  intros actions result.
  assert (Hbare : Forall (fun action => a_originalMessage action = None) actions)
    by (repeat constructor).
  split; [exact Hbare |]. split.
  - exact (proj1 (filter_records_new_signatures ∅ actions 7 [] Hbare)).
  - vm_compute. reflexivity.
Defined.

(** ** The keyword fallback *)

Section FallbackShape.
Import AIProcessor.

(** What every literal of [fallbackProcessing] has in common. *)
Lemma fallbackCandidates_shape (messageData : Message) (now : Z) :
  Forall
    (fun action =>
       ((6 # 10) <= a_confidence action)%Q /\ (a_confidence action <= (8 # 10))%Q
       /\ (a_details action ≫= d_content) = Some (m_body messageData)
       /\ ((a_details action ≫= d_datetime) = None
           \/ (a_type action = "reminder"
               /\ (a_details action ≫= d_datetime) = Some (now + 86400000)%Z)))
    (fallbackCandidates messageData now).
Proof.
  unfold fallbackCandidates. cbv zeta.
  do 15 (apply pushIf_Forall;
         [cbn; repeat split; try discriminate; auto |]).
  constructor.
Qed.

(** A body of more than 50 characters always has a candidate. *)
Lemma fallbackCandidates_long (messageData : Message) (now : Z) :
  (50 < String.length (m_body messageData))%nat ->
  fallbackCandidates messageData now <> [].
Proof.
  intros Hlong. unfold fallbackCandidates. cbv zeta.
  apply Nat.ltb_lt in Hlong. rewrite Hlong.
  match goal with
  | |- pushIf (true && (length ?actions =? 0)%nat) _ _ <> [] => generalize actions
  end.
  intros [| first rest]; cbn; discriminate.
Qed.

End FallbackShape.

(** X8 — [fallbackProcessing] returns at most one action, and exactly
    one for a body of more than 50 characters.  The action has a
    confidence between 0.6 and 0.8, the message body as its content, and
    a datetime only when it is a reminder, then 24 hours after the call. *)
Theorem fallback_shape (messageData : Message) (now : Z) :
  let result := AIProcessor.fallbackProcessing messageData now in
  (length result <= 1)%nat
  /\ ((50 <? String.length (m_body messageData))%nat = true -> length result = 1%nat)
  /\ Forall
       (fun action =>
          ((6 # 10) <= a_confidence action)%Q /\ (a_confidence action <= (8 # 10))%Q
          /\ (a_details action ≫= d_content) = Some (m_body messageData)
          /\ ((a_details action ≫= d_datetime) = None
              \/ (a_type action = "reminder"
                  /\ (a_details action ≫= d_datetime) = Some (now + 86400000)%Z)))
       result.
Proof.
  cbv zeta. unfold AIProcessor.fallbackProcessing.
  pose proof (fallbackCandidates_shape messageData now) as Hshape.
  pose proof (fallbackCandidates_long messageData now) as Hlong.
  destruct (AIProcessor.fallbackCandidates messageData now) as [| first rest].
  - split; [cbn; lia |]. split; [| constructor].
    intros H. apply Nat.ltb_lt in H. now destruct (Hlong H).
  - split; [cbn; lia |]. split; [reflexivity |].
    constructor; [| constructor]. rewrite List.Forall_forall in Hshape.
    apply Hshape, reduceBest_max.
Qed.

(** ** The emitter: what the push cannot prevent *)

Section EmitterFacts.
Import Effect ActionEmitter.

(** The trace of [sendActionNotification] has no persist, no live event
    and no classification. *)
Lemma sendActionNotification_quiet (env : Collaborators) (actionId : string) (userId : Z) :
  Forall (fun e => isPersist e = false /\ isEmit e = false /\ Pipeline.isClassify e = false)
    (trace (sendActionNotification env actionId userId)).
Proof.
  unfold sendActionNotification.
  destruct (oneSignalAvailable env); cbn; [| constructor].
  destruct (dbAvailable env); cbn; [| each_event].
  destruct (playerIdOf env userId) as [[playerId |] |]; cbn;
    [destruct (createNotification env actionId) as [[] |]; cbn | |]; each_event.
Qed.

Lemma count_app (p : Event -> bool) (tr tr' : list Event) :
  Batch.count p (tr ++ tr') = (Batch.count p tr + Batch.count p tr')%nat.
Proof. unfold Batch.count. now rewrite List.filter_app, length_app. Qed.

Lemma count_none (p : Event -> bool) (tr : list Event) :
  Forall (fun e => p e = false) tr -> Batch.count p tr = 0%nat.
Proof.
  unfold Batch.count. induction 1 as [| e tr He _ IH]; [reflexivity |].
  cbn [List.filter]. now rewrite He.
Qed.

(** [saveAndEmitAction] persists at most once, emits at most once and
    never classifies. *)
Lemma saveAndEmitAction_counts (env : Collaborators) (action : Action)
    (messageData : Message) (userId : Z) :
  let tr := trace (saveAndEmitAction env action messageData userId) in
  (Batch.count isPersist tr <= 1)%nat /\ (Batch.count isEmit tr <= 1)%nat
  /\ Batch.count Pipeline.isClassify tr = 0%nat.
Proof.
  cbv zeta. unfold saveAndEmitAction.
  pose proof (sendActionNotification_returns env (freshActionId env action) userId)
    as [Hout _].
  pose proof (sendActionNotification_quiet env (freshActionId env action) userId) as Hquiet.
  destruct (sendActionNotification env (freshActionId env action) userId) as [push out].
  cbn in Hout, Hquiet. subst out.
  assert (Hpersist : Batch.count isPersist push = 0%nat).
  { apply count_none. eapply List.Forall_impl; [| exact Hquiet]. now intros e (H & _). }
  assert (Hemit : Batch.count isEmit push = 0%nat).
  { apply count_none. eapply List.Forall_impl; [| exact Hquiet]. now intros e (_ & H & _). }
  assert (Hclassify : Batch.count Pipeline.isClassify push = 0%nat).
  { apply count_none. eapply List.Forall_impl; [| exact Hquiet]. now intros e (_ & _ & H). }
  destruct (dbAvailable env); cbn;
    [destruct (insertAction env (freshActionId env action)) as [[] |]; cbn |];
    unfold Batch.count in *;
    rewrite ?List.filter_app, ?length_app, ?Hpersist, ?Hemit, ?Hclassify; cbn; lia.
Qed.

End EmitterFacts.

(** X9 — In [saveAndEmitAction] the push is best effort: when the
    database is absent or the [INSERT] succeeds, the live event with the
    action's payload is the last effect and the call returns, whatever
    the player lookup and the push service answer (missing client, no
    player id, a lookup or a push that throws). *)
Theorem live_event_despite_push (env : Collaborators) (action : Action)
    (messageData : Message) (userId : Z) :
  dbAvailable env = false \/ insertAction env (freshActionId env action) = Rows tt ->
  let run := ActionEmitter.saveAndEmitAction env action messageData userId in
  last (Effect.trace run)
  = Some (Effect.Emit userId
            (ActionEmitter.payloadOf (freshActionId env action) action
               (ActionEmitter.actionDetailsOf env action messageData) messageData))
  /\ Effect.outcome run = Effect.Returned tt
  /\ Forall (fun e => e <> Effect.ConsoleError "Error saving enhanced action to database")
       (Effect.trace run).
Proof.
  intros Hsaved. cbv zeta. unfold ActionEmitter.saveAndEmitAction.
  assert (Hpush :
    exists push,
      ActionEmitter.sendActionNotification env (freshActionId env action) userId
      = (push, Effect.Returned tt)
      /\ Forall (fun e => e <> Effect.ConsoleError "Error saving enhanced action to database")
           push).
  { unfold ActionEmitter.sendActionNotification.
    destruct (oneSignalAvailable env); cbn; [| eexists; split; [reflexivity | constructor]].
    destruct (dbAvailable env); cbn;
      [| eexists; split;
         [reflexivity | apply List.Forall_cons; [discriminate | constructor]]].
    destruct (playerIdOf env userId) as [[playerId |] |]; cbn;
      [destruct (createNotification env (freshActionId env action)) as [[] |]; cbn | |];
      (eexists; split; [reflexivity |]);
      repeat (apply List.Forall_cons; [discriminate |]); constructor. }
  destruct Hpush as (push & -> & Hquiet).
  assert (Hlast : forall (tr : list Effect.Event) (e : Effect.Event),
             last (tr ++ [e]) = Some e) by (intros; apply last_snoc).
  destruct Hsaved as [Hdb | Hinsert].
  - rewrite Hdb. cbn. split; [apply Hlast |]. split; [reflexivity |].
    apply Forall_app. split; [exact Hquiet |].
    apply List.Forall_cons; [discriminate | constructor].
  - destruct (dbAvailable env); cbn; rewrite ?Hinsert; cbn.
    + split; [apply (Hlast (_ :: push)) |]. split; [reflexivity |].
      apply List.Forall_cons; [discriminate |].
      apply Forall_app. split; [exact Hquiet |].
      apply List.Forall_cons; [discriminate | constructor].
    + split; [apply Hlast |]. split; [reflexivity |].
      apply Forall_app. split; [exact Hquiet |].
      apply List.Forall_cons; [discriminate | constructor].
Qed.

Lemma live_event_despite_push_witness :
  let env :=
    mkCollaborators true (fun _ _ => Rows 0%nat) (fun _ => AIProcessor.Parsed [])
      (fun _ => Rows tt) true (fun _ => QueryThrows) (fun _ => QueryThrows)
      (fun action => "action_7_" ++ a_type action)%string (fun _ => None)
      (fun _ => "10:00:00") 1700000100000 in
  let action := Samples.candidate "task" "Send the report" (9 # 10) in
  let messageData := Samples.message "m10" "please send the report" 1700000000 false false in
  insertAction env (freshActionId env action) = Rows tt
  /\ map ActionEmitter.rank
       (Effect.trace (ActionEmitter.saveAndEmitAction env action messageData 7))
     = [Some 0%nat; Some 1%nat; None; Some 2%nat]
  /\ Effect.outcome (ActionEmitter.saveAndEmitAction env action messageData 7)
     = Effect.Returned tt.
Proof.
  intros env action messageData. split; [reflexivity |]. split; [reflexivity |].
  exact (proj1 (proj2 (live_event_despite_push env action messageData 7
                         (or_intror eq_refl)))).
Defined.

(** X10 — [sendActionNotification] always returns, also when the
    look-up or the push throws.  It asks the database for the player id
    exactly when a push client is configured and a database is there, and
    calls the push service exactly when, besides, the user's row has a
    player id: without a database the unguarded query is a [TypeError]
    that the function logs, and nothing is pushed. *)
Theorem push_needs_player (env : Collaborators) (actionId : string) (userId : Z) :
  let run := ActionEmitter.sendActionNotification env actionId userId in
  Effect.outcome run = Effect.Returned tt
  /\ (In (Effect.PlayerLookup userId) (Effect.trace run)
      <-> (oneSignalAvailable env = true /\ dbAvailable env = true))
  /\ (forall playerId : string,
        In (Effect.Push actionId playerId) (Effect.trace run)
        <-> (oneSignalAvailable env = true /\ dbAvailable env = true
             /\ playerIdOf env userId = Rows (Some playerId)))
  /\ (oneSignalAvailable env = true -> dbAvailable env = false ->
      run = ([Effect.ConsoleError "Failed to send OneSignal notification"],
             Effect.Returned tt)).
Proof.
  cbv zeta. split; [apply sendActionNotification_returns |].
  unfold ActionEmitter.sendActionNotification.
  destruct (oneSignalAvailable env), (dbAvailable env); cbn [negb].
  - split; [| split]; [| intros playerId | discriminate].
    + destruct (playerIdOf env userId) as [[found |] |]; cbn;
        [destruct (createNotification env actionId) as [[] |]; cbn | |];
        (split; [intros _; now split | intros _; now left]).
    + destruct (playerIdOf env userId) as [[found |] |]; cbn;
        [destruct (createNotification env actionId) as [[] |]; cbn | |];
        (split;
         [ intros H; repeat (destruct H as [H | H]; try discriminate; try contradiction);
           injection H as ->; repeat split
         | intros (_ & _ & H); try discriminate; injection H as ->; auto ]).
  - cbn. split; [| split]; [| intros playerId | reflexivity].
    + split; [intros [H | []]; discriminate | intros [_ H]; discriminate].
    + split; [intros [H | []]; discriminate | intros (_ & H & _); discriminate].
  - cbn. split; [| split]; [| intros playerId | discriminate].
    + split; [intros [] | intros [H _]; discriminate].
    + split; [intros [] | intros (H & _); discriminate].
  - cbn. split; [| split]; [| intros playerId | discriminate].
    + split; [intros [] | intros [H _]; discriminate].
    + split; [intros [] | intros (H & _); discriminate].
Qed.

(** ** One run through the pipeline *)

Section RunFacts.
Import Effect.

Lemma processMessageWithHistory_length (messageData : Message)
    (completion : AIProcessor.Completion) (now : Z) :
  (length (AIProcessor.processMessageWithHistory messageData completion now) <= 1)%nat.
Proof.
  destruct completion as [| | actions | actions];
    cbn [AIProcessor.processMessageWithHistory].
  - unfold AIProcessor.fallbackProcessing.
    destruct (AIProcessor.fallbackCandidates messageData now); cbn; lia.
  - cbn; lia.
  - unfold AIProcessor.selectBest. destruct (filter _ actions); cbn; lia.
  - unfold AIProcessor.selectBest. destruct (filter _ actions); cbn; lia.
Qed.

Lemma filterDuplicateActions_length (duplicateTracker : gmap Z (list string))
    (actions : list Action) (userId : Z) (conversationHistory : list HistoryEntry) :
  (length (fst (DuplicateGuard.filterDuplicateActions duplicateTracker actions userId
                  conversationHistory)) <= length actions)%nat.
Proof.
  unfold DuplicateGuard.filterDuplicateActions.
  destruct (fold_filterStep_sublist conversationHistory actions []
              (default [] (duplicateTracker !! userId)))
    as (accepted & Hfst & Hsub & _).
  destruct (fold_left _ actions _) as [filtered userDuplicates'].
  cbn [fst] in *. subst filtered. cbn [app]. now apply sublist_length.
Qed.

(** The loop over at most one accepted action. *)
Lemma forEach_single_counts (env : Collaborators) (actions : list Action)
    (messageData : Message) (userId : Z) :
  (length actions <= 1)%nat ->
  let tr :=
    trace (forEach actions
             (fun action => ActionEmitter.saveAndEmitAction env action messageData userId)) in
  (Batch.count ActionEmitter.isPersist tr <= 1)%nat
  /\ (Batch.count ActionEmitter.isEmit tr <= 1)%nat
  /\ Batch.count Pipeline.isClassify tr = 0%nat.
Proof.
  intros Hlength. cbv zeta. destruct actions as [| action [| other rest]].
  - cbn. lia.
  - cbn [forEach].
    pose proof (saveAndEmitAction_counts env action messageData userId) as Hcounts.
    pose proof (saveAndEmitAction_returns env action messageData userId) as Hout.
    destruct (ActionEmitter.saveAndEmitAction env action messageData userId) as [tr out].
    cbn in Hout, Hcounts. subst out. cbn. now rewrite app_nil_r.
  - cbn in Hlength. lia.
Qed.

End RunFacts.

(** Counts the events of a trace that is given up to named parts. *)
Ltac count_trace :=
  cbn; unfold Batch.count in *;
  repeat (progress (rewrite ?List.filter_app, ?length_app; cbn)); lia.

(** The effects of one call of [processMessageGroup], counted. *)
Lemma processMessageGroup_counts (env : Collaborators)
    (duplicateTracker : gmap Z (list string)) (messageGroup : list Message)
    (userId : Z) (chatId : string) (conversationHistory : list HistoryEntry)
    (groupTopicContext : option (list Topic)) :
  let tr :=
    Effect.trace
      (Pipeline.processMessageGroup env duplicateTracker messageGroup userId chatId
         conversationHistory groupTopicContext) in
  (Batch.count Pipeline.isClassify tr <= 1)%nat
  /\ (Batch.count ActionEmitter.isPersist tr <= Batch.count Pipeline.isClassify tr)%nat
  /\ (Batch.count ActionEmitter.isEmit tr <= Batch.count Pipeline.isClassify tr)%nat.
Proof.
  cbv zeta. unfold Pipeline.processMessageGroup.
  destruct (Pipeline.createCombinedMessage env messageGroup) as [combinedMessage |];
    [| cbn; lia].
  destruct (checkExistingActions_returns env messageGroup userId) as (tr & n & -> & Hquiet).
  assert (Hclassify : Batch.count Pipeline.isClassify tr = 0%nat).
  { apply count_none. eapply List.Forall_impl; [| exact Hquiet]. now intros e [H _]. }
  assert (Hpersist : Batch.count ActionEmitter.isPersist tr = 0%nat).
  { apply count_none. eapply List.Forall_impl; [| exact Hquiet]. intros e [_ H].
    unfold ActionEmitter.rank in H. now destruct (ActionEmitter.isPersist e). }
  assert (Hemit : Batch.count ActionEmitter.isEmit tr = 0%nat).
  { apply count_none. eapply List.Forall_impl; [| exact Hquiet]. intros e [_ H].
    unfold ActionEmitter.rank in H.
    destruct (ActionEmitter.isPersist e), (ActionEmitter.isPush e),
      (ActionEmitter.isEmit e); congruence. }
  cbn [Effect.bind].
  destruct (0 <? n)%nat;
    [count_trace |].
  match goal with |- context [if ?c then Effect.ret duplicateTracker else _] =>
    destruct c end;
    [count_trace |].
  cbn [Effect.call Effect.bind].
  pose proof (processMessageWithHistory_length combinedMessage
                (completion env combinedMessage) (dateNow env)) as Hone.
  destruct (0 <? length _)%nat;
    [| count_trace].
  destruct (AIProcessor.descriptionIsString (completion env combinedMessage));
    cbn [negb]; [| count_trace].
  pose proof (filterDuplicateActions_length duplicateTracker
                (AIProcessor.processMessageWithHistory combinedMessage
                   (completion env combinedMessage) (dateNow env))
                userId conversationHistory) as Hfewer.
  destruct (DuplicateGuard.filterDuplicateActions _ _ _ _) as [filteredActions tracker'].
  cbn [fst] in Hfewer.
  pose proof (forEach_single_counts env filteredActions combinedMessage userId
                ltac:(lia)) as Hloop.
  pose proof (forEach_returns filteredActions
                (fun action =>
                   ActionEmitter.saveAndEmitAction env action combinedMessage userId)
                (fun action => saveAndEmitAction_returns env action combinedMessage userId))
    as Hout.
  destruct (Effect.forEach filteredActions _) as [saved out].
  cbn in Hout, Hloop. subst out. destruct Hloop as (Hp & He & Hc).
  destruct (m_isGroup combinedMessage); count_trace.
Qed.

(** X11 — One run costs at most one classification call and yields at
    most one saved and one emitted action; nothing is saved or emitted in
    a run that did not reach the classifier. *)
Theorem run_effect_counts (env : Collaborators)
    (duplicateTracker : gmap Z (list string)) (messageGroup : list Message)
    (userId : Z) (chatId : string) (conversationHistory : list HistoryEntry)
    (groupTopicContext : option (list Topic)) :
  let tr :=
    Effect.trace
      (Pipeline.processMessageGroup env duplicateTracker messageGroup userId chatId
         conversationHistory groupTopicContext) in
  (Batch.count Pipeline.isClassify tr <= 1)%nat
  /\ (Batch.count ActionEmitter.isPersist tr <= Batch.count Pipeline.isClassify tr)%nat
  /\ (Batch.count ActionEmitter.isEmit tr <= Batch.count Pipeline.isClassify tr)%nat.
Proof.
  exact (processMessageGroup_counts env duplicateTracker messageGroup userId chatId
           conversationHistory groupTopicContext).
Qed.

(** X12 — The look-up for actions already saved from the run's message
    ids gates the run: when it finds a row the run ends there, with that
    query as its only effect and the signature sets untouched.  When it
    finds none, and also when the query throws, the run goes on: the
    combined message reaches the classifier unless the group-topic check
    calls it a duplicate. *)
Theorem existing_check_gates_the_run (env : Collaborators)
    (duplicateTracker : gmap Z (list string)) (messageGroup : list Message)
    (userId : Z) (chatId : string) (conversationHistory : list HistoryEntry)
    (groupTopicContext : option (list Topic)) (combinedMessage : Message) :
  dbAvailable env = true ->
  Pipeline.createCombinedMessage env messageGroup = Some combinedMessage ->
  let run :=
    Pipeline.processMessageGroup env duplicateTracker messageGroup userId chatId
      conversationHistory groupTopicContext in
  match existingRows env (map m_id messageGroup) userId with
  | Rows (S _) =>
      run = ([Effect.CheckExisting (map m_id messageGroup) userId],
             Effect.Returned duplicateTracker)
  | _ =>
      In (Effect.Classify combinedMessage) (Effect.trace run)
      <-> match groupTopicContext with
          | Some context =>
              m_isGroup combinedMessage
              && GroupTopicTracker.checkGroupTopicDuplicate combinedMessage context userId
                   (dateNow env)
          | None => false
          end = false
  end.
Proof.
  intros Hdb Hcombined. cbv zeta.
  unfold Pipeline.processMessageGroup, Pipeline.checkExistingActions.
  rewrite Hcombined, Hdb. cbn [negb].
  destruct (existingRows env (map m_id messageGroup) userId) as [[| n] |];
    cbn [Effect.tryCatch Effect.call Effect.bind Effect.ret Effect.throw app];
    [| reflexivity |];
    (change (0 <? 0)%nat with false; cbv iota;
     match goal with |- context [if ?c then Effect.ret duplicateTracker else _] =>
       destruct c end;
     [ cbn; split; [| discriminate];
       intros H; repeat (destruct H as [H | H]; try discriminate); contradiction
     | split; [reflexivity | intros _];
       cbn [Effect.call Effect.bind];
       destruct (0 <? length _)%nat; [| cbn; auto];
       destruct (AIProcessor.descriptionIsString (completion env combinedMessage));
       cbn [negb]; [| cbn; auto];
       destruct (DuplicateGuard.filterDuplicateActions _ _ _ _)
         as [filteredActions tracker'];
       destruct (Effect.bind (Effect.forEach filteredActions _) _) as [rest out];
       cbn; auto ]).
Qed.

Lemma existing_check_gates_the_run_witness :
  let action := Samples.candidate "task" "Send the report" (9 # 10) in
  let env :=
    mkCollaborators true (fun _ _ => Rows 1%nat) (fun _ => AIProcessor.Parsed [action])
      (fun _ => Rows tt) true (fun _ => Rows (Some "player-1")) (fun _ => Rows tt)
      (fun action => "action_7_" ++ a_type action)%string (fun _ => None)
      (fun _ => "10:00:00") 1700000100000 in
  let messageData := Samples.message "m10" "please send the report" 1700000000 false false in
  dbAvailable env = true
  /\ Pipeline.createCombinedMessage env [messageData] = Some messageData
  /\ Pipeline.processMessageGroup env ∅ [messageData] 7 "60123456789" [] None
     = ([Effect.CheckExisting ["m10"] 7], Effect.Returned ∅).
Proof.
  intros action env messageData. split; [reflexivity |]. split; [reflexivity |].
  exact (existing_check_gates_the_run env ∅ [messageData] 7 "60123456789" [] None
           messageData eq_refl eq_refl).
Defined.

(** ** Grouping: what holds for every batch *)

Section GrouperCounting.
Import SenderGrouper.

(** A turn of the loop puts the message at the end of the runs and
    leaves no run empty, whatever the timestamps are. *)
Lemma step_appends (st : LoopState) (message : Message) :
  concat (finish (step st message)) = concat (finish st) ++ [message]
  /\ (Forall (fun run => run <> []) (finish st) ->
      Forall (fun run => run <> []) (finish (step st message)))
  /\ (length (finish (step st message)) <= S (length (finish st)))%nat.
Proof.
  destruct (sameSender (currentSender st) (senderKey message)
            && (timeDiffOf (currentTime st) (m_timestamp message * 1000) <? 300000)%Z)
    eqn:Hcond.
  - destruct (step_join st message Hcond) as (-> & _).
    unfold finish. destruct (currentGroup st) as [| first rest]; cbn [length Nat.ltb Nat.leb].
    + rewrite !concat_app. cbn. split; [reflexivity |]. split; [| rewrite length_app; cbn; lia].
      intros Hall. apply Forall_app. split; [exact Hall | repeat constructor; discriminate].
    + rewrite !concat_app. cbn. rewrite !app_nil_r, <- app_assoc.
      split; [reflexivity |]. split; [| rewrite !length_app; cbn; lia].
      intros Hall. apply Forall_app in Hall. destruct Hall as [Hall _].
      apply Forall_app. split; [exact Hall | repeat constructor; discriminate].
  - destruct (step_new st message Hcond) as (-> & _).
    rewrite concat_app. cbn. split; [reflexivity |]. split; [| rewrite length_app; cbn; lia].
    intros Hall. apply Forall_app. split; [exact Hall | repeat constructor; discriminate].
Qed.

Lemma fold_step_appends (messages : list Message) (st : LoopState) :
  concat (finish (fold_left step messages st)) = concat (finish st) ++ messages
  /\ (Forall (fun run => run <> []) (finish st) ->
      Forall (fun run => run <> []) (finish (fold_left step messages st)))
  /\ (length (finish (fold_left step messages st))
      <= length (finish st) + length messages)%nat.
Proof.
  revert st. induction messages as [| message messages IH]; intros st; cbn [fold_left].
  - rewrite app_nil_r. split; [reflexivity |]. split; [auto | lia].
  - destruct (IH (step st message)) as (Hconcat & Hnonempty & Hlength).
    destruct (step_appends st message) as (Hconcat' & Hnonempty' & Hlength').
    rewrite Hconcat, Hconcat', <- app_assoc. split; [reflexivity |].
    split; [auto | cbn [length]; lia].
Qed.

(** A sorted batch is its own sort. *)
Lemma sortByTimestamp_sorted (messages : list Message) :
  StronglySorted byTimestamp messages -> sortByTimestamp messages = messages.
Proof.
  induction 1 as [| m messages Hsorted IH Hall]; [reflexivity |].
  cbn [sortByTimestamp foldr]. fold (sortByTimestamp messages). rewrite IH.
  destruct messages as [| x messages]; [reflexivity |]. cbn [insertByTimestamp].
  inversion Hall as [| ? ? Hx _]; subst. unfold byTimestamp in Hx.
  apply Z.leb_le in Hx. now rewrite Hx.
Qed.

Lemma adjacent_cons {A : Type} (x a b : A) (l : list A) :
  adjacent (x :: l) a b <-> (a = x /\ head l = Some b) \/ adjacent l a b.
Proof.
  unfold adjacent. split.
  - intros ([| i] & Ha & Hb); cbn in Ha, Hb.
    + left. split; [congruence |]. now destruct l.
    + right. now exists i.
  - intros [[-> Hhead] | (i & Ha & Hb)].
    + exists 0%nat. split; [reflexivity |]. destruct l; cbn in *; congruence.
    + now exists (S i).
Qed.

(** The loop's test succeeds between two messages that join, also after
    a zero timestamp. *)
Lemma joins_condition (st : LoopState) (previous message : Message) :
  currentSender st = Some (senderKey previous) ->
  currentTime st = Some (m_timestamp previous * 1000)%Z ->
  joins previous message ->
  sameSender (currentSender st) (senderKey message)
  && (timeDiffOf (currentTime st) (m_timestamp message * 1000) <? 300000)%Z = true.
Proof.
  intros -> -> [Hkey Htime]. unfold sameSender, timeDiffOf.
  rewrite Hkey, String.eqb_refl. cbn [andb].
  destruct (m_timestamp previous * 1000 =? 0)%Z; apply Z.ltb_lt; lia.
Qed.

(** The loop over messages each of which joins the one before. *)
Lemma fold_step_joined (messages : list Message) (st : LoopState) (previous : Message) :
  last (currentGroup st) = Some previous ->
  currentSender st = Some (senderKey previous) ->
  currentTime st = Some (m_timestamp previous * 1000)%Z ->
  (forall a b, adjacent (previous :: messages) a b -> joins a b) ->
  finish (fold_left step messages st) = groups st ++ [currentGroup st ++ messages].
Proof.
  revert st previous.
  induction messages as [| message messages IH];
    intros st previous Hlast Hsender Htime Hchain; cbn [fold_left].
  - rewrite app_nil_r. apply finish_current. intros Hnil. now rewrite Hnil in Hlast.
  - assert (Hjoin : joins previous message).
    { apply Hchain, adjacent_cons. left. now split. }
    destruct (step_join st message (joins_condition st previous message Hsender Htime Hjoin))
      as (_ & Hcurrent & Hsender' & Htime').
    rewrite (IH (step st message) message).
    + rewrite Hcurrent, <- app_assoc. unfold step.
      rewrite (joins_condition st previous message Hsender Htime Hjoin). reflexivity.
    + rewrite Hcurrent. apply last_snoc.
    + rewrite Hsender', Hsender. f_equal. apply Hjoin.
    + exact Htime'.
    + intros a b Hadj. apply Hchain, adjacent_cons. now right.
Qed.

(** A batch that is sorted and whose neighbours all join is one run. *)
Lemma joined_batch_one_run (first : Message) (rest : list Message) :
  StronglySorted byTimestamp (first :: rest) ->
  (forall a b, adjacent (first :: rest) a b -> joins a b) ->
  groupMessagesByTimeAndSender (first :: rest) = [first :: rest].
Proof.
  intros Hsorted Hchain. unfold groupMessagesByTimeAndSender.
  rewrite (sortByTimestamp_sorted _ Hsorted). cbn [fold_left].
  rewrite (fold_step_joined rest (step initial first) first);
    try reflexivity; exact Hchain.
Qed.

End GrouperCounting.

(** X13 — Grouping loses nothing, whatever the timestamps are (zero
    included): the runs put end to end are the batch in timestamp order,
    a rearrangement of the batch; no run is empty; there are no more runs
    than messages, and none exactly for the empty batch. *)
Theorem grouping_loses_nothing (batch : list Message) :
  let runs := SenderGrouper.groupMessagesByTimeAndSender batch in
  concat runs = SenderGrouper.sortByTimestamp batch
  /\ Permutation (concat runs) batch
  /\ Forall (fun run => run <> []) runs
  /\ (length runs <= length batch)%nat
  /\ (runs = [] <-> batch = []).
Proof.
  cbv zeta. unfold SenderGrouper.groupMessagesByTimeAndSender.
  destruct (fold_step_appends (SenderGrouper.sortByTimestamp batch) SenderGrouper.initial)
    as (Hconcat & Hnonempty & Hlength).
  cbn in Hconcat, Hlength. specialize (Hnonempty ltac:(constructor)).
  pose proof (sortByTimestamp_Permutation batch) as Hperm.
  rewrite (Permutation_length Hperm) in Hlength.
  split; [exact Hconcat |]. split; [now rewrite Hconcat |]. split; [exact Hnonempty |].
  split; [exact Hlength |]. split.
  - intros Hnil. rewrite Hnil in Hconcat. cbn in Hconcat. rewrite <- Hconcat in Hperm.
    now apply Permutation_nil in Hperm.
  - intros ->. reflexivity.
Qed.

(** X14 — A batch of one sender whose messages follow each other by
    less than five minutes is handed on as a single run, the batch in
    timestamp order. *)
Theorem burst_is_one_run (batch : list Message) :
  batch <> [] ->
  (forall a b, adjacent (SenderGrouper.sortByTimestamp batch) a b ->
     SenderGrouper.joins a b) ->
  SenderGrouper.groupMessagesByTimeAndSender batch = [SenderGrouper.sortByTimestamp batch].
Proof.
  intros Hbatch Hchain.
  pose proof (sortByTimestamp_StronglySorted batch) as Hsorted.
  pose proof (sortByTimestamp_Permutation batch) as Hperm.
  unfold SenderGrouper.groupMessagesByTimeAndSender.
  destruct (SenderGrouper.sortByTimestamp batch) as [| first rest] eqn:Hsort.
  - apply Permutation_nil in Hperm. contradiction.
  - pose proof (joined_batch_one_run first rest Hsorted Hchain) as Hone.
    unfold SenderGrouper.groupMessagesByTimeAndSender in Hone.
    now rewrite (sortByTimestamp_sorted _ Hsorted) in Hone.
Qed.

Lemma burst_is_one_run_witness :
  let batch :=
    [Samples.message "b" "second" 1700000200 false false;
     Samples.message "a" "first" 1700000000 false false;
     Samples.message "c" "third" 1700000450 false false] in
  batch <> []
  /\ SenderGrouper.groupMessagesByTimeAndSender batch
     = [[Samples.message "a" "first" 1700000000 false false;
         Samples.message "b" "second" 1700000200 false false;
         Samples.message "c" "third" 1700000450 false false]].
Proof.
  intros batch. split; [discriminate |].
  apply (burst_is_one_run batch); [discriminate |].
  intros a b (i & Ha & Hb). vm_compute in Ha, Hb.
  destruct i as [| [| i]]; try discriminate;
    injection Ha as Ha; injection Hb as Hb; subst a b;
    (split; [reflexivity | cbn; lia]).
Defined.

(** X15 — Runs are stable under regrouping: for a batch without zero
    timestamps, grouping any run of the result again gives that run, as
    it is, and nothing else. *)
Theorem runs_regroup_to_themselves (batch : list Message) :
  Forall (fun m => m_timestamp m <> 0%Z) batch ->
  Forall (fun run => SenderGrouper.groupMessagesByTimeAndSender run = [run])
    (SenderGrouper.groupMessagesByTimeAndSender batch).
Proof.
  intros Hnonzero.
  assert (Hsorted : Forall (fun m => m_timestamp m <> 0%Z)
                      ([] ++ SenderGrouper.sortByTimestamp batch)).
  { simpl. rewrite sortByTimestamp_Permutation. exact Hnonzero. }
  destruct (invariant_loop _ [] SenderGrouper.initial Hsorted invariant_initial)
    as [Hconcat Hnonempty _ Hwithin _].
  simpl in Hconcat. fold (SenderGrouper.groupMessagesByTimeAndSender batch) in *.
  assert (Hruns : Forall (StronglySorted SenderGrouper.byTimestamp)
                    (SenderGrouper.groupMessagesByTimeAndSender batch)).
  { apply concat_StronglySorted. rewrite Hconcat. apply sortByTimestamp_StronglySorted. }
  apply List.Forall_forall. intros run Hrun.
  rewrite List.Forall_forall in Hruns, Hnonempty.
  specialize (Hruns run Hrun). specialize (Hnonempty run Hrun).
  destruct run as [| first rest]; [contradiction |].
  apply joined_batch_one_run; [exact Hruns |].
  intros a b Hadj. now apply (Hwithin (first :: rest)).
Qed.

Lemma runs_regroup_to_themselves_witness :
  let batch :=
    [Samples.message "a" "first" 1700000000 true true;
     Samples.message "c" "third" 1700000020 true false;
     Samples.message "b" "second" 1700000010 true true] in
  Forall (fun m => m_timestamp m <> 0%Z) batch
  /\ Forall (fun run => SenderGrouper.groupMessagesByTimeAndSender run = [run])
       (SenderGrouper.groupMessagesByTimeAndSender batch).
Proof.
  intros batch.
  assert (Hnonzero : Forall (fun m => m_timestamp m <> 0%Z) batch)
    by (repeat constructor; discriminate).
  split; [exact Hnonzero |]. exact (runs_regroup_to_themselves batch Hnonzero).
Defined.

(** ** A handed-over batch *)

Section BatchFacts.
Import Effect.

(** How a call of [processMessageGroup] ends.  When it returns, the
    signature sets of other users are as before and the user's set has
    lost nothing.  It throws only on a candidate without a string
    description, and then the classification call is its last effect. *)
Lemma processMessageGroup_outcome (env : Collaborators)
    (duplicateTracker : gmap Z (list string)) (messageGroup : list Message)
    (userId : Z) (chatId : string) (conversationHistory : list HistoryEntry)
    (groupTopicContext : option (list Topic)) :
  let run :=
    Pipeline.processMessageGroup env duplicateTracker messageGroup userId chatId
      conversationHistory groupTopicContext in
  match outcome run with
  | Returned duplicateTracker' =>
      (forall other, other <> userId ->
         duplicateTracker' !! other = duplicateTracker !! other)
      /\ (forall signature,
            In signature
              (DuplicateGuard.getDuplicateActionSignatures duplicateTracker userId) ->
            In signature
              (DuplicateGuard.getDuplicateActionSignatures duplicateTracker' userId))
  | Threw =>
      exists combinedMessage,
        AIProcessor.descriptionIsString (completion env combinedMessage) = false
        /\ last (trace run) = Some (Classify combinedMessage)
  end.
Proof.
  cbv zeta. unfold Pipeline.processMessageGroup.
  destruct (Pipeline.createCombinedMessage env messageGroup) as [combinedMessage |];
    [| cbn; auto].
  destruct (checkExistingActions_returns env messageGroup userId) as (tr & n & -> & _).
  cbn [bind].
  destruct (0 <? n)%nat; [cbn; auto |].
  match goal with |- context [if ?c then ret duplicateTracker else _] =>
    destruct c end; [cbn; auto |].
  cbn [call bind].
  destruct (0 <? length _)%nat; [| cbn; auto].
  destruct (AIProcessor.descriptionIsString (completion env combinedMessage)) eqn:Htyped;
    cbn [negb].
  2: { cbn. exists combinedMessage. split; [exact Htyped |].
       rewrite ?app_nil_r. apply last_snoc. }
  unfold DuplicateGuard.filterDuplicateActions.
  destruct (fold_filterStep_sublist conversationHistory
              (AIProcessor.processMessageWithHistory combinedMessage
                 (completion env combinedMessage) (dateNow env)) []
              (default [] (duplicateTracker !! userId)))
    as (accepted & _ & _ & Hgrow & _).
  destruct (fold_left _ _ _) as [filteredActions userDuplicates'].
  cbn [snd] in Hgrow.
  pose proof (forEach_returns filteredActions
                (fun action =>
                   ActionEmitter.saveAndEmitAction env action combinedMessage userId)
                (fun action => saveAndEmitAction_returns env action combinedMessage userId))
    as Hloop.
  destruct (forEach filteredActions _) as [tr' out]. cbn in Hloop. subst out.
  assert (Hresult :
    (forall other, other <> userId ->
       <[userId := userDuplicates']> duplicateTracker !! other = duplicateTracker !! other)
    /\ (forall signature,
          In signature (DuplicateGuard.getDuplicateActionSignatures duplicateTracker userId) ->
          In signature
            (DuplicateGuard.getDuplicateActionSignatures
               (<[userId := userDuplicates']> duplicateTracker) userId))).
  { split.
    - intros other Hother. now rewrite lookup_insert_ne.
    - unfold DuplicateGuard.getDuplicateActionSignatures.
      rewrite lookup_insert_eq. exact Hgrow. }
  destruct (m_isGroup combinedMessage); cbn; exact Hresult.
Qed.

(** The loop over the runs of a batch. *)
Lemma processRuns_spec (env : Collaborators) (loaders : Loaders)
    (groupedMessages : list (list Message)) (duplicateTracker : gmap Z (list string))
    (userId : Z) (chatId : string) (groupTopicContext : option (list Topic)) :
  let run :=
    Batch.processRuns env loaders duplicateTracker groupedMessages userId chatId
      groupTopicContext in
  (Batch.count Pipeline.isClassify (trace run) <= length groupedMessages)%nat
  /\ (Batch.count ActionEmitter.isPersist (trace run)
      <= Batch.count Pipeline.isClassify (trace run))%nat
  /\ (Batch.count ActionEmitter.isEmit (trace run)
      <= Batch.count Pipeline.isClassify (trace run))%nat
  /\ match outcome run with
     | Returned duplicateTracker' =>
         (forall other, other <> userId ->
            duplicateTracker' !! other = duplicateTracker !! other)
         /\ (forall signature,
               In signature
                 (DuplicateGuard.getDuplicateActionSignatures duplicateTracker userId) ->
               In signature
                 (DuplicateGuard.getDuplicateActionSignatures duplicateTracker' userId))
     | Threw =>
         exists combinedMessage,
           AIProcessor.descriptionIsString (completion env combinedMessage) = false
           /\ last (trace run) = Some (Classify combinedMessage)
     end.
Proof.
  cbv zeta. revert duplicateTracker.
  induction groupedMessages as [| messageGroup rest IH]; intros duplicateTracker;
    cbn [Batch.processRuns].
  - cbn. repeat split; auto.
  - pose proof (processMessageGroup_outcome env duplicateTracker messageGroup userId chatId
                  (senderHistoryFor loaders messageGroup) groupTopicContext) as Hout.
    pose proof (processMessageGroup_counts env duplicateTracker messageGroup userId chatId
                  (senderHistoryFor loaders messageGroup) groupTopicContext)
      as (Hclassify & Hpersist & Hemit).
    destruct (Pipeline.processMessageGroup env duplicateTracker messageGroup userId chatId
                (senderHistoryFor loaders messageGroup) groupTopicContext)
      as [tr [middle |]].
    + cbn in Hout, Hclassify, Hpersist, Hemit. destruct Hout as [Hothers Hgrow].
      cbn [bind]. destruct (IH middle) as (Hc & Hp & He & Hend).
      destruct (Batch.processRuns env loaders middle rest userId chatId groupTopicContext)
        as [tr' out].
      cbn [trace outcome fst snd] in *. rewrite !count_app.
      unfold Batch.count in *. cbn [length].
      split; [lia |]. split; [lia |]. split; [lia |].
      destruct out as [final |].
      * destruct Hend as [Hothers' Hgrow']. split; [| auto].
        intros other Hother. now rewrite Hothers', Hothers.
      * destruct Hend as (combinedMessage & Huntyped & Hlast).
        exists combinedMessage. split; [exact Huntyped |].
        destruct tr' as [| e tr'] using rev_ind; [discriminate |].
        rewrite app_assoc, last_snoc. now rewrite last_snoc in Hlast.
    + cbn in Hout, Hclassify, Hpersist, Hemit. cbn [bind trace outcome fst snd].
      unfold Batch.count in *. cbn [length]. split; [lia |]. split; [lia |].
      split; [lia |]. exact Hout.
Qed.

End BatchFacts.

(** X16 — Processing a handed-over buffer is contained.  Whatever the
    database and the push service do, it returns unless the classifier
    hands back a candidate without a string description: nothing catches
    the [TypeError] of the signature of such a candidate, the batch stops
    there, and the classification call of that run is its last effect.
    In every case there is at most one classification call per buffered
    message and at most one saved and one emitted action per
    classification; when the call returns, the signature sets of other
    users are as before and no signature of the user is lost.  An empty
    buffer has no effect at all. *)
Theorem batch_is_contained (env : Collaborators) (loaders : Loaders)
    (duplicateTracker : gmap Z (list string)) (chatBuffer : list Message)
    (userId : Z) (chatId : string) :
  let run := Batch.processGroupedMessages env loaders duplicateTracker chatBuffer userId chatId in
  (Batch.count Pipeline.isClassify (Effect.trace run) <= length chatBuffer)%nat
  /\ (Batch.count ActionEmitter.isPersist (Effect.trace run)
      <= Batch.count Pipeline.isClassify (Effect.trace run))%nat
  /\ (Batch.count ActionEmitter.isEmit (Effect.trace run)
      <= Batch.count Pipeline.isClassify (Effect.trace run))%nat
  /\ (chatBuffer = [] -> run = ([], Effect.Returned duplicateTracker))
  /\ match Effect.outcome run with
     | Effect.Returned duplicateTracker' =>
         (forall other, other <> userId ->
            duplicateTracker' !! other = duplicateTracker !! other)
         /\ (forall signature,
               In signature
                 (DuplicateGuard.getDuplicateActionSignatures duplicateTracker userId) ->
               In signature
                 (DuplicateGuard.getDuplicateActionSignatures duplicateTracker' userId))
     | Effect.Threw =>
         exists combinedMessage,
           AIProcessor.descriptionIsString (completion env combinedMessage) = false
           /\ last (Effect.trace run) = Some (Effect.Classify combinedMessage)
     end
  /\ ((forall messageData,
         AIProcessor.descriptionIsString (completion env messageData) = true) ->
      exists duplicateTracker', Effect.outcome run = Effect.Returned duplicateTracker').
Proof.
  cbv zeta. unfold Batch.processGroupedMessages.
  destruct chatBuffer as [| first rest].
  - cbn. repeat split; auto. intros _. now eexists.
  - cbn [length Nat.eqb].
    match goal with |- context [Batch.processRuns _ _ _ _ _ _ ?c] =>
      generalize c end.
    intros groupTopicContext.
    pose proof (processRuns_spec env loaders
                  (SenderGrouper.groupMessagesByTimeAndSender (first :: rest))
                  duplicateTracker userId chatId groupTopicContext)
      as (Hc & Hp & He & Hend).
    destruct (fold_step_appends (SenderGrouper.sortByTimestamp (first :: rest))
                SenderGrouper.initial) as (_ & _ & Hlength).
    fold (SenderGrouper.groupMessagesByTimeAndSender (first :: rest)) in Hlength.
    rewrite (Permutation_length (sortByTimestamp_Permutation (first :: rest))) in Hlength.
    cbn [SenderGrouper.finish SenderGrouper.initial SenderGrouper.currentGroup
           SenderGrouper.groups length Nat.ltb Nat.leb Nat.add] in Hlength.
    split; [cbn [length]; lia |]. split; [exact Hp |]. split; [exact He |].
    split; [discriminate |]. split; [exact Hend |].
    intros Htyped.
    destruct (Effect.outcome _) as [final |]; [now exists final |].
    destruct Hend as (combinedMessage & Huntyped & _).
    rewrite Htyped in Huntyped. discriminate.
Qed.

(** What the containment does not cover, on two runs: the candidate of
    the first has no string description; the batch throws after the
    first classification call, and the second run is never looked at. *)
Example untyped_candidate_stops_the_batch :
  let env :=
    Samples.collaborators
      (AIProcessor.ParsedUntyped [Samples.candidate "task" EmptyString (9 # 10)]) (Rows tt) in
  let first := Samples.message "a" "please send the report" 1700000000 false false in
  let second := Samples.message "b" "and call the client" 1700000400 false false in
  Batch.processGroupedMessages env (mkLoaders (fun _ => []) []) ∅ [first; second] 7
    "60123456789"
  = ([Effect.CheckExisting ["a"] 7; Effect.Classify first], Effect.Threw).
Proof. vm_compute. reflexivity. Qed.

(** ** The clusters of the topic context *)

Section Clusters.
Import GroupTopicTracker.

Lemma addUser_In (users : list Z) (userId other : Z) :
  In other (addUser users userId) <-> In other users \/ other = userId.
Proof.
  unfold addUser. destruct (usersInclude users userId) eqn:Hhas.
  - apply usersInclude_In in Hhas. split; [now left |]. now intros [H | ->].
  - rewrite in_app_iff. cbn. intuition.
Qed.

(** An upsert records the row in exactly one cluster and leaves every
    cluster well formed. *)
Lemma upsertTopic_records (key : string) (row : TopicRow) (topicMap : list (string * Topic)) :
  Forall (fun entry => clusterOfRows (snd entry)) topicMap ->
  Forall (fun entry => clusterOfRows (snd entry)) (upsertTopic key row topicMap)
  /\ length (concat (map (fun entry => t_actions (snd entry)) (upsertTopic key row topicMap)))
     = S (length (concat (map (fun entry => t_actions (snd entry)) topicMap)))
  /\ (length (upsertTopic key row topicMap) <= S (length topicMap))%nat.
Proof.
  induction topicMap as [| [k topic] rest IH]; intros Hall; cbn [upsertTopic].
  - split; [| split; [reflexivity | cbn; lia]].
    constructor; [| constructor]. cbn.
    eexists _, []. cbn. repeat split; try reflexivity.
    + intros [<- | []]. now left.
    + intros [<- | []]. now left.
  - inversion Hall as [| ? ? Hhead Hrest]; subst.
    destruct (String.eqb k key).
    + split; [| split; [| cbn; lia]].
      * constructor; [| exact Hrest]. cbn [snd] in *.
        destruct Hhead as (first & others & Hactions & Hupdate & Hdescription & Husers).
        exists first, (others ++ [mkTopicAction (r_description row) (r_details row)
                                    (r_user_id row) (r_created_at row)]).
        cbn. rewrite Hactions. repeat split; try assumption.
        -- rewrite addUser_In, Husers, Hactions. cbn. rewrite map_app, in_app_iff. cbn.
           intuition.
        -- rewrite addUser_In, Husers, Hactions. cbn. rewrite map_app, in_app_iff. cbn.
           intuition.
      * cbn. rewrite !length_app. cbn. lia.
    + destruct (IH Hrest) as (Hgood & Hcount & Hlength).
      split; [| split; [| cbn; lia]].
      * constructor; assumption.
      * cbn. rewrite !length_app, Hcount. lia.
Qed.

Lemma fold_upsert_records (rows : list TopicRow) (topicMap : list (string * Topic)) :
  Forall (fun entry => clusterOfRows (snd entry)) topicMap ->
  let result :=
    fold_left (fun topicMap row => upsertTopic (actionKey row) row topicMap) rows topicMap in
  Forall (fun entry => clusterOfRows (snd entry)) result
  /\ length (concat (map (fun entry => t_actions (snd entry)) result))
     = (length (concat (map (fun entry => t_actions (snd entry)) topicMap)) + length rows)%nat
  /\ (length result <= length topicMap + length rows)%nat.
Proof.
  revert topicMap. induction rows as [| row rows IH]; intros topicMap Hall; cbn [fold_left].
  - cbn. split; [exact Hall | lia].
  - destruct (upsertTopic_records (actionKey row) row topicMap Hall)
      as (Hgood & Hcount & Hlength).
    destruct (IH _ Hgood) as (Hgood' & Hcount' & Hlength'). cbv zeta in *.
    split; [exact Hgood' |]. rewrite Hcount', Hcount. cbn [length]. lia.
Qed.

End Clusters.

Section Filing.
Import GroupTopicTracker.

Lemma rowsWithKey_snoc (seen : list TopicRow) (row : TopicRow) (key : string) :
  rowsWithKey (seen ++ [row]) key
  = rowsWithKey seen key ++ (if decide (actionKey row = key) then [row] else []).
Proof.
  unfold rowsWithKey. rewrite filter_app. reflexivity.
Qed.

(** A row with another key leaves a cluster as it is filed. *)
Lemma filed_other (seen : list TopicRow) (row : TopicRow) (key : string) (topic : Topic) :
  actionKey row <> key -> filedUnder seen key topic ->
  filedUnder (seen ++ [row]) key topic.
Proof.
  intros Hother Hfiled. unfold filedUnder. rewrite rowsWithKey_snoc.
  destruct (decide (actionKey row = key)); [contradiction |].
  now rewrite app_nil_r.
Qed.

(** A row with the cluster's key is filed at its end. *)
Lemma filed_same (seen : list TopicRow) (row : TopicRow) (topic : Topic) :
  filedUnder seen (actionKey row) topic ->
  filedUnder (seen ++ [row]) (actionKey row)
    (mkTopic (t_type topic) (t_description topic)
       (addUser (t_users topic) (r_user_id row))
       (t_actions topic ++
          [mkTopicAction (r_description row) (r_details row) (r_user_id row)
             (r_created_at row)])
       (t_lastUpdate topic)).
Proof.
  intros (Hactions & (first & Hhead & Htype & Hdescription & Hupdate) & Hdistinct & Husers).
  unfold filedUnder. rewrite rowsWithKey_snoc.
  destruct (decide (actionKey row = actionKey row)); [| contradiction].
  cbn [t_actions t_type t_description t_lastUpdate t_users].
  split; [now rewrite map_app, Hactions |]. split.
  - exists first. split; [| auto].
    destruct (rowsWithKey seen (actionKey row)); [discriminate | exact Hhead].
  - split; [now apply addUser_NoDup |].
    intros userId. rewrite addUser_In, Husers, map_app, in_app_iff. cbn. intuition.
Qed.

(** The first row of a key opens its cluster. *)
Lemma filed_first (seen : list TopicRow) (row : TopicRow) :
  rowsWithKey seen (actionKey row) = [] ->
  filedUnder (seen ++ [row]) (actionKey row)
    (mkTopic (r_type row) (r_description row) (addUser [] (r_user_id row))
       ([] ++
          [mkTopicAction (r_description row) (r_details row) (r_user_id row)
             (r_created_at row)])
       (r_created_at row)).
Proof.
  intros Hnone. unfold filedUnder. rewrite rowsWithKey_snoc, Hnone.
  destruct (decide (actionKey row = actionKey row)); [| contradiction].
  cbn. split; [reflexivity |]. split; [exists row; auto |].
  split; [apply NoDup_singleton |]. intuition.
Qed.

Lemma upsertTopic_keys (key : string) (row : TopicRow) (topicMap : list (string * Topic)) :
  forall k, In k (map fst (upsertTopic key row topicMap))
            <-> In k (map fst topicMap) \/ k = key.
Proof.
  induction topicMap as [| [k' topic] rest IH]; intros k; cbn [upsertTopic].
  - cbn. intuition.
  - destruct (String.eqb_spec k' key) as [-> | Hother]; cbn.
    + intuition.
    + rewrite IH. intuition.
Qed.

Lemma upsertTopic_NoDup_keys (key : string) (row : TopicRow)
    (topicMap : list (string * Topic)) :
  NoDup (map fst topicMap) -> NoDup (map fst (upsertTopic key row topicMap)).
Proof.
  induction topicMap as [| [k topic] rest IH]; intros Hdistinct; cbn [upsertTopic].
  - cbn. apply NoDup_singleton.
  - cbn [map fst] in Hdistinct. apply NoDup_cons in Hdistinct.
    destruct Hdistinct as [Hfresh Hdistinct].
    destruct (String.eqb_spec k key) as [-> | Hother]; cbn.
    + apply NoDup_cons. now split.
    + apply NoDup_cons. split; [| now apply IH].
      rewrite list_elem_of_In, upsertTopic_keys, <- list_elem_of_In.
      intros [Hin | Heq]; [contradiction | congruence].
Qed.

(** An upsert keeps every cluster filed under its key. *)
Lemma upsertTopic_filed (seen : list TopicRow) (row : TopicRow)
    (topicMap : list (string * Topic)) :
  NoDup (map fst topicMap) ->
  Forall (fun entry => filedUnder seen (fst entry) (snd entry)) topicMap ->
  (~ In (actionKey row) (map fst topicMap) -> rowsWithKey seen (actionKey row) = []) ->
  Forall (fun entry => filedUnder (seen ++ [row]) (fst entry) (snd entry))
    (upsertTopic (actionKey row) row topicMap).
Proof.
  induction topicMap as [| [k topic] rest IH]; intros Hdistinct Hfiled Hfresh;
    cbn [upsertTopic].
  - constructor; [| constructor]. cbn [fst snd]. apply filed_first, Hfresh. intros [].
  - cbn [map fst] in Hdistinct. apply NoDup_cons in Hdistinct.
    destruct Hdistinct as [Hk Hdistinct].
    inversion Hfiled as [| ? ? Hhead Hrest]; subst. cbn [fst snd] in Hhead.
    destruct (String.eqb_spec k (actionKey row)) as [-> | Hother].
    + constructor; [cbn [fst snd]; now apply filed_same |].
      rewrite List.Forall_forall in Hrest |- *. intros [k' topic'] Hin.
      cbn [fst snd]. apply filed_other; [| apply (Hrest _ Hin)].
      intros Heq. apply Hk. apply list_elem_of_In, in_map_iff.
      exists (k', topic'). split; [cbn; congruence | exact Hin].
    + constructor; [cbn [fst snd]; apply filed_other; [congruence | exact Hhead] |].
      apply IH; [exact Hdistinct | exact Hrest |].
      intros Hnot. apply Hfresh. cbn. intros [Heq | Hin]; [congruence | contradiction].
Qed.

(** The loop of [loadGroupTopicContext] over the rows [seen] so far. *)
Lemma fold_upsert_filed (rows seen : list TopicRow) (topicMap : list (string * Topic)) :
  NoDup (map fst topicMap) ->
  (forall key, In key (map fst topicMap)
               <-> exists row, In row seen /\ actionKey row = key) ->
  Forall (fun entry => filedUnder seen (fst entry) (snd entry)) topicMap ->
  let result :=
    fold_left (fun topicMap row => upsertTopic (actionKey row) row topicMap) rows topicMap in
  NoDup (map fst result)
  /\ (forall key, In key (map fst result)
                  <-> exists row, In row (seen ++ rows) /\ actionKey row = key)
  /\ Forall (fun entry => filedUnder (seen ++ rows) (fst entry) (snd entry)) result.
Proof.
  revert seen topicMap. induction rows as [| row rows IH];
    intros seen topicMap Hdistinct Hkeys Hfiled; cbn [fold_left].
  - cbv zeta. rewrite app_nil_r. auto.
  - replace (seen ++ row :: rows) with ((seen ++ [row]) ++ rows)
      by now rewrite <- app_assoc.
    apply IH.
    + now apply upsertTopic_NoDup_keys.
    + intros key. rewrite upsertTopic_keys, Hkeys. split.
      * intros [(other & Hin & Hkey) | ->].
        -- exists other. split; [apply in_app_iff; now left | exact Hkey].
        -- exists row. split; [apply in_app_iff; right; now left | reflexivity].
      * intros (other & Hin & Hkey). apply in_app_iff in Hin.
        destruct Hin as [Hin | [<- | []]]; [left; now exists other | now right].
    + apply upsertTopic_filed; [exact Hdistinct | exact Hfiled |].
      intros Hnot. unfold rowsWithKey.
      destruct (filter _ seen) as [| other others] eqn:Hown; [reflexivity |].
      exfalso. apply Hnot, Hkeys. exists other.
      assert (Hin : other ∈ filter (fun r => actionKey r = actionKey row) seen)
        by (rewrite Hown; left).
      apply list_elem_of_filter in Hin. destruct Hin as [Hkey Hin].
      split; [now apply list_elem_of_In | exact Hkey].
Qed.

End Filing.

(** X17 — [loadGroupTopicContext] files every row of its query under
    exactly one cluster.  The clusters are those of the distinct keys of
    the rows, one each; the actions of a key's cluster are exactly the
    rows with that key, in the order of the query; the cluster's type,
    description and [lastUpdate] are those of the first row filed under
    it, and its users are the users of its rows, each once.  Hence the
    clusters' actions add up to the rows, there are no more clusters than
    rows, and no cluster is empty. *)
Theorem clusters_account_for_rows (rows : list TopicRow) :
  let topics := GroupTopicTracker.topicsOfRows rows in
  (exists keys : list string,
     NoDup keys
     /\ (forall key, In key keys
                     <-> exists row, In row rows /\ GroupTopicTracker.actionKey row = key)
     /\ Forall2 (filedUnder rows) keys topics)
  /\ length (concat (map t_actions topics)) = length rows
  /\ (length topics <= length rows)%nat
  /\ Forall clusterOfRows topics.
Proof.
  cbv zeta. unfold GroupTopicTracker.topicsOfRows. split.
  - destruct (fold_upsert_filed rows [] []) as (Hdistinct & Hkeys & Hfiled).
    + constructor.
    + intros key. cbn. split; [intros [] | intros (row & [] & _)].
    + constructor.
    + cbv zeta in *. cbn [app] in *.
      set (topicMap := fold_left _ rows []) in *.
      exists (map fst topicMap). split; [exact Hdistinct |]. split; [exact Hkeys |].
      clear Hdistinct Hkeys. induction topicMap as [| [key topic] rest IH]; cbn.
      * constructor.
      * inversion Hfiled as [| ? ? Hhead Hrest]; subst. constructor; auto.
  - destruct (fold_upsert_records rows [] ltac:(constructor)) as (Hgood & Hcount & Hlength).
    cbv zeta in *. rewrite map_map, length_map. cbn in Hcount, Hlength.
    split; [exact Hcount |]. split; [exact Hlength |].
    apply Forall_map. exact Hgood.
Qed.

(** ** The hourly sweep *)

Section Sweep.
Import Memory.

Lemma trimSignatures_suffix (signatures : list string) :
  suffix (trimSignatures signatures) signatures
  /\ (length (trimSignatures signatures) <= 50)%nat
  /\ ((length signatures <= 50)%nat -> trimSignatures signatures = signatures)
  /\ ((50 < length signatures)%nat -> length (trimSignatures signatures) = 30%nat).
Proof.
  unfold trimSignatures, Js.sliceLast.
  destruct (Nat.ltb_spec 50 (length signatures)) as [Hlong | Hshort].
  - split; [apply suffix_drop |]. rewrite length_drop. repeat split; lia.
  - repeat split; [reflexivity | lia | lia].
Qed.

(** What [trimSignatures] cuts from a set without repetitions is gone. *)
Lemma trimSignatures_forgets (signatures : list string) (i : nat) (signature : string) :
  NoDup signatures ->
  (50 < length signatures)%nat ->
  signatures !! i = Some signature ->
  (i + 30 < length signatures)%nat ->
  ~ In signature (trimSignatures signatures).
Proof.
  intros Hdistinct Hlong Hi Hold. unfold trimSignatures, Js.sliceLast.
  apply Nat.ltb_lt in Hlong. rewrite Hlong.
  intros Hin. apply list_elem_of_In, list_elem_of_lookup in Hin. destruct Hin as (j & Hj).
  rewrite lookup_drop in Hj.
  pose proof (NoDup_lookup _ _ _ _ Hdistinct Hi Hj). lia.
Qed.

(** The sweep of an inner map. *)
Lemma sweepInner_lookup {V : Type} (stale : V -> bool) (inner : gmap string V) :
  match sweepInner stale inner with
  | None => forall key value, inner !! key = Some value -> stale value = true
  | Some kept =>
      kept <> ∅
      /\ forall key value,
           kept !! key = Some value <-> (inner !! key = Some value /\ stale value = false)
  end.
Proof.
  unfold sweepInner.
  destruct (Nat.eqb_spec (size (filter (fun entry => stale (snd entry) = false) inner)) 0)
    as [Hempty | Hsome].
  - apply map_size_empty_iff in Hempty. intros key value Hkey.
    apply not_false_iff_true. intros Hfresh.
    assert (Hkept : filter (fun entry => stale (snd entry) = false) inner !! key = Some value)
      by (apply map_lookup_filter_Some; now split).
    rewrite Hempty in Hkept. now rewrite lookup_empty in Hkept.
  - split; [intros Hnil; apply Hsome; now rewrite Hnil |].
    intros key value. apply map_lookup_filter_Some.
Qed.

End Sweep.

(** X18 — [cleanup] bounds every signature set: a set of at most 50
    signatures is left as it is, a larger one is cut to its 30 most
    recent; no user is added or removed. *)
Theorem cleanup_trims_signatures (now : Z) (st : GrouperState) (userId : Z) :
  match st_duplicateTracker st !! userId with
  | None => st_duplicateTracker (Memory.cleanup now st) !! userId = None
  | Some signatures =>
      exists kept : list string,
        st_duplicateTracker (Memory.cleanup now st) !! userId = Some kept
        /\ suffix kept signatures
        /\ (length kept <= 50)%nat
        /\ ((length signatures <= 50)%nat -> kept = signatures)
        /\ ((50 < length signatures)%nat -> length kept = 30%nat)
  end.
Proof.
  unfold Memory.cleanup. cbn [st_duplicateTracker]. rewrite lookup_fmap.
  destruct (st_duplicateTracker st !! userId) as [signatures |]; [| reflexivity].
  exists (Memory.trimSignatures signatures). split; [reflexivity |].
  apply trimSignatures_suffix.
Qed.

(** X19 — The sweep makes the duplicate filter forget: a candidate
    whose signature is in the user's set, but not among its 30 most
    recent when the set has grown beyond 50, is suppressed before
    [cleanup] and accepted after it. *)
Theorem swept_signature_accepted_again (now : Z) (st : GrouperState) (userId : Z)
    (signatures : list string) (action : Action) (i : nat)
    (conversationHistory : list HistoryEntry) :
  st_duplicateTracker st !! userId = Some signatures ->
  NoDup signatures ->
  (50 < length signatures)%nat ->
  signatures !! i = Some (DuplicateGuard.createActionSignature action) ->
  (i + 30 < length signatures)%nat ->
  a_originalMessage action = None ->
  fst (DuplicateGuard.filterDuplicateActions (st_duplicateTracker st) [action] userId
         conversationHistory) = []
  /\ fst (DuplicateGuard.filterDuplicateActions
            (st_duplicateTracker (Memory.cleanup now st)) [action] userId
            conversationHistory) = [action].
Proof.
  intros Hset Hdistinct Hlong Hi Hold Hbare.
  unfold DuplicateGuard.filterDuplicateActions, Memory.cleanup.
  cbn [st_duplicateTracker fold_left]. rewrite lookup_fmap, Hset. cbn [fmap option_fmap
    option_map default].
  unfold DuplicateGuard.filterStep.
  rewrite (without_message_not_outgoing action Hbare).
  rewrite (without_message_never_similar action conversationHistory Hbare).
  assert (Hhas : Js.setHas signatures (DuplicateGuard.createActionSignature action) = true).
  { apply setHas_In, list_elem_of_In, list_elem_of_lookup. now exists i. }
  assert (Hgone : Js.setHas (Memory.trimSignatures signatures)
                    (DuplicateGuard.createActionSignature action) = false).
  { apply setHas_false. now apply (trimSignatures_forgets signatures i). }
  unfold id. rewrite Hhas, Hgone. split; reflexivity.
Qed.

Lemma swept_signature_accepted_again_witness :
  let action := Samples.candidate "task" "Send the quarterly report" (9 # 10) in
  let signatures :=
    DuplicateGuard.createActionSignature action :: map pretty (seq 0 50) in
  let st := mkGrouper ∅ ∅ {[7%Z := signatures]} ∅ in
  NoDup signatures
  /\ (50 < length signatures)%nat
  /\ fst (DuplicateGuard.filterDuplicateActions (st_duplicateTracker st) [action] 7 []) = []
  /\ fst (DuplicateGuard.filterDuplicateActions
            (st_duplicateTracker (Memory.cleanup 0 st)) [action] 7 []) = [action].
Proof.
  intros action signatures st.
  assert (Hdistinct : NoDup signatures)
    by (apply (@bool_decide_unpack _ (NoDup_dec signatures)); vm_compute; exact I).
  assert (Hlong : (50 < length signatures)%nat) by (vm_compute; lia).
  split; [exact Hdistinct |]. split; [exact Hlong |].
  apply (swept_signature_accepted_again 0 st 7 signatures action 0 []);
    [vm_compute; reflexivity | exact Hdistinct | exact Hlong | reflexivity
    | vm_compute; lia | reflexivity].
Defined.

(** X20 — [cleanup] on the two nested maps.  A chat's topic map is
    left with exactly its topics updated within the last 6 hours, and a
    user's buffer map with exactly its buffers that are empty or whose
    first message is at most an hour old; an inner map left without
    entries is removed, so no inner map is empty afterwards. *)
Theorem cleanup_sweeps_nested_maps (now : Z) (st : GrouperState)
    (chatId : string) (userId : Z) :
  match st_groupTopicTracker (Memory.cleanup now st) !! chatId with
  | None =>
      forall topicMap topicKey topic,
        st_groupTopicTracker st !! chatId = Some topicMap ->
        topicMap !! topicKey = Some topic ->
        (21600000 < now - tt_lastUpdate topic)%Z
  | Some kept =>
      kept <> ∅
      /\ exists topicMap,
           st_groupTopicTracker st !! chatId = Some topicMap
           /\ forall topicKey topic,
                kept !! topicKey = Some topic
                <-> (topicMap !! topicKey = Some topic
                     /\ (now - tt_lastUpdate topic <= 21600000)%Z)
  end
  /\ match st_messageBuffer (Memory.cleanup now st) !! userId with
     | None =>
         forall chatMap chat messages,
           st_messageBuffer st !! userId = Some chatMap ->
           chatMap !! chat = Some messages ->
           exists first rest,
             messages = first :: rest /\ (3600000 < now - m_timestamp first * 1000)%Z
     | Some kept =>
         kept <> ∅
         /\ exists chatMap,
              st_messageBuffer st !! userId = Some chatMap
              /\ forall chat messages,
                   kept !! chat = Some messages
                   <-> (chatMap !! chat = Some messages
                        /\ match messages with
                           | [] => True
                           | first :: _ => (now - m_timestamp first * 1000 <= 3600000)%Z
                           end)
     end.
Proof.
  unfold Memory.cleanup. cbn [st_groupTopicTracker st_messageBuffer].
  rewrite !lookup_omap. split.
  - destruct (st_groupTopicTracker st !! chatId) as [topicMap |]; cbn; [| discriminate].
    pose proof (sweepInner_lookup (Memory.staleTopic now) topicMap) as Hsweep.
    destruct (Memory.sweepInner (Memory.staleTopic now) topicMap) as [kept |].
    + destruct Hsweep as [Hsome Hkept]. split; [exact Hsome |].
      exists topicMap. split; [reflexivity |]. intros topicKey topic.
      rewrite Hkept. unfold Memory.staleTopic, GROUP_TOPIC_TIMEOUT_HOURS.
      rewrite Z.ltb_ge. reflexivity.
    + intros ? topicKey topic [= <-] Hkey. specialize (Hsweep topicKey topic Hkey).
      unfold Memory.staleTopic, GROUP_TOPIC_TIMEOUT_HOURS in Hsweep.
      now apply Z.ltb_lt in Hsweep.
  - destruct (st_messageBuffer st !! userId) as [chatMap |]; cbn; [| discriminate].
    pose proof (sweepInner_lookup (Memory.staleBuffer now) chatMap) as Hsweep.
    destruct (Memory.sweepInner (Memory.staleBuffer now) chatMap) as [kept |].
    + destruct Hsweep as [Hsome Hkept]. split; [exact Hsome |].
      exists chatMap. split; [reflexivity |]. intros chat messages.
      rewrite Hkept. unfold Memory.staleBuffer.
      destruct messages as [| first rest]; [tauto |].
      rewrite Z.ltb_ge. reflexivity.
    + intros ? chat messages [= <-] Hkey. specialize (Hsweep chat messages Hkey).
      unfold Memory.staleBuffer in Hsweep. destruct messages as [| first rest];
        [discriminate |].
      exists first, rest. split; [reflexivity |]. now apply Z.ltb_lt in Hsweep.
Qed.

(** X21 — [cleanup] on the conversation memory: every conversation
    key stays, also with nothing left under it; what is left under a key
    are its entries younger than 24 hours, in their order. *)
Theorem cleanup_keeps_fresh_history (now : Z) (st : GrouperState) (key : string) :
  match st_conversationHistory st !! key with
  | None => st_conversationHistory (Memory.cleanup now st) !! key = None
  | Some history =>
      exists kept : list MemoryEntry,
        st_conversationHistory (Memory.cleanup now st) !! key = Some kept
        /\ sublist kept history
        /\ forall item : MemoryEntry,
             In item kept <-> (In item history /\ (now - me_createdAt item < 86400000)%Z)
  end.
Proof.
  unfold Memory.cleanup. cbn [st_conversationHistory]. rewrite lookup_fmap.
  destruct (st_conversationHistory st !! key) as [history |]; [| reflexivity].
  eexists. split; [reflexivity |]. split; [apply sublist_filter |].
  intros item. rewrite <- !list_elem_of_In, list_elem_of_filter.
  unfold Memory.freshEntry, CONVERSATION_MEMORY_HOURS. rewrite Z.ltb_lt. tauto.
Qed.

(** ** The in-memory conversation history and topic tracker *)

Section MemoryUpdates.
Import Memory.

Lemma fold_unshift (now : Z) (actions : list Action) (history : list MemoryEntry) :
  fold_left (fun history action => memoryOf now action :: history) actions history
  = rev (map (memoryOf now) actions) ++ history.
Proof.
  revert history. induction actions as [| action actions IH]; intros history;
    [reflexivity |].
  cbn [fold_left map rev]. rewrite IH, <- app_assoc. reflexivity.
Qed.

(** One turn of the loop of [updateGroupTopicTracker] keeps what an
    earlier turn of the same call recorded, and records its own action. *)
Lemma trackAction_records (userId now : Z) (chatTopics : gmap string TrackedTopic)
    (action : Action) (key description : string) :
  (key = topicKey action /\ description = a_description action)
  \/ (exists topic, chatTopics !! key = Some topic
        /\ tt_lastUpdate topic = now /\ In userId (tt_users topic)
        /\ In (mkTrackedAction userId description now) (tt_actions topic)) ->
  exists topic, trackAction userId now chatTopics action !! key = Some topic
    /\ tt_lastUpdate topic = now /\ In userId (tt_users topic)
    /\ In (mkTrackedAction userId description now) (tt_actions topic).
Proof.
  intros Hcase. unfold trackAction.
  destruct (decide (key = topicKey action)) as [-> | Hother].
  - rewrite lookup_insert_eq. eexists. split; [reflexivity |]. cbn.
    split; [reflexivity |]. split; [apply addUser_In; now right |].
    apply in_app_iff. destruct Hcase as [[_ ->] | (topic & -> & _ & _ & Hin)].
    + right. now left.
    + left. exact Hin.
  - rewrite lookup_insert_ne by congruence.
    destruct Hcase as [[Hkey _] | Hkept]; [contradiction | exact Hkept].
Qed.

Lemma fold_trackAction_records (userId now : Z) (actions : list Action)
    (chatTopics : gmap string TrackedTopic) (key description : string) :
  (exists action, In action actions /\ key = topicKey action
                  /\ description = a_description action)
  \/ (exists topic, chatTopics !! key = Some topic
        /\ tt_lastUpdate topic = now /\ In userId (tt_users topic)
        /\ In (mkTrackedAction userId description now) (tt_actions topic)) ->
  exists topic, fold_left (trackAction userId now) actions chatTopics !! key = Some topic
    /\ tt_lastUpdate topic = now /\ In userId (tt_users topic)
    /\ In (mkTrackedAction userId description now) (tt_actions topic).
Proof.
  revert chatTopics. induction actions as [| first actions IH]; intros chatTopics Hcase;
    cbn [fold_left].
  - destruct Hcase as [(action & [] & _) | Hkept]. exact Hkept.
  - apply IH. destruct Hcase as [(action & [<- | Hin] & Hkey & Hdescription) | Hkept].
    + right. apply trackAction_records. now left.
    + left. now exists action.
    + right. apply trackAction_records. now right.
Qed.

End MemoryUpdates.

(** X22 — [updateConversationHistory] keeps a conversation's memory
    at 20 entries at most, newest first: the actions of the call in
    reverse order, then the older entries, cut after the twentieth.  The
    memory of other conversations is not touched. *)
Theorem conversation_memory_bounded (conversationHistory : gmap string (list MemoryEntry))
    (userId : Z) (chatId : string) (actions : list Action) (now : Z) :
  let updated :=
    Memory.updateConversationHistory conversationHistory userId chatId actions now in
  let key := Memory.conversationKey userId chatId in
  (exists history,
     updated !! key = Some history
     /\ (length history <= 20)%nat
     /\ history
        = take 20 (rev (map (Memory.memoryOf now) actions)
                   ++ default [] (conversationHistory !! key)))
  /\ forall other, other <> key -> updated !! other = conversationHistory !! other.
Proof.
  cbv zeta. unfold Memory.updateConversationHistory. split.
  - rewrite lookup_insert_eq. eexists. split; [reflexivity |].
    split; [rewrite length_take; lia |]. now rewrite fold_unshift.
  - intros other Hother. now rewrite lookup_insert_ne.
Qed.

(** X23 — After [updateGroupTopicTracker] every action of the call is
    on record under its topic key in the chat's topic map: the topic
    lists the user, holds the action with the user and the time of the
    call, and was last updated at that time.  A sweep up to 6 hours later
    keeps the topic. *)
Theorem tracked_topic_survives_sweep (st : GrouperState) (chatId : string)
    (actions : list Action) (userId now later : Z) (action : Action) :
  In action actions ->
  (later - now <= 21600000)%Z ->
  let tracked :=
    Memory.updateGroupTopicTracker (st_groupTopicTracker st) chatId actions userId now in
  let swept :=
    Memory.cleanup later
      (mkGrouper (st_messageBuffer st) (st_conversationHistory st)
         (st_duplicateTracker st) tracked) in
  forall tracker, tracker = tracked \/ tracker = st_groupTopicTracker swept ->
    exists chatTopics topic,
      tracker !! chatId = Some chatTopics
      /\ chatTopics !! Memory.topicKey action = Some topic
      /\ tt_lastUpdate topic = now
      /\ In userId (tt_users topic)
      /\ In (mkTrackedAction userId (a_description action) now) (tt_actions topic).
Proof.
  intros Hin Hsoon tracked swept.
  destruct (fold_trackAction_records userId now actions
              (default ∅ (st_groupTopicTracker st !! chatId))
              (Memory.topicKey action) (a_description action))
    as (topic & Hkey & Hupdate & Huser & Haction).
  { left. now exists action. }
  assert (Htracked : tracked !! chatId
                     = Some (fold_left (Memory.trackAction userId now) actions
                               (default ∅ (st_groupTopicTracker st !! chatId)))).
  { subst tracked. unfold Memory.updateGroupTopicTracker. apply lookup_insert_eq. }
  intros tracker [-> | ->].
  - eexists _, topic. split; [exact Htracked |]. auto.
  - pose proof (sweepInner_lookup (Memory.staleTopic later)
                  (fold_left (Memory.trackAction userId now) actions
                     (default ∅ (st_groupTopicTracker st !! chatId)))) as Hsweep.
    subst swept. unfold Memory.cleanup. cbn [st_groupTopicTracker].
    rewrite lookup_omap, Htracked. cbn.
    assert (Hfresh : Memory.staleTopic later topic = false).
    { unfold Memory.staleTopic, GROUP_TOPIC_TIMEOUT_HOURS. apply Z.ltb_ge. lia. }
    destruct (Memory.sweepInner _ _) as [kept |].
    + destruct Hsweep as [_ Hkept]. exists kept, topic. split; [reflexivity |].
      split; [apply Hkept; now split | auto].
    + specialize (Hsweep _ _ Hkey). congruence.
Qed.

Lemma tracked_topic_survives_sweep_witness :
  let action := Samples.candidate "task" "Send the quarterly report" (9 # 10) in
  let st := mkGrouper ∅ ∅ ∅ ∅ in
  let tracked :=
    Memory.updateGroupTopicTracker (st_groupTopicTracker st) "Project Team" [action] 7
      1700000000000 in
  let swept :=
    Memory.cleanup 1700020000000
      (mkGrouper (st_messageBuffer st) (st_conversationHistory st)
         (st_duplicateTracker st) tracked) in
  In action [action]
  /\ (1700020000000 - 1700000000000 <= 21600000)%Z
  /\ exists chatTopics topic,
       st_groupTopicTracker swept !! "Project Team" = Some chatTopics
       /\ chatTopics !! Memory.topicKey action = Some topic
       /\ tt_lastUpdate topic = 1700000000000%Z
       /\ In 7%Z (tt_users topic)
       /\ In (mkTrackedAction 7 (a_description action) 1700000000000) (tt_actions topic).
Proof.
  intros action st tracked swept.
  assert (Hin : In action [action]) by now left.
  assert (Hsoon : (1700020000000 - 1700000000000 <= 21600000)%Z) by lia.
  split; [exact Hin |]. split; [exact Hsoon |].
  exact (tracked_topic_survives_sweep st "Project Team" [action] 7 1700000000000
           1700020000000 action Hin Hsoon (st_groupTopicTracker swept)
           (or_intror eq_refl)).
Defined.

(** ** The session handlers *)

Section SessionFacts.
Import Session.

Lemma orString_nonempty (x : option string) (y : string) :
  y <> EmptyString -> ActionEmitter.orString x y <> EmptyString.
Proof.
  intros Hy. unfold ActionEmitter.orString. destruct x as [s |]; [| exact Hy].
  destruct (String.eqb_spec s EmptyString); assumption.
Qed.

(** What the checks of a handler have established when they let a
    message through. *)
Lemma screened_Some (message : TransportMessage) (messageData handed : Message)
    (existing : Answer nat) :
  screened message messageData existing = Some handed ->
  handed = messageData
  /\ (exists serialized, tm_id message = Some (Some serialized)
                         /\ serialized <> EmptyString)
  /\ Js.includes (m_from messageData) "status" = false
  /\ isBlank (m_body messageData) = false
  /\ existing = Answered 0%nat.
Proof.
  unfold screened. destruct (tm_id message) as [[serialized |] |]; try discriminate.
  destruct (String.eqb_spec serialized EmptyString) as [| Hserialized]; [discriminate |].
  destruct (Js.includes (m_from messageData) "status"); [discriminate |].
  destruct (isBlank (m_body messageData)); [discriminate |].
  destruct existing as [[| rows] |]; try discriminate.
  intros [= <-]. repeat split; eauto.
Qed.

Lemma handle_Some (handler : Handler) (message : TransportMessage)
    (getChat : Answer (option ChatInfo)) (getContact : Answer (option ContactInfo))
    (existing : Answer nat) (userId now : Z) (fallbackId : string) (handed : Message) :
  handle handler message getChat getContact existing userId now fallbackId = Some handed ->
  tm_fromMe message = match handler with OnMessage => false | OnMessageCreate => true end
  /\ screened message
       (messageDataOf message (fst (resolve message getChat getContact))
          (snd (resolve message getChat getContact)) userId now fallbackId)
       existing = Some handed.
Proof.
  unfold handle. destruct (resolve message getChat getContact) as [contact chat].
  cbn [fst snd].
  destruct handler, (tm_fromMe message), (tm_id message); cbn; try discriminate; auto.
Qed.

End SessionFacts.

(** X24 — The two handlers of the chat client split the traffic by
    direction: a transport message is handed to [processMessage] by at
    most one of them, incoming messages only by the [message] handler and
    the owner's only by the [message_create] handler, and the message
    handed on carries that direction. *)
Theorem handlers_split_by_direction (message : TransportMessage)
    (getChat : Answer (option ChatInfo)) (getContact : Answer (option ContactInfo))
    (existing : Answer nat) (userId now : Z) (fallbackId : string) :
  let incoming :=
    Session.handle Session.OnMessage message getChat getContact existing userId now
      fallbackId in
  let outgoing :=
    Session.handle Session.OnMessageCreate message getChat getContact existing userId now
      fallbackId in
  (incoming = None \/ outgoing = None)
  /\ (forall handed, incoming = Some handed ->
        tm_fromMe message = false /\ m_fromMe handed = false)
  /\ (forall handed, outgoing = Some handed ->
        tm_fromMe message = true /\ m_fromMe handed = true).
Proof.
  cbv zeta. split; [| split].
  - unfold Session.handle. destruct (tm_fromMe message); cbn; [left | right];
      now destruct (tm_id message).
  - intros handed Hsome. apply handle_Some in Hsome. destruct Hsome as [Hdirection Hsome].
    apply screened_Some in Hsome. destruct Hsome as (-> & _).
    split; [exact Hdirection |]. exact Hdirection.
  - intros handed Hsome. apply handle_Some in Hsome. destruct Hsome as [Hdirection Hsome].
    apply screened_Some in Hsome. destruct Hsome as (-> & _).
    split; [exact Hdirection |]. exact Hdirection.
Qed.

(** X25 — A message that a handler hands to [processMessage] is well
    formed: its id is the transport id, which is not empty; its sender is
    not empty and does not contain [status]; its body is not blank; its
    timestamp is not zero (the clock is not at zero); it belongs to the
    session's user and is not yet a grouped message; and the look-up
    found no action saved from it, so a look-up that throws drops the
    message. *)
Theorem handed_message_wellformed (handler : Session.Handler) (message : TransportMessage)
    (getChat : Answer (option ChatInfo)) (getContact : Answer (option ContactInfo))
    (existing : Answer nat) (userId now : Z) (fallbackId : string) (handed : Message) :
  now <> 0%Z ->
  Session.handle handler message getChat getContact existing userId now fallbackId
  = Some handed ->
  tm_id message = Some (Some (m_id handed))
  /\ m_id handed <> EmptyString
  /\ m_from handed <> EmptyString
  /\ Js.includes (m_from handed) "status" = false
  /\ m_body handed <> EmptyString
  /\ Session.isBlank (m_body handed) = false
  /\ m_timestamp handed <> 0%Z
  /\ m_userId handed = userId
  /\ m_isGroupedMessage handed = false
  /\ existing = Answered 0%nat.
Proof.
  intros Hclock Hsome. apply handle_Some in Hsome. destruct Hsome as [_ Hsome].
  apply screened_Some in Hsome.
  destruct Hsome as (-> & (serialized & Hid & Hserialized) & Hstatus & Hblank & Hexisting).
  set (contact := fst (Session.resolve message getChat getContact)) in *.
  set (chat := snd (Session.resolve message getChat getContact)) in *.
  assert (Hown : m_id (Session.messageDataOf message contact chat userId now fallbackId)
                 = serialized).
  { cbn. rewrite Hid. cbn. unfold ActionEmitter.orString.
    now destruct (String.eqb_spec serialized EmptyString). }
  rewrite Hown. split; [exact Hid |]. split; [exact Hserialized |].
  split; [cbn; now apply orString_nonempty |]. split; [exact Hstatus |].
  split; [| split; [exact Hblank |]].
  - intros Hempty. rewrite Hempty in Hblank. discriminate.
  - split; [cbn; now apply ingestTimestamp_nonzero |]. auto.
Qed.

Lemma handed_message_wellformed_witness :
  let message :=
    mkTransport (Some (Some "true_60123456789@c.us_3EB0")) (Some "60123456789@c.us") None
      (Some "please send the report") None false in
  let handed :=
    mkMessage "true_60123456789@c.us_3EB0" "60123456789" "Aina" "Aina"
      "please send the report" 1700000100000 false false 7 false None in
  Session.handle Session.OnMessage message
    (Answered (Some (mkChat (Some "Aina") false)))
    (Answered (Some (mkContact (Some "60123456789") (Some "Aina") None)))
    (Answered 0%nat) 7 1700000100000 "fallback_1" = Some handed
  /\ m_timestamp handed <> 0%Z.
Proof.
  intros message handed.
  assert (Hsome :
    Session.handle Session.OnMessage message
      (Answered (Some (mkChat (Some "Aina") false)))
      (Answered (Some (mkContact (Some "60123456789") (Some "Aina") None)))
      (Answered 0%nat) 7 1700000100000 "fallback_1" = Some handed) by reflexivity.
  split; [exact Hsome |].
  assert (Hclock : 1700000100000%Z <> 0%Z) by lia.
  exact (proj1 (proj2 (proj2 (proj2 (proj2 (proj2 (proj2
           (handed_message_wellformed _ _ _ _ _ _ _ _ _ Hclock Hsome)))))))).
Defined.

Lemma orString_Some (s y : string) :
  s <> EmptyString -> ActionEmitter.orString (Some s) y = s.
Proof.
  intros Hs. unfold ActionEmitter.orString.
  destruct (String.eqb_spec s EmptyString); [contradiction | reflexivity].
Qed.

Lemma orElse_Some (s : string) (y : option string) :
  s <> EmptyString -> Session.orElse (Some s) y = Some s.
Proof.
  intros Hs. unfold Session.orElse.
  destruct (String.eqb_spec s EmptyString); [contradiction | reflexivity].
Qed.

(** X26 — In a group chat the handlers do not look the contact up:
    whatever [getContact] would answer, the message data are the same;
    the sender is the envelope's author (its [from] without one), and the
    sender's name is built from it. *)
Theorem group_sender_from_envelope (message : TransportMessage) (chat : ChatInfo)
    (getContact getContact' : Answer (option ContactInfo))
    (userId now : Z) (fallbackId : string) :
  c_isGroup chat = true ->
  let resolved := Session.resolve message (Answered (Some chat)) getContact in
  let messageData :=
    Session.messageDataOf message (fst resolved) (snd resolved) userId now fallbackId in
  Session.resolve message (Answered (Some chat)) getContact' = resolved
  /\ m_isGroup messageData = true
  /\ m_from messageData
     = ActionEmitter.orString (Session.orElse (tm_author message) (tm_from message)) "unknown"
  /\ m_fromName messageData = ("Group Member (" ++ m_from messageData ++ ")")%string.
Proof.
  intros Hgroup. cbv zeta. unfold Session.resolve. rewrite Hgroup. cbn [fst snd].
  split; [reflexivity |]. split; [exact Hgroup |].
  assert (Hsender :
    ActionEmitter.orString (Session.orElse (tm_author message) (tm_from message)) "unknown"
    <> EmptyString) by (apply orString_nonempty; discriminate).
  set (contactId :=
    ActionEmitter.orString (Session.orElse (tm_author message) (tm_from message)) "unknown")
    in *.
  assert (Hfrom :
    m_from (Session.messageDataOf message
              (Some (mkContact (Some contactId)
                       (Some ("Group Member (" ++ contactId ++ ")")%string)
                       (Some ("Group Member (" ++ contactId ++ ")")%string)))
              (Some chat) userId now fallbackId) = contactId).
  { unfold Session.messageDataOf. cbn [m_from mbind option_bind k_number].
    now rewrite orElse_Some, orString_Some. }
  split; [exact Hfrom |]. rewrite Hfrom. reflexivity.
Qed.

Lemma group_sender_from_envelope_witness :
  let message :=
    mkTransport (Some (Some "false_120363@g.us_3EB0")) (Some "120363@g.us")
      (Some "60123456789@c.us") (Some "please send the report") (Some 1700000000%Z) false in
  let chat := mkChat (Some "Project Team") true in
  let resolved := Session.resolve message (Answered (Some chat)) Failed in
  let messageData := Session.messageDataOf message (fst resolved) (snd resolved) 7 0 "f" in
  c_isGroup chat = true
  /\ m_fromName messageData = ("Group Member (" ++ m_from messageData ++ ")")%string.
Proof.
  intros message chat resolved messageData. split; [reflexivity |].
  exact (proj2 (proj2 (proj2
           (group_sender_from_envelope message chat Failed Failed 7 0 "f" eq_refl)))).
Defined.

(** X27 — A chat look-up that throws does not drop the message: it is
    handed on under the same checks as any other, as a message of a
    one-to-one chat named [Unknown Chat] from [Unknown Contact], with the
    envelope's [from] (its author without one) as the sender, whatever
    [getContact] would have answered. *)
Theorem chat_lookup_failure_tolerated (handler : Session.Handler)
    (message : TransportMessage) (getContact : Answer (option ContactInfo))
    (existing : Answer nat) (userId now : Z) (fallbackId : string) :
  let resolved := Session.resolve message Failed getContact in
  let messageData :=
    Session.messageDataOf message (fst resolved) (snd resolved) userId now fallbackId in
  m_isGroup messageData = false
  /\ m_chatName messageData = "Unknown Chat"
  /\ m_fromName messageData = "Unknown Contact"
  /\ m_from messageData
     = ActionEmitter.orString (Session.orElse (tm_from message) (tm_author message)) "unknown"
  /\ (tm_fromMe message
      = match handler with Session.OnMessage => false | Session.OnMessageCreate => true end ->
      Session.handle handler message Failed getContact existing userId now fallbackId
      = Session.screened message messageData existing).
Proof.
  cbv zeta. cbn [Session.resolve fst snd]. repeat split.
  - unfold Session.messageDataOf. cbn [m_from mbind option_bind k_number].
    rewrite orElse_Some, orString_Some; try reflexivity;
      apply orString_nonempty; discriminate.
  - intros Hdirection. unfold Session.handle. cbn [Session.resolve]. rewrite Hdirection.
    destruct handler; cbn [negb]; unfold Session.screened;
      destruct (tm_id message) as [[serialized |] |]; reflexivity.
Qed.

(** ** What is saved and emitted *)

Section PayloadFacts.
Import ActionEmitter.

Lemma append_nonempty_r (s t : string) : t <> EmptyString -> (s ++ t)%string <> EmptyString.
Proof. intros Ht. destruct s; [exact Ht | discriminate]. Qed.

Lemma generateActionContent_nonempty (action : Action) (messageData : Message) :
  generateActionContent action messageData <> EmptyString.
Proof.
  unfold generateActionContent.
  destruct (m_isGroupedMessage messageData); [discriminate |].
  destruct (String.eqb (a_type action) "event"); [discriminate |].
  destruct (String.eqb (a_type action) "reminder"); [discriminate |].
  destruct (String.eqb (a_type action) "task"); [discriminate |].
  apply append_nonempty_r. discriminate.
Qed.

End PayloadFacts.

Lemma orString_absent (x : option string) (y : string) :
  x = None \/ x = Some EmptyString -> ActionEmitter.orString x y = y.
Proof. intros [-> | ->]; reflexivity. Qed.

(** X28 — The details that [saveAndEmitAction] saves and emits are
    complete whatever the classifier left out.  Title, content, priority,
    category, urgency reason and context are never empty.  Every value
    the classifier gave is kept: title, content, priority, category,
    urgency reason and context when they are not empty, the datetime and
    the suggested actions as they are.  For a value that is missing or
    empty the default stands in: the description, or the type followed
    by [Action], for the title; the generated content; the datetime
    extracted from the body; [medium]; the type, or [general]; the
    standard urgency reason; the standard suggestion; the analysis kind
    of the message.  The emitted confidence is the candidate's, or 0.8
    for a zero, so never zero, and the message count is at least 1. *)
Theorem emitted_details_complete (env : Collaborators) (action : Action)
    (messageData : Message) (actionId : string) :
  let details := ActionEmitter.actionDetailsOf env action messageData in
  let payload := ActionEmitter.payloadOf actionId action details messageData in
  let absent (value : option string) := value = None \/ value = Some EmptyString in
  (ad_title details <> EmptyString
   /\ ad_content details <> EmptyString
   /\ ad_priority details <> EmptyString
   /\ ad_category details <> EmptyString
   /\ ad_urgency_reason details <> EmptyString
   /\ ad_context details <> EmptyString)
  /\ ((forall value, ActionEmitter.detail action d_title = Some value ->
         value <> EmptyString -> ad_title details = value)
      /\ (forall value, ActionEmitter.detail action d_content = Some value ->
            value <> EmptyString -> ad_content details = value)
      /\ (forall value, ActionEmitter.detail action d_datetime = Some value ->
            ad_datetime details = Some value)
      /\ (forall value, ActionEmitter.detail action d_priority = Some value ->
            value <> EmptyString -> ad_priority details = value)
      /\ (forall value, ActionEmitter.detail action d_category = Some value ->
            value <> EmptyString -> ad_category details = value)
      /\ (forall value, ActionEmitter.detail action d_urgency_reason = Some value ->
            value <> EmptyString -> ad_urgency_reason details = value)
      /\ (forall value, ActionEmitter.detail action d_suggested_actions = Some value ->
            ad_suggested_actions details = value)
      /\ (forall value, ActionEmitter.detail action d_context = Some value ->
            value <> EmptyString -> ad_context details = value))
  /\ ((absent (ActionEmitter.detail action d_title) ->
       ad_title details
       = if String.eqb (a_description action) EmptyString
         then (a_type action ++ " Action")%string else a_description action)
      /\ (absent (ActionEmitter.detail action d_content) ->
          ad_content details = ActionEmitter.generateActionContent action messageData)
      /\ (ActionEmitter.detail action d_datetime = None ->
          ad_datetime details = extractDatetime env (m_body messageData))
      /\ (absent (ActionEmitter.detail action d_priority) -> ad_priority details = "medium")
      /\ (absent (ActionEmitter.detail action d_category) ->
          ad_category details
          = if String.eqb (a_type action) EmptyString then "general" else a_type action)
      /\ (absent (ActionEmitter.detail action d_urgency_reason) ->
          ad_urgency_reason details = "Detected from message analysis")
      /\ (ActionEmitter.detail action d_suggested_actions = None ->
          ad_suggested_actions details = ["Review and take action"])
      /\ (absent (ActionEmitter.detail action d_context) ->
          ad_context details
          = if m_isGroupedMessage messageData then "Grouped message analysis"
            else "Single message analysis"))
  /\ p_details payload = details
  /\ p_confidence payload
     = (if Qeq_bool (a_confidence action) 0 then 8 # 10 else a_confidence action)
  /\ ~ (p_confidence payload == 0)%Q
  /\ (1 <= p_messageCount payload)%nat.
Proof.
  cbv zeta. unfold ActionEmitter.actionDetailsOf.
  cbn [ad_title ad_content ad_priority ad_category ad_urgency_reason ad_context
         ad_suggested_actions ad_datetime].
  split; [| split; [| split; [| split; [| split; [| split]]]]].
  - split; [do 2 apply orString_nonempty; apply append_nonempty_r; discriminate |].
    split; [apply orString_nonempty, generateActionContent_nonempty |].
    split; [apply orString_nonempty; discriminate |].
    split; [do 2 apply orString_nonempty; discriminate |].
    split; [apply orString_nonempty; discriminate |].
    apply orString_nonempty. destruct (m_isGroupedMessage messageData); discriminate.
  - repeat split; intros value Hgiven; rewrite Hgiven; try reflexivity;
      intros Hvalue; now apply orString_Some.
  - repeat split; intros Habsent; try (rewrite Habsent; reflexivity);
      rewrite (orString_absent _ _ Habsent); reflexivity.
  - reflexivity.
  - reflexivity.
  - cbn [ActionEmitter.payloadOf p_confidence].
    destruct (Qeq_bool (a_confidence action) 0) eqn:Hzero.
    + intros Heq. discriminate Heq.
    + intros Heq. apply Qeq_bool_iff in Heq. congruence.
  - cbn [ActionEmitter.payloadOf p_messageCount].
    destruct (m_messageCount messageData) as [[| n] |]; lia.
Qed.

(** X29 — From a run to the live event: for a run of messages as the
    session handlers make them, the payload counts the messages of the
    run, says [isGroupedMessage] exactly for a run of two or more, and
    names the sender, the chat and the timestamp of the run's first
    message; a run of one message is emitted with that message's body. *)
Theorem payload_describes_the_run (env : Collaborators) (action : Action)
    (messageGroup : list Message) (first : Message) (rest : list Message)
    (actionId : string) :
  messageGroup = first :: rest ->
  Forall (fun m => m_messageCount m = None /\ m_isGroupedMessage m = false) messageGroup ->
  exists combinedMessage,
    Pipeline.createCombinedMessage env messageGroup = Some combinedMessage
    /\ let payload :=
         ActionEmitter.payloadOf actionId action
           (ActionEmitter.actionDetailsOf env action combinedMessage) combinedMessage in
       p_messageCount payload = length messageGroup
       /\ p_isGroupedMessage payload = (1 <? length messageGroup)%nat
       /\ p_from payload = m_from first
       /\ p_fromName payload = m_fromName first
       /\ p_chatName payload = m_chatName first
       /\ p_timestamp payload = m_timestamp first
       /\ p_isGroup payload = m_isGroup first
       /\ (rest = [] -> p_body payload = m_body first).
Proof.
  intros -> Hfresh. inversion Hfresh as [| ? ? [Hcount Hgrouped] _]; subst.
  destruct rest as [| second rest].
  - exists first. split; [reflexivity |]. cbn. rewrite Hcount, Hgrouped.
    repeat split; reflexivity.
  - eexists. split; [reflexivity |]. cbn. repeat split; try reflexivity. discriminate.
Qed.

Lemma payload_describes_the_run_witness :
  let env := Samples.collaborators (AIProcessor.Parsed []) (Rows tt) in
  let action := Samples.candidate "task" "Send the report" (9 # 10) in
  let first := Samples.message "a" "please send" 1700000000 false false in
  let second := Samples.message "b" "the report" 1700000010 false false in
  exists combinedMessage,
    Pipeline.createCombinedMessage env [first; second] = Some combinedMessage
    /\ p_messageCount
         (ActionEmitter.payloadOf "action_7" action
            (ActionEmitter.actionDetailsOf env action combinedMessage) combinedMessage)
       = 2%nat.
Proof.
  intros env action first second.
  destruct (payload_describes_the_run env action [first; second] first [second] "action_7"
              eq_refl ltac:(repeat constructor))
    as (combinedMessage & Hcombined & Hcount & _).
  exists combinedMessage. split; [exact Hcombined | exact Hcount].
Defined.

(** ** [deduplicateActions] of the session manager *)

Section TypeDedup.
Import SessionManager.

Lemma setIfBetter_keys (action : Action) (actionMap : list (string * Action)) :
  forall type, In type (map fst (setIfBetter action actionMap))
               <-> In type (map fst actionMap) \/ type = a_type action.
Proof.
  induction actionMap as [| [k existing] rest IH]; intros type; cbn [setIfBetter].
  - cbn. intuition.
  - destruct (String.eqb_spec k (a_type action)) as [-> | Hother]; cbn.
    + intuition.
    + rewrite IH. intuition.
Qed.

Lemma setIfBetter_invariant (seen : list Action) (action : Action)
    (actionMap : list (string * Action)) :
  bestByType seen actionMap -> bestByType (seen ++ [action]) (setIfBetter action actionMap).
Proof.
  revert seen. induction actionMap as [| [k existing] rest IH];
    intros seen (Hdistinct & Hentries & Hbest); cbn [setIfBetter].
  - split; [cbn; apply NoDup_singleton |]. split.
    + constructor; [| constructor]. cbn. split; [reflexivity |].
      apply in_app_iff. right. now left.
    + intros other Hin. apply in_app_iff in Hin. destruct Hin as [Hin | [<- | []]].
      * destruct (Hbest other Hin) as (best & [] & _).
      * exists action. split; [now left | apply Qle_refl].
  - cbn [map fst] in Hdistinct. apply NoDup_cons in Hdistinct.
    destruct Hdistinct as [Hfresh Hdistinct].
    inversion Hentries as [| ? ? [Hkey Hseen] Hrest]; subst. cbn [fst snd] in *.
    subst k.
    destruct (String.eqb_spec (a_type existing) (a_type action)) as [Hsame | Hother].
    + split; [cbn; apply NoDup_cons; now split |]. split.
      * constructor.
        -- cbn. destruct (Js.Qgtb (a_confidence action) (a_confidence existing));
             (split; [congruence | apply in_app_iff]); [right; now left | now left].
        -- eapply List.Forall_impl; [| exact Hrest]. intros entry [Hk Hin].
           split; [exact Hk | apply in_app_iff; now left].
      * intros other Hin. apply in_app_iff in Hin.
        assert (Hcases :
          a_type other = a_type existing
          /\ (a_confidence other
              <= a_confidence (if Js.Qgtb (a_confidence action) (a_confidence existing)
                               then action else existing))%Q
          \/ exists best, In (a_type other, best) rest
                          /\ (a_confidence other <= a_confidence best)%Q).
        { destruct Hin as [Hin | [<- | []]].
          - destruct (Hbest other Hin) as (best & [[= Htype <-] | Hlater] & Hle).
            + left. split; [congruence |].
              destruct (Js.Qgtb (a_confidence action) (a_confidence existing)) eqn:Hgt;
                [| exact Hle].
              apply Qgtb_lt in Hgt. eapply Qle_trans; [exact Hle | now apply Qlt_le_weak].
            + right. now exists best.
          - left. split; [congruence |].
            destruct (Js.Qgtb (a_confidence action) (a_confidence existing)) eqn:Hgt;
              [apply Qle_refl | now apply Qgtb_le]. }
        destruct Hcases as [[Htype Hle] | (best & Hlater & Hle)].
        -- eexists. split; [left; rewrite Htype; reflexivity | exact Hle].
        -- exists best. split; [now right | exact Hle].
    + assert (Hinner : bestByType (filter (fun a => a_type a <> a_type existing) seen) rest).
      { split; [exact Hdistinct |]. split.
        - rewrite List.Forall_forall in Hrest |- *. intros [k best] Hin.
          destruct (Hrest _ Hin) as [Hk Hs]. cbn [fst snd] in *. split; [exact Hk |].
          apply list_elem_of_In, list_elem_of_filter. split; [| now apply list_elem_of_In].
          intros Heq. apply Hfresh. apply list_elem_of_In, in_map_iff.
          exists (k, best). split; [cbn; congruence | exact Hin].
        - intros other Hin. apply list_elem_of_In, list_elem_of_filter in Hin.
          destruct Hin as [Hne Hin]. apply list_elem_of_In in Hin.
          destruct (Hbest other Hin) as (best & [[= Htype <-] | Hlater] & Hle);
            [congruence |].
          exists best. now split. }
      specialize (IH _ Hinner). destruct IH as (Hdistinct' & Hentries' & Hbest').
      split.
      * cbn. apply NoDup_cons. split; [| exact Hdistinct'].
        rewrite list_elem_of_In, setIfBetter_keys, <- list_elem_of_In. intros [Hin | Heq];
          [contradiction | congruence].
      * split.
        -- constructor; [cbn; split; [reflexivity | apply in_app_iff; now left] |].
           eapply List.Forall_impl; [| exact Hentries']. intros entry [Hk Hin].
           split; [exact Hk |]. apply in_app_iff in Hin. apply in_app_iff.
           destruct Hin as [Hin | Hin]; [left | now right].
           apply list_elem_of_In, list_elem_of_filter in Hin.
           now apply list_elem_of_In.
        -- intros other Hin.
           destruct (string_dec (a_type other) (a_type existing)) as [Htype | Htype].
           ++ apply in_app_iff in Hin. destruct Hin as [Hin | [<- | []]]; [| congruence].
              destruct (Hbest other Hin) as (best & [[= _ <-] | Hlater] & Hle).
              ** exists existing. split; [left; now rewrite Htype | exact Hle].
              ** exfalso. apply Hfresh. apply list_elem_of_In, in_map_iff.
                 exists (a_type other, best). split; [cbn; congruence | exact Hlater].
           ++ destruct (Hbest' other) as (best & Hlater & Hle).
              { apply in_app_iff in Hin. apply in_app_iff.
                destruct Hin as [Hin | Hin]; [left | now right].
                apply list_elem_of_In, list_elem_of_filter. split; [exact Htype |].
                now apply list_elem_of_In. }
              exists best. split; [now right | exact Hle].
Qed.

Lemma fold_setIfBetter_invariant (actions seen : list Action)
    (actionMap : list (string * Action)) :
  bestByType seen actionMap ->
  bestByType (seen ++ actions)
    (fold_left (fun actionMap action => setIfBetter action actionMap) actions actionMap).
Proof.
  revert seen actionMap. induction actions as [| action actions IH];
    intros seen actionMap Hinv; cbn [fold_left].
  - now rewrite app_nil_r.
  - replace (seen ++ action :: actions) with ((seen ++ [action]) ++ actions)
      by now rewrite <- app_assoc.
    apply IH, setIfBetter_invariant, Hinv.
Qed.

End TypeDedup.

(** X30 — [deduplicateActions] of the session manager keeps one action
    per type: the types of the result are pairwise different, every
    action of the result is one of the given ones, and every given action
    has its type in the result, held by an action of at least its
    confidence. *)
Theorem one_action_per_type (actions : list Action) :
  let result := SessionManager.deduplicateActions actions in
  NoDup (map a_type result)
  /\ (forall action, In action result -> In action actions)
  /\ forall action, In action actions ->
       exists best, In best result /\ a_type best = a_type action
                    /\ (a_confidence action <= a_confidence best)%Q.
Proof.
  cbv zeta. unfold SessionManager.deduplicateActions.
  destruct (fold_setIfBetter_invariant actions [] []) as (Hdistinct & Hentries & Hbest).
  { split; [constructor |]. split; [constructor |]. intros action []. }
  cbn [app] in *. rewrite List.Forall_forall in Hentries.
  set (actionMap := fold_left _ actions []) in *.
  assert (Htypes : map a_type (map snd actionMap) = map fst actionMap).
  { rewrite map_map. apply map_ext_in. intros entry Hin.
    symmetry. apply (Hentries entry Hin). }
  rewrite Htypes. split; [exact Hdistinct |]. split.
  - intros action Hin. apply in_map_iff in Hin. destruct Hin as (entry & <- & Hin).
    apply (Hentries entry Hin).
  - intros action Hin. destruct (Hbest action Hin) as (best & Hentry & Hle).
    exists best. split; [apply in_map_iff; now exists (a_type action, best) |].
    split; [| exact Hle]. symmetry. apply (Hentries _ Hentry).
Qed.
